(** * ASP Online: session-time accounting, window calendar and session
      lifecycle of [src/app/page.tsx] (and its two earlier iterations),
      as a shallow embedding.

    Instants are JavaScript time values: integer milliseconds since the
    epoch, as [Z].  An ISO timestamp string stored in a row is identified
    with the instant it denotes.  A time zone is the pair of offset
    functions of ECMAScript's [LocalTime] and [UTC] abstract operations;
    the zone named by [TZ] ("America/New_York") and the zone of the device
    are inputs of the model, with concrete zones defined for examples. *)

From Stdlib Require Import ZArith Lia List Bool Ascii String.
From Stdlib Require Import DecimalString DecimalZ DecimalN DecimalPos DecimalFacts.
From Stdlib Require QArith Qround.
From stdpp Require Import base option gmap strings list sorting.

Local Open Scope Z_scope.

(** ** Time values (ECMAScript "Time Values and Time Range") *)

Definition msPerMinute : Z := 60000.
Definition msPerHour : Z := 3600000.
Definition msPerDay : Z := 86400000.

Definition Day (t : Z) : Z := t / msPerDay.
Definition TimeWithinDay (t : Z) : Z := t mod msPerDay.
(** 0 = Sunday; 1 January 1970 was a Thursday. *)
Definition WeekDay (t : Z) : Z := (Day t + 4) mod 7.
Definition HourFromTime (t : Z) : Z := TimeWithinDay t / msPerHour.
Definition MinFromTime (t : Z) : Z := (t mod msPerHour) / msPerMinute.

(** Proleptic Gregorian date of a day number (days since 1 January 1970):
    year, month 1..12, day of month 1..31. *)
Definition civil_from_days (z0 : Z) : Z * Z * Z :=
  let z := z0 + 719468 in
  let era := z / 146097 in
  let doe := z mod 146097 in
  let yoe := (doe - doe / 1460 + doe / 36524 - doe / 146096) / 365 in
  let doy := doe - (365 * yoe + yoe / 4 - yoe / 100) in
  let mp := (5 * doy + 2) / 153 in
  let d := doy - (153 * mp + 2) / 5 + 1 in
  let m := if mp <? 10 then mp + 3 else mp - 9 in
  let y := yoe + era * 400 + (if m <=? 2 then 1 else 0) in
  (y, m, d).

(** Day number of a proleptic Gregorian date (ECMAScript [MakeDay] with the
    month counted from 1). *)
Definition days_from_civil (y m d : Z) : Z :=
  let y' := if m <=? 2 then y - 1 else y in
  let era := y' / 400 in
  let yoe := y' mod 400 in
  let mp := if 2 <? m then m - 3 else m + 9 in
  let doy := (153 * mp + 2) / 5 + d - 1 in
  let doe := yoe * 365 + yoe / 4 - yoe / 100 + doy in
  era * 146097 + doe - 719468.

Definition YearFromTime (t : Z) : Z := (civil_from_days (Day t)).1.1.
Definition MonthFromTime (t : Z) : Z := (civil_from_days (Day t)).1.2 - 1.
Definition DateFromTime (t : Z) : Z := (civil_from_days (Day t)).2.

(** ** Time zones *)

(** [utcOffset t] is the offset, in milliseconds, in force at the instant
    [t]; [localOffset lt] the one in force at the local time value [lt]
    (ECMAScript's LocalTZA with isUTC true and false). *)
Record Zone := {
  utcOffset : Z -> Z;
  localOffset : Z -> Z
}.

Definition LocalTime (z : Zone) (t : Z) : Z := t + utcOffset z t.
Definition UTC (z : Zone) (lt : Z) : Z := lt - localOffset z lt.

Definition fixedZone (offsetMs : Z) : Zone :=
  {| utcOffset := fun _ => offsetMs; localOffset := fun _ => offsetMs |}.

Definition utcZone : Zone := fixedZone 0.

(** The rules in force for America/New_York since 2007: daylight time from
    the second Sunday of March, 02:00 EST, to the first Sunday of November,
    02:00 EDT. *)
Definition firstSundayOnOrAfter (day : Z) : Z := day + (7 - (day + 4) mod 7) mod 7.

Definition usDstStartDay (y : Z) : Z := firstSundayOnOrAfter (days_from_civil y 3 8).
Definition usDstEndDay (y : Z) : Z := firstSundayOnOrAfter (days_from_civil y 11 1).

Definition EST : Z := - 5 * msPerHour.
Definition EDT : Z := - 4 * msPerHour.

Definition usEasternOffsetAt (t : Z) : Z :=
  let y := YearFromTime (t + EST) in
  if (usDstStartDay y * msPerDay + 2 * msPerHour - EST <=? t)
     && (t <? usDstEndDay y * msPerDay + 2 * msPerHour - EDT)
  then EDT else EST.

(** A local time skipped by the spring transition is read with the offset
    before it, a local time repeated by the autumn transition with the
    earlier offset, as ECMAScript's [UTC] does. *)
Definition usEasternOffsetAtLocal (lt : Z) : Z :=
  let y := YearFromTime lt in
  if (usDstStartDay y * msPerDay + 3 * msPerHour <=? lt)
     && (lt <? usDstEndDay y * msPerDay + 2 * msPerHour)
  then EDT else EST.

Definition usEastern : Zone :=
  {| utcOffset := usEasternOffsetAt; localOffset := usEasternOffsetAtLocal |}.

(** ** Strings and numbers of the platform *)

(** [Number.prototype.toString] on an integer. *)
Definition toString (n : Z) : string := NilZero.string_of_int (Z.to_int n).

Fixpoint repeatChar (c : ascii) (n : nat) : string :=
  match n with
  | O => EmptyString
  | S k => String c (repeatChar c k)
  end.

(** [String.prototype.padStart] with a one-character filler. *)
Definition padStart (width : nat) (c : ascii) (s : string) : string :=
  (repeatChar c (width - String.length s) +:+ s)%string.

Definition isDigit (c : ascii) : bool :=
  let n := nat_of_ascii c in (48 <=? n)%nat && (n <=? 57)%nat.

(** A string holds the UTF-8 bytes of its text, as a string literal of
    this file does. *)

Definition byte (n : Z) : ascii := ascii_of_N (Z.to_N n).

(** The UTF-8 form of a code point. *)
Definition utf8 (cp : Z) : string :=
  if cp <? 0x80 then String (byte cp) ""
  else if cp <? 0x800 then
    String (byte (0xC0 + cp / 0x40)) (String (byte (0x80 + cp mod 0x40)) "")
  else if cp <? 0x10000 then
    String (byte (0xE0 + cp / 0x1000))
      (String (byte (0x80 + cp / 0x40 mod 0x40)) (String (byte (0x80 + cp mod 0x40)) ""))
  else
    String (byte (0xF0 + cp / 0x40000))
      (String (byte (0x80 + cp / 0x1000 mod 0x40))
         (String (byte (0x80 + cp / 0x40 mod 0x40)) (String (byte (0x80 + cp mod 0x40)) ""))).

(** The white space of ECMAScript, [WhiteSpace] and [LineTerminator]:
    what [trim], [parseInt] and the class [\s] of a regular expression take
    for white space.  TAB, LF, VT, FF, CR, SP, NBSP, the other space
    separators of Unicode, LS, PS and ZWNBSP. *)
Definition whiteSpace : list Z :=
  [ 0x9; 0xA; 0xB; 0xC; 0xD; 0x20; 0xA0; 0x1680;
    0x2000; 0x2001; 0x2002; 0x2003; 0x2004; 0x2005; 0x2006; 0x2007; 0x2008;
    0x2009; 0x200A; 0x2028; 0x2029; 0x202F; 0x205F; 0x3000; 0xFEFF ].

(** The white space characters by their bytes ([skipSpace_utf8] and
    [skipSpace_spec] relate the tests to [whiteSpace]): those of one byte, *)
Definition isSpace (c : ascii) : bool :=
  let n := nat_of_ascii c in (n =? 32)%nat || ((9 <=? n)%nat && (n <=? 13)%nat).

(** the first byte of a character of more than one byte, *)
Definition isLead (c : ascii) : bool := (192 <=? nat_of_ascii c)%nat.

(** U+00A0, *)
Definition isSpace2 (a b : ascii) : bool :=
  (nat_of_ascii a =? 194)%nat && (nat_of_ascii b =? 160)%nat.

(** and U+1680, U+2000 to U+200A, U+2028, U+2029, U+202F, U+205F, U+3000
    and U+FEFF. *)
Definition isSpace3 (a b c : ascii) : bool :=
  let x := nat_of_ascii a in
  let y := nat_of_ascii b in
  let z := nat_of_ascii c in
  ((x =? 225) && (y =? 154) && (z =? 128)
   || (x =? 226) && (y =? 128)
      && ((128 <=? z) && (z <=? 138) || (z =? 168) || (z =? 169) || (z =? 175))
   || (x =? 226) && (y =? 129) && (z =? 159)
   || (x =? 227) && (y =? 128) && (z =? 128)
   || (x =? 239) && (y =? 187) && (z =? 191))%nat.

(** The rest of [s] after the white space character it begins with. *)
Definition skipSpace (s : string) : option string :=
  match s with
  | String a r1 =>
      if isSpace a then Some r1
      else if negb (isLead a) then None
      else match r1 with
           | String b r2 =>
               if isSpace2 a b then Some r2
               else match r2 with
                    | String c r3 => if isSpace3 a b c then Some r3 else None
                    | EmptyString => None
                    end
           | EmptyString => None
           end
  | EmptyString => None
  end.

(** [s] without its leading white space. *)
Fixpoint skipSpaces (s : string) : string :=
  match s with
  | String a r1 =>
      if isSpace a then skipSpaces r1
      else if negb (isLead a) then s
      else match r1 with
           | String b r2 =>
               if isSpace2 a b then skipSpaces r2
               else match r2 with
                    | String c r3 => if isSpace3 a b c then skipSpaces r3 else s
                    | EmptyString => s
                    end
           | EmptyString => s
           end
  | EmptyString => s
  end.

Fixpoint digitPrefix (s : string) : string :=
  match s with
  | String c r => if isDigit c then String c (digitPrefix r) else EmptyString
  | EmptyString => EmptyString
  end.

Definition parseDigits (s : string) : option Z :=
  match digitPrefix s with
  | EmptyString => None
  | ds => Z.of_N <$> (N.of_uint <$> NilZero.uint_of_string ds)
  end.

(** [parseInt(s, 10)]: leading white space, an optional sign, then the
    longest run of decimal digits; [None] stands for NaN. *)
Definition parseInt (s : string) : option Z :=
  match skipSpaces s with
  | String "-" r => Z.opp <$> parseDigits r
  | String "+" r => parseDigits r
  | r => parseDigits r
  end.

(** A number that the source reads with [parseInt] and then uses in
    arithmetic; the NaN case is mapped to 0 and shown unreachable for the
    parts the formatter produces ([parseInt_pad2], [parseInt_toString]). *)
Definition num (o : option Z) : Z := default 0 o.

Definition lowerAscii (c : ascii) : ascii :=
  let n := nat_of_ascii c in
  if (65 <=? n)%nat && (n <=? 90)%nat then ascii_of_nat (n + 32) else c.

Fixpoint toLowerCase (s : string) : string :=
  match s with
  | EmptyString => EmptyString
  | String c r => String (lowerAscii c) (toLowerCase r)
  end.

(** [s.startsWith(p)] *)
Definition startsWith (s p : string) : bool := String.prefix p s.

(** [a || b] on strings: the empty string and [undefined] are falsy. *)
Definition orElse (o : option string) (d : string) : string :=
  match o with
  | Some EmptyString | None => d
  | Some s => s
  end.

(** ** Config / helpers of page.tsx *)

Definition TWO_HOURS_MIN : Z := 120.
Definition TWO_HOURS_SEC : Z := TWO_HOURS_MIN * 60.

Definition pad2 (n : Z) : string := padStart 2 "0" (toString n).

Definition msToMin (ms : Z) : Z := Z.max 0 (ms / 60000).

Definition ASP_START_MIN : Z := 19 * 60 + 30.
Definition ASP_END_MIN : Z := 21 * 60 + 30.

Definition overlapMinutesET (aStartMin aEndMin bStartMin bEndMin : Z) : Z :=
  let a1 := Z.max aStartMin bStartMin in
  let b1 := Z.min aEndMin bEndMin in
  Z.max 0 (b1 - a1).

(** ** Intl.DateTimeFormat("en-US", { timeZone: TZ, ... }).formatToParts *)

Definition weekdayShort (wd : Z) : string :=
  match wd with
  | 0 => "Sun" | 1 => "Mon" | 2 => "Tue" | 3 => "Wed"
  | 4 => "Thu" | 5 => "Fri" | _ => "Sat"
  end%string.

(** The year field of the formatter is the year of the era. *)
Definition yearOfEra (y : Z) : Z := if 1 <=? y then y else 1 - y.

(** A part is a pair of its type and its value; the source folds the parts
    into an object keyed by type. *)
Definition partsObject (parts : list (string * string)) : gmap string string :=
  foldl (fun acc p => <[p.1 := p.2]> acc) ∅ parts.

Section ProgramZone.

(** The zone that the tz database gives for [TZ = "America/New_York"]. *)
Variable TZ : Zone.

(** Parts of [{ weekday: "short", hour: "2-digit", minute: "2-digit",
    hour12: false }]; [hour12: false] selects the hour cycle h23, hours
    from 00 to 23. *)
Definition formatToParts_weekday_hm (date : Z) : list (string * string) :=
  let lt := LocalTime TZ date in
  [ ("weekday", weekdayShort (WeekDay lt));
    ("literal", " ");
    ("hour", pad2 (HourFromTime lt));
    ("literal", ":");
    ("minute", pad2 (MinFromTime lt)) ]%string.

(** Parts of [{ year: "numeric", month: "2-digit", day: "2-digit",
    hour: "2-digit", minute: "2-digit", hour12: false }]. *)
Definition formatToParts_ymd_hm (d : Z) : list (string * string) :=
  let lt := LocalTime TZ d in
  [ ("month", pad2 (MonthFromTime lt + 1));
    ("literal", "/");
    ("day", pad2 (DateFromTime lt));
    ("literal", "/");
    ("year", toString (yearOfEra (YearFromTime lt)));
    ("literal", ", ");
    ("hour", pad2 (HourFromTime lt));
    ("literal", ":");
    ("minute", pad2 (MinFromTime lt)) ]%string.

(** ASP hours: Monday & Wednesday 19:30-21:30 ET *)
Definition isAspOpen (date : Z) : bool :=
  let parts := partsObject (formatToParts_weekday_hm date) in
  let weekday := toLowerCase (orElse (parts !! "weekday"%string) "") in
  let hour := num (parseInt (orElse (parts !! "hour"%string) "0")) in
  let minute := num (parseInt (orElse (parts !! "minute"%string) "0")) in
  let isMon := startsWith weekday "mon" in
  let isWed := startsWith weekday "wed" in
  let minutes := hour * 60 + minute in
  let start := 19 * 60 + 30 in
  let end_ := 21 * 60 + 30 in
  (isMon || isWed) && (start <=? minutes) && (minutes <? end_).

(** ET helpers *)
Record EtParts := { y : Z; m : Z; da : Z; h : Z; mi : Z }.

Definition etParts (d : Z) : EtParts :=
  let parts := partsObject (formatToParts_ymd_hm d) in
  {| y := num (parseInt (default "" (parts !! "year"%string)));
     m := num (parseInt (default "" (parts !! "month"%string)));
     da := num (parseInt (default "" (parts !! "day"%string)));
     h := num (parseInt (default "" (parts !! "hour"%string)));
     mi := num (parseInt (default "" (parts !! "minute"%string))) |}.

(** YYYY-MM-DD (ET) *)
Definition etDateKey (d : Z) : string :=
  let p := etParts d in
  (toString (y p) +:+ "-" +:+ pad2 (m p) +:+ "-" +:+ pad2 (da p))%string.

Definition minutesOfDayET (d : Z) : Z :=
  let p := etParts d in
  h p * 60 + mi p.

End ProgramZone.

(** ** Types *)

Inductive Klass := K1C | K2C | K3C | K4C.

Module Cadet.
Record t := { id : string; name : string; klass : Klass; company : string }.
End Cadet.

(** [sign_in] and [sign_out] are the instants of the ISO strings; a
    [sign_out] of [None] is [null]; an absent [voided] is [false], the
    default of the column. *)
Module Session.
Record t := {
  id : string;
  cadet_id : string;
  sign_in : Z;
  sign_out : option Z;
  voided : bool
}.
End Session.

#[global] Instance Klass_eq_dec : EqDecision Klass.
Proof. solve_decision. Defined.
#[global] Instance Cadet_eq_dec : EqDecision Cadet.t.
Proof. solve_decision. Defined.
#[global] Instance Session_eq_dec : EqDecision Session.t.
Proof. solve_decision. Defined.

(** [{ ...s, sign_out: v }] *)
Definition with_sign_out (v : option Z) (s : Session.t) : Session.t :=
  {| Session.id := Session.id s; Session.cadet_id := Session.cadet_id s;
     Session.sign_in := Session.sign_in s; Session.sign_out := v;
     Session.voided := Session.voided s |}.

Definition with_times (i : Z) (o : option Z) (s : Session.t) : Session.t :=
  {| Session.id := Session.id s; Session.cadet_id := Session.cadet_id s;
     Session.sign_in := i; Session.sign_out := o;
     Session.voided := Session.voided s |}.

(** [select('id,cadet_id,sign_in,sign_out')]: the row without its
    [voided] column. *)
Definition select4 (s : Session.t) : Session.t :=
  {| Session.id := Session.id s; Session.cadet_id := Session.cadet_id s;
     Session.sign_in := Session.sign_in s; Session.sign_out := Session.sign_out s;
     Session.voided := false |}.

(** ** Minute accounting *)

Section Accounting.

Variable TZ : Zone.

Definition minutesTonightET (sessions : list Session.t) (now : Z) : Z :=
  let tonightKey := etDateKey TZ now in
  let sum :=
    foldl (fun sum s =>
             let sin := Session.sign_in s in
             let sout := default now (Session.sign_out s) in
             if negb (String.eqb (etDateKey TZ sin) tonightKey) then sum
             else
               let a := minutesOfDayET TZ sin in
               let b := minutesOfDayET TZ sout in
               let seg := overlapMinutesET a b ASP_START_MIN ASP_END_MIN in
               sum + seg)
          0 sessions in
  Z.min sum TWO_HOURS_MIN.

(** The minutes that the loop adds for one session, and its date test. *)
Definition seg (now : Z) (s : Session.t) : Z :=
  overlapMinutesET (minutesOfDayET TZ (Session.sign_in s))
                   (minutesOfDayET TZ (default now (Session.sign_out s)))
                   ASP_START_MIN ASP_END_MIN.

Definition startedTonight (now : Z) (s : Session.t) : Prop :=
  etDateKey TZ (Session.sign_in s) = etDateKey TZ now.

#[global] Instance startedTonight_dec now s : Decision (startedTonight now s).
Proof. unfold startedTonight. apply _. Defined.

End Accounting.

(** [currentElapsedSec], on the active session and the ticking [nowTs]. *)
Definition currentElapsedSec (activeSession : option Session.t) (nowTs : Z) : Z :=
  match activeSession with
  | None => 0
  | Some a =>
      let start := Session.sign_in a in
      let end_ := default nowTs (Session.sign_out a) in
      let sec := Z.max 0 ((end_ - start) / 1000) in
      Z.min sec TWO_HOURS_SEC
  end.

(** The reduce shared by the local leaderboard, [userTotalLocal] and
    [totalFor]: raw minutes of every stored session of the cadet. *)
Definition localTotal (now : Z) (raw : list Session.t) (id : string) : Z :=
  foldl (fun acc s =>
           acc + msToMin (default now (Session.sign_out s) - Session.sign_in s))
        0 (filter (fun s => Session.cadet_id s = id) raw).

(** ** The remote store, the browser's localStorage and the component state *)

Record Db := {
  cadets : list Cadet.t;
  sessions : list Session.t;
  leaderboard_overrides : gmap string Z   (* cadet_id -> minutes_override *)
}.

(** The entries the component keeps in localStorage, by key:
    [asp_current_cadet], [asp_current_cadet_<id>], [asp_active_session],
    [asp_sessions]. *)
Record LocalStorage := {
  asp_current_cadet : option Cadet.t;
  asp_current_cadet_ : gmap string Cadet.t;
  asp_active_session : option Session.t;
  asp_sessions : list Session.t
}.

Module LeaderboardRow.
Record t := {
  cadetId : option string;
  name : string;
  klass : Klass;
  company : string;
  totalMin : Z
}.
End LeaderboardRow.

Inductive Status :=
  | MsgEnterNameAndClass      (* "Enter your name and class year." *)
  | MsgAspClosed              (* "ASP is closed right now (Mon/Wed 19:30-21:30 ET)." *)
  | MsgCadetSaveFailed
  | MsgResumed                (* "Resumed your active session." *)
  | MsgTwoHoursTonight        (* "You've already logged 2 hours tonight. ..." *)
  | MsgSignInFailed
  | MsgSignedIn
  | MsgSignedInLocal
  | MsgSignOutFailed
  | MsgSignedOut
  | MsgAutoSignedOut          (* "Auto signed out at 2 hours." *)
  | MsgSavedEdits
  | MsgSaveFailed.

#[global] Instance Status_eq_dec : EqDecision Status.
Proof. solve_decision. Defined.

(** The sign-in form: [name], [klass] ('none' is [None]) and [company]. *)
Record Form := { name : string; klass : option Klass; company : string }.

(** A draft row of the edit panel: the values of its two datetime-local
    inputs, in the zone of the device. *)
Record Draft := { draft_sign_in : string; draft_sign_out : string }.

Record Editor := {
  editCadet : option Cadet.t;
  editSessions : list Session.t;
  editDraft : list (string * Draft);   (* Object.entries order *)
  editOverride : string;
  savingEdits : bool
}.

Record Client := {
  cadet : option Cadet.t;
  activeSession : option Session.t;
  leaderboard : list LeaderboardRow.t;
  overridesMap : gmap string Z;
  statusMsg : option Status
}.

Record World := {
  db : Db;
  ls : LocalStorage;
  form : Form;
  ui : Client;
  editor : Editor
}.

Definition with_db (d : Db) (w : World) : World :=
  {| db := d; ls := ls w; form := form w; ui := ui w; editor := editor w |}.
Definition with_ls (l : LocalStorage) (w : World) : World :=
  {| db := db w; ls := l; form := form w; ui := ui w; editor := editor w |}.
Definition with_ui (u : Client) (w : World) : World :=
  {| db := db w; ls := ls w; form := form w; ui := u; editor := editor w |}.
Definition with_editor (x : Editor) (w : World) : World :=
  {| db := db w; ls := ls w; form := form w; ui := ui w; editor := x |}.

Definition with_sessions (l : list Session.t) (d : Db) : Db :=
  {| cadets := cadets d; sessions := l; leaderboard_overrides := leaderboard_overrides d |}.
Definition with_cadets (l : list Cadet.t) (d : Db) : Db :=
  {| cadets := l; sessions := sessions d; leaderboard_overrides := leaderboard_overrides d |}.
Definition with_overrides (o : gmap string Z) (d : Db) : Db :=
  {| cadets := cadets d; sessions := sessions d; leaderboard_overrides := o |}.

Definition setStatusMsg (s : Status) (w : World) : World :=
  with_ui {| cadet := cadet (ui w); activeSession := activeSession (ui w);
             leaderboard := leaderboard (ui w); overridesMap := overridesMap (ui w);
             statusMsg := Some s |} w.
Definition setCadet (c : Cadet.t) (w : World) : World :=
  with_ui {| cadet := Some c; activeSession := activeSession (ui w);
             leaderboard := leaderboard (ui w); overridesMap := overridesMap (ui w);
             statusMsg := statusMsg (ui w) |} w.
Definition setActiveSession (a : option Session.t) (w : World) : World :=
  with_ui {| cadet := cadet (ui w); activeSession := a;
             leaderboard := leaderboard (ui w); overridesMap := overridesMap (ui w);
             statusMsg := statusMsg (ui w) |} w.
Definition setLeaderboard (rows : list LeaderboardRow.t) (w : World) : World :=
  with_ui {| cadet := cadet (ui w); activeSession := activeSession (ui w);
             leaderboard := rows; overridesMap := overridesMap (ui w);
             statusMsg := statusMsg (ui w) |} w.
Definition setOverridesMap (o : gmap string Z) (w : World) : World :=
  with_ui {| cadet := cadet (ui w); activeSession := activeSession (ui w);
             leaderboard := leaderboard (ui w); overridesMap := o;
             statusMsg := statusMsg (ui w) |} w.

(** [localStorage.setItem("asp_active_session", ...)] / [removeItem] *)
Definition storeActiveSession (a : option Session.t) (w : World) : World :=
  with_ls {| asp_current_cadet := asp_current_cadet (ls w);
             asp_current_cadet_ := asp_current_cadet_ (ls w);
             asp_active_session := a;
             asp_sessions := asp_sessions (ls w) |} w.
Definition storeSessions (l : list Session.t) (w : World) : World :=
  with_ls {| asp_current_cadet := asp_current_cadet (ls w);
             asp_current_cadet_ := asp_current_cadet_ (ls w);
             asp_active_session := asp_active_session (ls w);
             asp_sessions := l |} w.

Definition saveLocalCadet (c : Cadet.t) (w : World) : World :=
  with_ls {| asp_current_cadet := Some c;
             asp_current_cadet_ := <[Cadet.id c := c]> (asp_current_cadet_ (ls w));
             asp_active_session := asp_active_session (ls w);
             asp_sessions := asp_sessions (ls w) |} w.

(** ** The environment of one handler run *)

(** The calls to the remote store that the handlers make. *)
Inductive Call :=
  | CadetsSelectExact
  | CadetsSelectIlike
  | CadetsSelectForRow
  | CadetsUpsert
  | SessionsSelectOpen
  | SessionsSelectRecent
  | SessionsInsert
  | SessionsUpdateSignOut
  | SessionsUpdateAuto
  | SessionsUpdateEdit (id : string)
  | OverridesSelect
  | OverridesUpsert
  | OverridesDelete.

(** [hasSupabase] is the configuration flag; [now] the clock reading of the
    run (a handler reads the clock at several points, [nyNow()],
    [Date.now()] and [new Date()]; a run is taken at one instant, so these
    readings agree; [signInStep] takes [handleSignIn] one await at a time,
    each step in an environment of its own); [uuidCadet] and [uuidSession] the results of its two
    [crypto.randomUUID()] calls; [fails c] tells whether the call [c]
    comes back with an error, in which case it has written nothing. *)
Record Env := {
  hasSupabase : bool;
  now : Z;
  uuidCadet : string;
  uuidSession : string;
  fails : Call -> bool
}.

(** ** Name normalization: trim, collapse spaces *)

(** [s] is one white space character. *)
Definition isWhiteSpace (s : string) : bool :=
  match skipSpace s with
  | Some EmptyString => true
  | _ => false
  end.

(** [s] without its trailing white space. *)
Fixpoint trimEnd (s : string) : string :=
  match s with
  | EmptyString => EmptyString
  | String c r =>
      let t := String c (trimEnd r) in
      if isWhiteSpace t then EmptyString else t
  end.

Definition trim (s : string) : string := trimEnd (skipSpaces s).

(** The replacement of a run of white space: one space, written when the
    run begins. *)
Definition spaceOnce (prev : bool) (rest : string) : string :=
  if prev then rest else String " " rest.

(** [s.replace(/\s+/g, " ")]; [prev] tells that the previous character was
    white space. *)
Fixpoint collapseSpaces (prev : bool) (s : string) : string :=
  match s with
  | EmptyString => EmptyString
  | String a r1 =>
      if isSpace a then spaceOnce prev (collapseSpaces true r1)
      else if negb (isLead a) then String a (collapseSpaces false r1)
      else match r1 with
           | String b r2 =>
               if isSpace2 a b then spaceOnce prev (collapseSpaces true r2)
               else match r2 with
                    | String c r3 =>
                        if isSpace3 a b c then spaceOnce prev (collapseSpaces true r3)
                        else String a (collapseSpaces false r1)
                    | EmptyString => String a (collapseSpaces false r1)
                    end
           | EmptyString => String a (collapseSpaces false r1)
           end
  end.

Definition normalizeName (raw : string) : string := collapseSpaces false (trim raw).

(** [s] ends with a white space character. *)
Definition endsWhite (s : string) : Prop :=
  exists pre cp, cp ∈ whiteSpace /\ s = (pre +:+ utf8 cp)%string.

(** The last byte of a string. *)
Fixpoint lastChar (s : string) : option ascii :=
  match s with
  | EmptyString => None
  | String a r => match r with EmptyString => Some a | _ => lastChar r end
  end.

(** ** Queries *)

(** [.maybeSingle()]: no row is [null] without error, several rows are an
    error ([None]). *)
Definition maybeSingle {A} (rows : list A) : option (option A) :=
  match rows with
  | [] => Some None
  | [r] => Some (Some r)
  | _ => None
  end.

(** Stable sort, largest key first: [rows.sort((a,b) => key(b) - key(a))]
    and [.order(col, { ascending: false })]. *)
Fixpoint insertDesc {A} (key : A -> Z) (x : A) (l : list A) : list A :=
  match l with
  | [] => [x]
  | y :: r => if key y <=? key x then x :: l else y :: insertDesc key x r
  end.

Definition sortDesc {A} (key : A -> Z) (l : list A) : list A :=
  foldr (insertDesc key) [] l.

(** Insertion order of [new Set(ids)]. *)
Fixpoint setOf (seen : list string) (ids : list string) : list string :=
  match ids with
  | [] => []
  | i :: r => if bool_decide (i ∈ seen) then setOf seen r else i :: setOf (i :: seen) r
  end.

Definition upsertCadet (c : Cadet.t) (l : list Cadet.t) : list Cadet.t :=
  if existsb (fun r => String.eqb (Cadet.id r) (Cadet.id c)) l
  then map (fun r => if String.eqb (Cadet.id r) (Cadet.id c) then c else r) l
  else l ++ [c].

(** [update(...).eq('id', id)] *)
Definition updateById (f : Session.t -> Session.t) (id : string)
    (l : list Session.t) : list Session.t :=
  map (fun s => if String.eqb (Session.id s) id then f s else s) l.

(** [hist.findIndex(s => s.id === id)] followed by [hist[idx] = f(hist[idx])]
    when [idx >= 0]. *)
Fixpoint updateFirst (f : Session.t -> Session.t) (id : string)
    (l : list Session.t) : option (list Session.t) :=
  match l with
  | [] => None
  | s :: r =>
      if String.eqb (Session.id s) id then Some (f s :: r)
      else cons s <$> updateFirst f id r
  end.

Definition THIRTY_SIX_HOURS : Z := 36 * 60 * 60 * 1000.

(** A leaderboard row as rendered: the row and its displayed total. *)
Module Shown.
Record t := { row : LeaderboardRow.t; total : Z }.
End Shown.

(** Rows returned by the leaderboard functions of the server. *)
Module RowDB.
Record v1 := {
  name : string; klass : Klass; company : string;
  total_min : QArith_base.Q
}.
Record v2 := { base : v1; cadet_id : string }.
End RowDB.

Section Handlers.

(** The zone of [TZ] and the zone of the device running the page. *)
Variable TZ : Zone.
Variable device : Zone.

(** Operators and functions of the server that the page only calls:
    Postgres' [ILIKE] (pattern, value) and the two leaderboard RPCs
    ([None] is a call that came back with an error). *)
Variable ilike : string -> string -> bool.
Variable asp_leaderboard_all_time_v2 : Db -> option (list RowDB.v2).
Variable asp_leaderboard_all_time : Db -> option (list RowDB.v1).

(** [Math.floor(Number(s))]; [None] when the result is not a finite number. *)
Variable floorNumber : string -> option Z.

(** *** Data loads *)

(** Local fallback (demo only) *)
Definition localLeaderboard (now : Z) (l : LocalStorage) : list LeaderboardRow.t :=
  let raw := asp_sessions l in
  let ids := setOf [] (map Session.cadet_id raw) in
  let rows :=
    omap (fun id =>
            c ← asp_current_cadet_ l !! id;
            Some {| LeaderboardRow.cadetId := None; LeaderboardRow.name := Cadet.name c;
                    LeaderboardRow.klass := Cadet.klass c; LeaderboardRow.company := Cadet.company c;
                    LeaderboardRow.totalMin := localTotal now raw id |}) ids in
  sortDesc LeaderboardRow.totalMin rows.

Definition rowOfV1 (cadId : option string) (r : RowDB.v1) : LeaderboardRow.t :=
  {| LeaderboardRow.cadetId := cadId; LeaderboardRow.name := RowDB.name r; LeaderboardRow.klass := RowDB.klass r;
     LeaderboardRow.company := RowDB.company r;
     LeaderboardRow.totalMin := Qround.Qfloor (RowDB.total_min r) |}.

Definition cadetIdForRow (e : Env) (d : Db) (r : RowDB.v1) : option string :=
  if fails e CadetsSelectForRow then None
  else Cadet.id <$>
       head (filter (fun c => Cadet.klass c = RowDB.klass r
                              ∧ Cadet.company c = RowDB.company r
                              ∧ ilike (RowDB.name r) (Cadet.name c) = true)
                    (cadets d)).

Definition fetchLeaderboard (e : Env) (w : World) : World :=
  let remote :=
    if hasSupabase e then
      match asp_leaderboard_all_time_v2 (db w) with
      | Some rows =>
          Some (map (fun r => rowOfV1 (Some (RowDB.cadet_id r)) (RowDB.base r)) rows)
      | None =>
          match asp_leaderboard_all_time (db w) with
          | Some base => Some (map (fun r => rowOfV1 (cadetIdForRow e (db w) r) r) base)
          | None => None
          end
      end
    else None in
  match remote with
  | Some rows => setLeaderboard rows w
  | None => setLeaderboard (localLeaderboard (now e) (ls w)) w
  end.

(** The effect that reloads [overridesMap] from the store. *)
Definition loadOverridesMap (e : Env) (w : World) : World :=
  if hasSupabase e && negb (fails e OverridesSelect)
  then setOverridesMap (leaderboard_overrides (db w)) w
  else w.

(** *** Sign-in *)

(** Step 1: find the existing cadet, exact normalized match first, then
    case-insensitive. *)
Definition resolveCadetId (e : Env) (d : Db) (canonicalName : string)
    (k : Klass) (company : string) : option string :=
  let sameKC c := Cadet.klass c = k ∧ Cadet.company c = company in
  let exact :=
    if fails e CadetsSelectExact then None
    else maybeSingle
           (filter (fun c => Cadet.name c = canonicalName ∧ sameKC c) (cadets d)) in
  match exact with
  | Some (Some row) => Some (Cadet.id row)
  | _ =>
      if fails e CadetsSelectIlike then None
      else Cadet.id <$>
           head (filter (fun c => ilike canonicalName (Cadet.name c) = true ∧ sameKC c)
                        (cadets d))
  end.

(** The cadet that the run signs in: a fresh id unless step 1 resolved a
    non-empty one. *)
Definition signInCadet (e : Env) (d : Db) (f : Form) (k : Klass) : Cadet.t :=
  let canonicalName := normalizeName (name f) in
  let cid :=
    if hasSupabase e then
      match resolveCadetId e d canonicalName k (company f) with
      | Some rid => if String.eqb rid "" then uuidCadet e else rid
      | None => uuidCadet e
      end
    else uuidCadet e in
  {| Cadet.id := cid; Cadet.name := canonicalName; Cadet.klass := k;
     Cadet.company := company f |}.

(** Step 3: the open session of the cadet. *)
Definition selectOpenSession (e : Env) (d : Db) (cid : string)
    : option (option Session.t) :=
  if fails e SessionsSelectOpen then None
  else maybeSingle
         (select4 <$> filter (fun s => Session.cadet_id s = cid
                                       ∧ Session.sign_out s = None) (sessions d)).

(** Step 4: the cadet's sessions that are not voided and were opened in
    the last 36 hours, latest first. *)
Definition selectRecentSessions (e : Env) (d : Db) (cid : string)
    : option (list Session.t) :=
  if fails e SessionsSelectRecent then None
  else Some (sortDesc Session.sign_in
               (filter (fun s => Session.cadet_id s = cid
                                 ∧ Session.voided s = false
                                 ∧ now e - THIRTY_SIX_HOURS <= Session.sign_in s)
                       (sessions d))).

(** Step 5: [insert(...).select().single()]; the id is the primary key. *)
Definition insertSession (e : Env) (d : Db) (s : Session.t)
    : option (Db * Session.t) :=
  if fails e SessionsInsert
     || existsb (fun r => String.eqb (Session.id r) (Session.id s)) (sessions d)
  then None
  else Some (with_sessions (sessions d ++ [s]) d, s).

Definition signedIn (msg : Status) (c : Cadet.t) (s : Session.t) (e : Env)
    (w : World) : World :=
  fetchLeaderboard e
    (setStatusMsg msg
       (storeActiveSession (Some s)
          (setActiveSession (Some s) (saveLocalCadet c (setCadet c w))))).

Definition handleSignIn (e : Env) (w : World) : World :=
  match klass (form w) with
  | None => setStatusMsg MsgEnterNameAndClass w
  | Some k =>
    if String.eqb (name (form w)) "" then setStatusMsg MsgEnterNameAndClass w
    else if negb (isAspOpen TZ (now e)) then setStatusMsg MsgAspClosed w
    else
      let c := signInCadet e (db w) (form w) k in
      let newSession :=
        {| Session.id := uuidSession e; Session.cadet_id := Cadet.id c;
           Session.sign_in := now e; Session.sign_out := None;
           Session.voided := false |} in
      if hasSupabase e then
        if fails e CadetsUpsert then setStatusMsg MsgCadetSaveFailed w
        else
          let w1 := with_db (with_cadets (upsertCadet c (cadets (db w))) (db w)) w in
          match selectOpenSession e (db w1) (Cadet.id c) with
          | Some (Some existing) => signedIn MsgResumed c existing e w1
          | _ =>
            let capped :=
              match selectRecentSessions e (db w1) (Cadet.id c) with
              | Some recent => TWO_HOURS_MIN <=? minutesTonightET TZ recent (now e)
              | None => false
              end in
            if capped then setStatusMsg MsgTwoHoursTonight w1
            else
              match insertSession e (db w1) newSession with
              | None => setStatusMsg MsgSignInFailed w1
              | Some (db2, inserted) => signedIn MsgSignedIn c inserted e (with_db db2 w1)
              end
          end
      else
        signedIn MsgSignedInLocal c newSession e
          (storeSessions (asp_sessions (ls w) ++ [newSession]) w)
  end.

(** *** Sign-out *)

Definition signedOut (msg : Status) (e : Env) (w : World) : World :=
  fetchLeaderboard e
    (setStatusMsg msg (storeActiveSession None (setActiveSession None w))).

Definition handleSignOut (e : Env) (w : World) : World :=
  match activeSession (ui w) with
  | None => w
  | Some a =>
    if hasSupabase e then
      (* update(...).eq('id', ...).select().single() *)
      if fails e SessionsUpdateSignOut
         || negb (length (filter (fun s => Session.id s = Session.id a)
                                 (sessions (db w))) =? 1)%nat
      then setStatusMsg MsgSignOutFailed w
      else
        signedOut MsgSignedOut e
          (with_db (with_sessions
                      (updateById (with_sign_out (Some (now e))) (Session.id a)
                                  (sessions (db w))) (db w)) w)
    else
      signedOut MsgSignedOut e
        match updateFirst (with_sign_out (Some (now e))) (Session.id a)
                          (asp_sessions (ls w)) with
        | Some hist => storeSessions hist w
        | None => w
        end
  end.

(** *** Live ticker + client auto sign-out at 2h *)

Definition end2h (a : Session.t) : Z := Session.sign_in a + TWO_HOURS_SEC * 1000.


(** The timer callback, for the session [a] captured when it was armed. *)
Definition autoSignOut (e : Env) (a : Session.t) (w : World) : World :=
  let iso := end2h a in
  signedOut MsgAutoSignedOut e
    (if hasSupabase e then
       if fails e SessionsUpdateAuto then w
       else with_db (with_sessions
                       (updateById (with_sign_out (Some iso)) (Session.id a)
                                   (sessions (db w))) (db w)) w
     else
       match updateFirst (with_sign_out (Some iso)) (Session.id a)
                         (asp_sessions (ls w)) with
       | Some hist => storeSessions hist w
       | None => w
       end).

(** *** Admin edit flow *)

(** datetime-local helpers (the user's local zone for inputs); page.tsx
    inlines them as [fmt] and [new Date(v).toISOString()]. *)
Definition isoToLocalInput (iso : Z) : string :=
  let lt := LocalTime device iso in
  (toString (YearFromTime lt) +:+ "-" +:+ pad2 (MonthFromTime lt + 1) +:+ "-"
   +:+ pad2 (DateFromTime lt) +:+ "T" +:+ pad2 (HourFromTime lt) +:+ ":"
   +:+ pad2 (MinFromTime lt))%string.

Definition digitsValue (s : string) : option Z :=
  (fun d => Z.of_N (N.of_uint d)) <$> NilZero.uint_of_string s.

(** [new Date(val).toISOString()] on a "YYYY-MM-DDTHH:mm" value, read as a
    local time; [None] is the RangeError of an invalid date. *)
Definition localInputToIso (val : string) : option Z :=
  if (String.length val =? 16)%nat
     && String.eqb (substring 4 1 val) "-" && String.eqb (substring 7 1 val) "-"
     && String.eqb (substring 10 1 val) "T" && String.eqb (substring 13 1 val) ":"
  then
    y ← digitsValue (substring 0 4 val);
    mo ← digitsValue (substring 5 2 val);
    d ← digitsValue (substring 8 2 val);
    h ← digitsValue (substring 11 2 val);
    mi ← digitsValue (substring 14 2 val);
    if bool_decide (civil_from_days (days_from_civil y mo d) = (y, mo, d))
       && (h <=? 23) && (mi <=? 59)
    then Some (UTC device (days_from_civil y mo d * msPerDay
                           + h * msPerHour + mi * msPerMinute))
    else None
  else None.

(** The draft that the edit panel shows for a loaded session. *)
Definition draftOf (s : Session.t) : string * Draft :=
  (Session.id s,
   {| draft_sign_in := isoToLocalInput (Session.sign_in s);
      draft_sign_out := match Session.sign_out s with
                        | Some o => isoToLocalInput o
                        | None => ""
                        end |}).

(** One entry of [updates]: id, sign_in, sign_out. *)
Definition draftUpdate (entry : string * Draft) : option (string * Z * option Z) :=
  sin ← localInputToIso (draft_sign_in entry.2);
  if String.eqb (draft_sign_out entry.2) ""
  then Some (entry.1, sin, None)
  else sout ← localInputToIso (draft_sign_out entry.2); Some (entry.1, sin, Some sout).

(** 1) Save session edits: the loop stops at the first failing update. *)
Fixpoint saveSessionEdits (e : Env) (updates : list (string * Z * option Z))
    (l : list Session.t) : list Session.t * bool :=
  match updates with
  | [] => (l, true)
  | (id, sin, sout) :: rest =>
      if fails e (SessionsUpdateEdit id) then (l, false)
      else saveSessionEdits e rest (updateById (with_times sin sout) id l)
  end.

(** 2) Save manual override (if provided); a payload that is not a number
    is refused by the store. *)
Definition saveOverride (e : Env) (cadetId : string) (editOverride : string)
    (d : Db) : Db * bool :=
  let trimmed := trim editOverride in
  if (0 <? String.length trimmed)%nat then
    match floorNumber trimmed with
    | Some n =>
        let minutes := Z.max 0 n in
        if fails e OverridesUpsert then (d, false)
        else (with_overrides (<[cadetId := minutes]> (leaderboard_overrides d)) d, true)
    | None => (d, false)
    end
  else
    (if fails e OverridesDelete then d
     else with_overrides (delete cadetId (leaderboard_overrides d)) d, true).

Definition setSavingEdits (b : bool) (w : World) : World :=
  with_editor {| editCadet := editCadet (editor w);
                 editSessions := editSessions (editor w);
                 editDraft := editDraft (editor w);
                 editOverride := editOverride (editor w);
                 savingEdits := b |} w.

Definition cancelEdits (w : World) : World :=
  with_editor {| editCadet := None; editSessions := []; editDraft := [];
                 editOverride := ""; savingEdits := savingEdits (editor w) |} w.

Definition saveEdits (e : Env) (w : World) : World :=
  match editCadet (editor w) with
  | Some ec =>
    if hasSupabase e then
      let w0 := setSavingEdits true w in
      let failed w' := setSavingEdits false (setStatusMsg MsgSaveFailed w') in
      match mapM draftUpdate (editDraft (editor w)) with
      | None => failed w0
      | Some updates =>
        match saveSessionEdits e updates (sessions (db w)) with
        | (l1, false) => failed (with_db (with_sessions l1 (db w)) w0)
        | (l1, true) =>
          match saveOverride e (Cadet.id ec) (editOverride (editor w))
                             (with_sessions l1 (db w)) with
          | (db2, false) => failed (with_db db2 w0)
          | (db2, true) =>
              setSavingEdits false
                (fetchLeaderboard e
                   (cancelEdits (setStatusMsg MsgSavedEdits (with_db db2 w0))))
          end
        end
      end
    else w
  | None => w
  end.

(** *** Leaderboard render *)

(** The rows of one tab ([None] is the tab 'all'). *)
Definition shownRows (tab : option Klass) (leaderboard : list LeaderboardRow.t)
    (overridesMap : gmap string Z) : list Shown.t :=
  sortDesc Shown.total
    ((fun r =>
        let override :=
          match LeaderboardRow.cadetId r with
          | Some cid => if String.eqb cid "" then None else overridesMap !! cid
          | None => None
          end in
        {| Shown.row := r; Shown.total := default (LeaderboardRow.totalMin r) override |})
     <$> filter (fun r => tab = None ∨ tab = Some (LeaderboardRow.klass r)) leaderboard).

(** The "PMI Days" cell. *)
Definition pmiDays (r : Shown.t) : Z := Shown.total r / 240.

(** *** Next session *)

Definition getDate (t : Z) : Z := DateFromTime (LocalTime device t).
Definition getDay (t : Z) : Z := WeekDay (LocalTime device t).

(** ECMAScript [MakeDay], month counted from 0. *)
Definition MakeDay (year month date : Z) : Z :=
  days_from_civil year (month + 1) 1 + date - 1.

Definition setDate (t : Z) (dt : Z) : Z :=
  let lt := LocalTime device t in
  UTC device (MakeDay (YearFromTime lt) (MonthFromTime lt) dt * msPerDay
              + TimeWithinDay lt).

Definition setHours (t : Z) (hour min sec ms : Z) : Z :=
  let lt := LocalTime device t in
  UTC device (Day lt * msPerDay
              + (hour * msPerHour + min * msPerMinute + sec * 1000 + ms)).

Definition nextWindowCandidates (now : Z) : list Z :=
  let targetDays := [1; 3] in   (* Mon, Wed *)
  omap (fun add =>
          let d := setDate now (getDate now + add) in
          let dow := getDay d in
          if bool_decide (dow ∈ targetDays) then Some (setHours d 19 30 0 0)
          else None)
       (seqZ 0 8).

(** The instant [upcoming] that [nextWindow] formats for display; [None]
    is [undefined]. *)
Definition nextWindow (now : Z) : option Z :=
  let candidates := nextWindowCandidates now in
  match List.find (fun d => now <? d) candidates with
  | Some d => Some d
  | None => head candidates
  end.

End Handlers.

(** ** The notions of the specification, on wall-clock time *)

Definition wallWeekday (z : Zone) (t : Z) : Z := WeekDay (LocalTime z t).

Definition wallMinuteOfDay (z : Zone) (t : Z) : Z :=
  TimeWithinDay (LocalTime z t) / msPerMinute.

(** The calendar date of an instant in a zone: year, month, day of the
    month. *)
Definition calendarDate (z : Zone) (t : Z) : Z * Z * Z :=
  civil_from_days (Day (LocalTime z t)).

(** The date as the formatter shows it, with the year of the era; from
    the year 1 on it is the calendar date. *)
Definition shownDate (z : Zone) (t : Z) : Z * Z * Z :=
  let lt := LocalTime z t in
  (yearOfEra (YearFromTime lt), MonthFromTime lt + 1, DateFromTime lt).

Definition sumZ (l : list Z) : Z := foldr Z.add 0 l.

(** Overlap, in minutes, of the minute-of-day interval from [a] to [b]
    with the open window: the number of minutes of the day that lie in
    both. *)
Definition windowOverlap (a b : Z) : Z :=
  Z.of_nat (length (filter (fun m => a <= m < b ∧ 1170 <= m < 1290) (seqZ 0 1440))).

(** The minute at which [t] falls, counted from the start of the
    calendar day of [t0] in the zone: the minute of the day for an instant of
    that day, 1440 and more on a later day, negative on an earlier one. *)
Definition minuteFromDayOf (z : Zone) (t0 t : Z) : Z :=
  (Day (LocalTime z t) - Day (LocalTime z t0)) * 1440 + wallMinuteOfDay z t.

(** [accruedTonight] as the specification words it: over the sessions
    whose start date is the date of [now], the overlap of the session, from
    its start to its end (to [now] while it is open), with the open window
    of that date; the overlaps summed and the sum clamped.  Instants count
    by the minute they fall in, as the minutes of day of the window do, and
    the end is placed by its own date: a session that ends on the next day
    reaches past minute 1440. *)
Definition accruedTonight (z : Zone) (sessions : list Session.t) (now : Z) : Z :=
  let today := calendarDate z now in
  let overlaps :=
    (fun s => windowOverlap (wallMinuteOfDay z (Session.sign_in s))
                            (minuteFromDayOf z (Session.sign_in s)
                               (default now (Session.sign_out s))))
    <$> filter (fun s => calendarDate z (Session.sign_in s) = today) sessions in
  Z.max 0 (Z.min (sumZ overlaps) 120).

(** The session ends (is seen at [now], while it is open) on the calendar
    date of its sign-in. *)
Definition endsOnSignInDate (z : Zone) (now : Z) (s : Session.t) : Prop :=
  calendarDate z (default now (Session.sign_out s)) = calendarDate z (Session.sign_in s).

(** The invariant of the session table: at most one open session per
    participant. *)
Definition openSessionsOf (cid : string) (l : list Session.t) : list Session.t :=
  filter (fun s => Session.cadet_id s = cid ∧ Session.sign_out s = None) l.

Definition atMostOneOpen (l : list Session.t) : Prop :=
  forall cid, (length (openSessionsOf cid l) <= 1)%nat.

(** The sessions of a participant that are not voided. *)
Definition nonVoidOf (cid : string) (l : list Session.t) : list Session.t :=
  filter (fun s => Session.cadet_id s = cid ∧ Session.voided s = false) l.

(** The table that holds the sessions in each mode. *)
Definition storedSessions (e : Env) (w : World) : list Session.t :=
  if hasSupabase e then sessions (db w) else asp_sessions (ls w).

(** The session updates of [saveEdits], applied in order. *)
Definition applyEdits (updates : list (string * Z * option Z))
    (l : list Session.t) : list Session.t :=
  foldl (fun l u => updateById (with_times u.1.2 u.2) u.1.1 l) l updates.

(** The raw whole minutes of a session, to [now] while it is open. *)
Definition rawMinutes (now : Z) (s : Session.t) : Z :=
  Z.max 0 ((default now (Session.sign_out s) - Session.sign_in s) / 60000).

(** 19:30 of the day [add] days after the day of [now], in the zone at
    the fixed offset [o]. *)
Definition openingOfDay (o now add : Z) : Z :=
  (Day (now + o) + add) * msPerDay + 1170 * msPerMinute - o.

(** ** Concrete inputs for the examples *)

(** The instant of a UTC date and time of day. *)
Definition utc (y m d hh mm ss : Z) : Z :=
  days_from_civil y m d * msPerDay + hh * msPerHour + mm * msPerMinute + ss * 1000.

(** [ILIKE] on a pattern without wildcards. *)
Definition ilikePlain (pattern value : string) : bool :=
  String.eqb (toLowerCase pattern) (toLowerCase value).

Definition rpcDown {A} (_ : Db) : option (list A) := None.

Definition noFailure (_ : Call) : bool := false.

(** The run in which exactly the call [c] comes back with an error. *)
Definition failing (c : Call) (c' : Call) : bool :=
  match c, c' with
  | CadetsUpsert, CadetsUpsert
  | SessionsSelectOpen, SessionsSelectOpen
  | SessionsSelectRecent, SessionsSelectRecent
  | SessionsInsert, SessionsInsert => true
  | SessionsUpdateEdit a, SessionsUpdateEdit b => String.eqb a b
  | _, _ => false
  end.

Definition envAt (remote : bool) (now : Z) (fails : Call -> bool) : Env :=
  {| hasSupabase := remote; now := now;
     uuidCadet := "cadet-new"; uuidSession := "session-new"; fails := fails |}.

(** The environment of a click at [now] whose run has no failing call. *)
Definition clickAt (now : Z) (session : string) : Env :=
  {| hasSupabase := true; now := now; uuidCadet := "cadet-new";
     uuidSession := session; fails := noFailure |}.

Definition ada : Cadet.t :=
  {| Cadet.id := "cadet-ada"; Cadet.name := "Ada Lovelace";
     Cadet.klass := K1C; Cadet.company := "G1" |}.

Definition session (id : string) (sign_in : Z) (sign_out : option Z) : Session.t :=
  {| Session.id := id; Session.cadet_id := "cadet-ada";
     Session.sign_in := sign_in; Session.sign_out := sign_out;
     Session.voided := false |}.

Definition noEditor : Editor :=
  {| editCadet := None; editSessions := []; editDraft := [];
     editOverride := ""; savingEdits := false |}.

Definition idleUi : Client :=
  {| cadet := None; activeSession := None; leaderboard := [];
     overridesMap := ∅; statusMsg := None |}.

Definition emptyStorage : LocalStorage :=
  {| asp_current_cadet := None; asp_current_cadet_ := ∅;
     asp_active_session := None; asp_sessions := [] |}.

(** A world whose remote store holds Ada and the given sessions, with
    the sign-in form filled in with the given name. *)
Definition remoteWorld (typed : string) (l : list Session.t) : World :=
  {| db := {| cadets := [ada]; sessions := l; leaderboard_overrides := ∅ |};
     ls := emptyStorage;
     form := {| name := typed; klass := Some K1C; company := "G1" |};
     ui := idleUi; editor := noEditor |}.

(** Monday 1 September 2025, in daylight time (UTC-4): 19:30 ET is 23:30
    UTC, and 20:31 ET is 00:31 UTC of the next day. *)
Definition twoLongSessions : list Session.t :=
  [ session "s1" (utc 2025 9 1 23 30 0) (Some (utc 2025 9 2 0 31 0));
    session "s2" (utc 2025 9 1 23 30 0) (Some (utc 2025 9 2 0 31 0)) ].

Definition oneOpenSession : list Session.t :=
  [ session "s1" (utc 2025 9 1 23 35 0) None ].

(** A session from 21:00 ET on Monday to 00:30 ET on Tuesday. *)
Definition overMidnight : Session.t :=
  session "s1" (utc 2025 9 2 1 0 0) (Some (utc 2025 9 2 4 30 0)).

(** A session from 20:00 ET on Monday to 20:30 ET on Tuesday. *)
Definition untilTuesday : Session.t :=
  session "s1" (utc 2025 9 2 0 0 0) (Some (utc 2025 9 3 0 30 0)).

(** A session from 19:00 ET to 22:00 ET on Monday. *)
Definition mondayEvening : Session.t :=
  session "s1" (utc 2025 9 1 23 0 0) (Some (utc 2025 9 2 2 0 0)).

Definition localWorld (l : list Session.t) : World :=
  {| db := {| cadets := []; sessions := []; leaderboard_overrides := ∅ |};
     ls := {| asp_current_cadet := Some ada;
              asp_current_cadet_ := {[ "cadet-ada"%string := ada ]};
              asp_active_session := None; asp_sessions := l |};
     form := {| name := "Ada Lovelace"; klass := Some K1C; company := "G1" |};
     ui := idleUi; editor := noEditor |}.

(** The edit panel opened on Ada's two sessions on a device in UTC, the
    first sign-in moved from 23:30 to 23:00. *)
Definition editingWorld : World :=
  with_editor
    {| editCadet := Some ada; editSessions := twoLongSessions;
       editDraft :=
         [ ("s1"%string, {| draft_sign_in := "2025-09-01T23:00";
                            draft_sign_out := "2025-09-02T00:31" |});
           draftOf utcZone (session "s2" (utc 2025 9 1 23 30 0)
                                         (Some (utc 2025 9 2 0 31 0))) ];
       editOverride := "1000"; savingEdits := false |}
    (remoteWorld "Ada Lovelace" twoLongSessions).

(** ** More of the page: display, mounting, maintenance and the admin key *)

(** Sessions, latest first, that follow one another within the day: by
    the minute of the day in the zone, each one ends (at [now] while it is
    open) no later than [hi] and no earlier than it begins, and the ones
    listed after it end no later than it begins. *)
Fixpoint chained (z : Zone) (now hi : Z) (l : list Session.t) : Prop :=
  match l with
  | [] => True
  | s :: r =>
      wallMinuteOfDay z (Session.sign_in s)
        <= wallMinuteOfDay z (default now (Session.sign_out s)) <= hi
      /\ chained z now (wallMinuteOfDay z (Session.sign_in s)) r
  end.

(** ** Display helpers *)

(** [%] is the remainder that takes the sign of the dividend, [Z.rem];
    the arguments are whole numbers of seconds and minutes. *)
Definition formatHMS (totalSeconds : Z) : string :=
  let h := totalSeconds / 3600 in
  let m := Z.rem totalSeconds 3600 / 60 in
  let s := Z.rem totalSeconds 60 in
  (pad2 h +:+ ":" +:+ pad2 m +:+ ":" +:+ pad2 s)%string.

Definition formatHM (totalMinutes : Z) : string :=
  let h := totalMinutes / 60 in
  let m := Z.rem totalMinutes 60 in
  (toString h +:+ "h " +:+ toString m +:+ "m")%string.

(** *** Mounting the page *)

(** The state a freshly mounted component starts from: the initial values
    of its [useState] calls, over the stores as they are. *)
Definition initialForm : Form := {| name := ""; klass := None; company := "G1" |}.

Definition freshPage (w : World) : World :=
  {| db := db w; ls := ls w; form := initialForm; ui := idleUi; editor := noEditor |}.

(** Load cached identity / session *)
Definition loadCached (w : World) : World :=
  let w1 := match asp_current_cadet (ls w) with
            | Some c => setCadet c w
            | None => w
            end in
  match asp_active_session (ls w1) with
  | Some s => setActiveSession (Some s) w1
  | None => w1
  end.

(** The component state mirrors what the page cached in localStorage. *)
Definition cacheCoherent (w : World) : Prop :=
  cadet (ui w) = asp_current_cadet (ls w)
  /\ activeSession (ui w) = asp_active_session (ls w).

Section Mount.

Variable ilike : string -> string -> bool.
Variable asp_leaderboard_all_time_v2 : Db -> option (list RowDB.v2).
Variable asp_leaderboard_all_time : Db -> option (list RowDB.v1).

(** The effects of the first render: the cached identity and session, the
    leaderboard, the overrides. *)
Definition mount (e : Env) (w : World) : World :=
  loadOverridesMap e
    (fetchLeaderboard ilike asp_leaderboard_all_time_v2 asp_leaderboard_all_time e
       (loadCached (freshPage w))).

End Mount.

(** *** The edit panel on a device at a fixed offset *)

(** The instant at the start of the minute of [t] on a device [o]
    milliseconds ahead of UTC. *)
Definition startOfMinute (o t : Z) : Z := t - (t + o) mod msPerMinute.

(** The year of the instant shows with four digits on that device. *)
Definition fourDigitYear (o t : Z) : Prop := 1000 <= YearFromTime (t + o) <= 9999.

(** The update that the draft of an untouched row stands for. *)
Definition truncated (o : Z) (s : Session.t) : string * Z * option Z :=
  (Session.id s, startOfMinute o (Session.sign_in s),
   startOfMinute o <$> Session.sign_out s).

(** *** Leaderboard maintenance *)

(** [{ ...s, voided: true }] *)
Definition with_voided (v : bool) (s : Session.t) : Session.t :=
  {| Session.id := Session.id s; Session.cadet_id := Session.cadet_id s;
     Session.sign_in := Session.sign_in s; Session.sign_out := Session.sign_out s;
     Session.voided := v |}.

(** [update({ voided: true }).eq("cadet_id", cadetId).eq("voided", false)] *)
Definition voidSessionsOf (cadetId : string) (l : list Session.t) : list Session.t :=
  map (fun s => if bool_decide (Session.cadet_id s = cadetId /\ Session.voided s = false)
                then with_voided true s else s) l.

(** [hist.map(s => s.cadet_id === cadetId ? { ...s, voided: true } : s)] *)
Definition voidHistoryOf (cadetId : string) (l : list Session.t) : list Session.t :=
  map (fun s => if String.eqb (Session.cadet_id s) cadetId then with_voided true s else s) l.

(** The calls to the remote store that the maintenance tools make, and
    the messages they put in [statusMsg]; a maintenance handler returns its
    message beside the world. *)
Inductive AdminCall := CadetsSelectForRemoval | SessionsVoid | SessionsVoidAll.

Inductive AdminMsg :=
  | MsgCouldNotResolveCadet     (* "Could not resolve cadet id." *)
  | MsgRemovedCadetSessions     (* "Removed cadet sessions." *)
  | MsgRemovedEntry             (* "Removed cadet's leaderboard entry." *)
  | MsgRemoveFailed             (* "Failed to remove entry: ..." *)
  | MsgResetComplete            (* "Leaderboard reset complete." *)
  | MsgResetFailed.             (* "Reset failed: ..." *)

Section Maintenance.

Variable ilike : string -> string -> bool.
Variable asp_leaderboard_all_time_v2 : Db -> option (list RowDB.v2).
Variable asp_leaderboard_all_time : Db -> option (list RowDB.v1).

(** The Remove button of a leaderboard row in page.tsx; [confirmed] is
    the answer to its [confirm(...)].  The result of the update is not
    looked at. *)
Definition removeFromLeaderboard (e : Env) (adminFails : AdminCall -> bool)
    (confirmed : bool) (r : LeaderboardRow.t) (w : World) : World * option AdminMsg :=
  if negb (hasSupabase e) then (w, None)
  else if negb confirmed then (w, None)
  else
    let cadId :=
      match LeaderboardRow.cadetId r with
      | Some id => if String.eqb id "" then None else Some id
      | None => None
      end in
    let cadId :=
      match cadId with
      | Some id => Some id
      | None =>
          if adminFails CadetsSelectForRemoval then None
          else Cadet.id <$>
               head (filter (fun c => ilike (LeaderboardRow.name r) (Cadet.name c) = true
                                      /\ Cadet.klass c = LeaderboardRow.klass r
                                      /\ Cadet.company c = LeaderboardRow.company r)
                            (cadets (db w)))
      end in
    match cadId with
    | Some (String a id' as id) =>
        let d := if adminFails SessionsVoid then db w
                 else with_sessions (voidSessionsOf id (sessions (db w))) (db w) in
        (fetchLeaderboard ilike asp_leaderboard_all_time_v2 asp_leaderboard_all_time e
           (with_db d w),
         Some MsgRemovedCadetSessions)
    | _ => (w, Some MsgCouldNotResolveCadet)
    end.

(** [fetchLeaderboard] of the earlier iterations: one RPC, rows without
    cadet ids. *)
Definition fetchLeaderboardV1 (e : Env) (w : World) : World :=
  let remote := if hasSupabase e then asp_leaderboard_all_time (db w) else None in
  match remote with
  | Some rows => setLeaderboard (map (rowOfV1 None) rows) w
  | None => setLeaderboard (localLeaderboard (now e) (ls w)) w
  end.

(** [voidCadetSessions] of the earlier iterations. *)
Definition voidCadetSessions (e : Env) (adminFails : AdminCall -> bool)
    (cadetId : string) (w : World) : World * AdminMsg :=
  let r :=
    if hasSupabase e then
      if adminFails SessionsVoid then (w, MsgRemoveFailed)
      else (with_db (with_sessions (voidSessionsOf cadetId (sessions (db w))) (db w)) w,
            MsgRemovedEntry)
    else (storeSessions (voidHistoryOf cadetId (asp_sessions (ls w))) w, MsgRemovedEntry) in
  (fetchLeaderboardV1 e r.1, r.2).

(** [resetLeaderboardAll] of the second iteration. *)
Definition resetLeaderboardAll (e : Env) (adminFails : AdminCall -> bool)
    (confirmed : bool) (w : World) : World * option AdminMsg :=
  if negb confirmed then (w, None)
  else
    let r :=
      if hasSupabase e then
        if adminFails SessionsVoidAll then (w, MsgResetFailed)
        else (with_db (with_sessions
                         (map (fun s => if bool_decide (Session.voided s = false)
                                        then with_voided true s else s)
                              (sessions (db w))) (db w)) w,
              MsgResetComplete)
      else (storeSessions (map (with_voided true) (asp_sessions (ls w))) w,
            MsgResetComplete) in
    (fetchLeaderboardV1 e r.1, Some r.2).

End Maintenance.

(** *** Admin key guard *)

(** The admin part of the component state, [adminMode] and [adminKey],
    with the localStorage entry [asp_admin_unlocked]. *)
Record AdminState := {
  adminMode : bool;
  adminKey : string;
  asp_admin_unlocked : option string
}.

Section AdminKey.

(** [process.env.NEXT_PUBLIC_ASP_ADMIN_KEY] *)
Variable NEXT_PUBLIC_ASP_ADMIN_KEY : option string.

Definition ADMIN_KEY : string := trim (default "" NEXT_PUBLIC_ASP_ADMIN_KEY).

(** The effect of the first render that reads the stored flag. *)
Definition adminUnlockedEffect (a : AdminState) : AdminState :=
  if bool_decide (asp_admin_unlocked a = Some "1"%string)
  then {| adminMode := true; adminKey := adminKey a;
          asp_admin_unlocked := asp_admin_unlocked a |}
  else a.

(** The effect that runs at the first render and when [adminKey] changes. *)
Definition adminKeyEffect (a : AdminState) : AdminState :=
  let entered := trim (adminKey a) in
  if negb (String.eqb entered "") && negb (String.eqb ADMIN_KEY "")
     && String.eqb entered ADMIN_KEY
  then {| adminMode := true; adminKey := adminKey a; asp_admin_unlocked := Some "1"%string |}
  else a.

(** Typing into the key input. *)
Definition setAdminKey (k : string) (a : AdminState) : AdminState :=
  adminKeyEffect {| adminMode := adminMode a; adminKey := k;
                    asp_admin_unlocked := asp_admin_unlocked a |}.

Definition disableAdmin (a : AdminState) : AdminState :=
  adminKeyEffect {| adminMode := false; adminKey := ""; asp_admin_unlocked := None |}.

(** A reload of the page: the state starts afresh over the stored flag. *)
Definition adminMount (a : AdminState) : AdminState :=
  adminKeyEffect
    (adminUnlockedEffect {| adminMode := false; adminKey := "";
                            asp_admin_unlocked := asp_admin_unlocked a |}).

End AdminKey.

(** *** Sign-in, one await at a time *)

(** [handleSignIn] is an async function: a click runs it to its first
    [await], and each answer of the store resumes it until the next one.
    Between two of its awaits another run, started by a second click or in
    another tab, can take steps of its own.  A [SignInRun] is what a run
    holds while it waits: the call it awaits, the cadet it signs in and what
    it computed for the call. *)
Inductive SignInRun :=
  | AwaitCadetsExact (c : Cadet.t)                  (* 1) the exact match *)
  | AwaitCadetsIlike (c : Cadet.t)                  (* 1) the case-insensitive match *)
  | AwaitCadetsUpsert (c : Cadet.t)                 (* 2) *)
  | AwaitOpenSession (c : Cadet.t)                  (* 3) *)
  | AwaitRecentSessions (c : Cadet.t) (since : Z)   (* 4) *)
  | AwaitInsert (c : Cadet.t) (s : Session.t)       (* 5) *)
  | AwaitLeaderboard        (* [void fetchLeaderboard()], taken in one step *)
  | Returned.

(** [if (resolvedId) c.id = resolvedId] *)
Definition resolved (resolvedId : option string) (c : Cadet.t) : Cadet.t :=
  match resolvedId with
  | Some rid =>
      if String.eqb rid "" then c
      else {| Cadet.id := rid; Cadet.name := Cadet.name c; Cadet.klass := Cadet.klass c;
              Cadet.company := Cadet.company c |}
  | None => c
  end.

(** The state and cache updates of a sign-in, up to its
    [void fetchLeaderboard()]. *)
Definition signedInState (msg : Status) (c : Cadet.t) (s : Session.t) (w : World) : World :=
  setStatusMsg msg
    (storeActiveSession (Some s)
       (setActiveSession (Some s) (saveLocalCadet c (setCadet c w)))).

Section SignInSteps.

Variable TZ : Zone.
Variable ilike : string -> string -> bool.
Variable asp_leaderboard_all_time_v2 : Db -> option (list RowDB.v2).
Variable asp_leaderboard_all_time : Db -> option (list RowDB.v1).

(** The click: the code up to the first await.  Without Supabase nothing
    is awaited and the run returns at once. *)
Definition signInClick (e : Env) (w : World) : SignInRun * World :=
  match klass (form w) with
  | None => (Returned, setStatusMsg MsgEnterNameAndClass w)
  | Some k =>
    if String.eqb (name (form w)) "" then (Returned, setStatusMsg MsgEnterNameAndClass w)
    else if negb (isAspOpen TZ (now e)) then (Returned, setStatusMsg MsgAspClosed w)
    else
      let c := {| Cadet.id := uuidCadet e; Cadet.name := normalizeName (name (form w));
                  Cadet.klass := k; Cadet.company := company (form w) |} in
      if hasSupabase e then (AwaitCadetsExact c, w)
      else
        let newSession :=
          {| Session.id := uuidSession e; Session.cadet_id := Cadet.id c;
             Session.sign_in := now e; Session.sign_out := None;
             Session.voided := false |} in
        (Returned,
         signedIn ilike asp_leaderboard_all_time_v2 asp_leaderboard_all_time
           MsgSignedInLocal c newSession e
           (storeSessions (asp_sessions (ls w) ++ [newSession]) w))
  end.

(** One step of a run: the store answers the awaited call on the world
    as it is then, and the run goes on to its next call.  [e] is the
    environment of the step: its clock is read where the code after the
    await reads it. *)
Definition signInStep (e : Env) (r : SignInRun) (w : World) : SignInRun * World :=
  match r with
  | AwaitCadetsExact c =>
      let exact :=
        if fails e CadetsSelectExact then None
        else maybeSingle
               (filter (fun x => Cadet.name x = Cadet.name c
                                 ∧ (Cadet.klass x = Cadet.klass c
                                    ∧ Cadet.company x = Cadet.company c))
                       (cadets (db w))) in
      match exact with
      | Some (Some row) => (AwaitCadetsUpsert (resolved (Some (Cadet.id row)) c), w)
      | _ => (AwaitCadetsIlike c, w)
      end
  | AwaitCadetsIlike c =>
      let ci :=
        if fails e CadetsSelectIlike then None
        else Cadet.id <$>
             head (filter (fun x => ilike (Cadet.name c) (Cadet.name x) = true
                                    ∧ (Cadet.klass x = Cadet.klass c
                                       ∧ Cadet.company x = Cadet.company c))
                          (cadets (db w))) in
      (AwaitCadetsUpsert (resolved ci c), w)
  | AwaitCadetsUpsert c =>
      if fails e CadetsUpsert then (Returned, setStatusMsg MsgCadetSaveFailed w)
      else (AwaitOpenSession c,
            with_db (with_cadets (upsertCadet c (cadets (db w))) (db w)) w)
  | AwaitOpenSession c =>
      match selectOpenSession e (db w) (Cadet.id c) with
      | Some (Some existing) => (AwaitLeaderboard, signedInState MsgResumed c existing w)
      | _ => (AwaitRecentSessions c (now e - THIRTY_SIX_HOURS), w)
      end
  | AwaitRecentSessions c since =>
      let recent :=
        if fails e SessionsSelectRecent then None
        else Some (sortDesc Session.sign_in
                     (filter (fun s => Session.cadet_id s = Cadet.id c
                                       ∧ Session.voided s = false
                                       ∧ since <= Session.sign_in s)
                             (sessions (db w)))) in
      let capped :=
        match recent with
        | Some l => TWO_HOURS_MIN <=? minutesTonightET TZ l (now e)
        | None => false
        end in
      if capped then (Returned, setStatusMsg MsgTwoHoursTonight w)
      else (AwaitInsert c {| Session.id := uuidSession e; Session.cadet_id := Cadet.id c;
                             Session.sign_in := now e; Session.sign_out := None;
                             Session.voided := false |},
            w)
  | AwaitInsert c s =>
      match insertSession e (db w) s with
      | None => (Returned, setStatusMsg MsgSignInFailed w)
      | Some (db2, inserted) =>
          (AwaitLeaderboard, signedInState MsgSignedIn c inserted (with_db db2 w))
      end
  | AwaitLeaderboard =>
      (Returned,
       fetchLeaderboard ilike asp_leaderboard_all_time_v2 asp_leaderboard_all_time e w)
  | Returned => (Returned, w)
  end.

(** A run that takes [n] steps in a row, in one environment. *)
Fixpoint signInSteps (n : nat) (e : Env) (r : SignInRun) (w : World) : World :=
  match n with
  | O => w
  | S n' => signInSteps n' e (signInStep e r w).1 (signInStep e r w).2
  end.

(** Two runs that take their steps in turn: [true] is a step of the
    first. *)
Fixpoint interleave (turns : list bool) (eA eB : Env) (rA rB : SignInRun) (w : World)
    : SignInRun * SignInRun * World :=
  match turns with
  | [] => (rA, rB, w)
  | true :: rest =>
      interleave rest eA eB (signInStep eA rA w).1 rB (signInStep eA rA w).2
  | false :: rest =>
      interleave rest eA eB rA (signInStep eB rB w).1 (signInStep eB rB w).2
  end.

End SignInSteps.

(** Ada's history on Monday 1 September 2025: a session of the Wednesday
    before, and two that follow one another that evening, 19:30 to 20:00
    and 20:05 to 20:30 ET. *)
Definition oneAfterAnother : list Session.t :=
  [ session "s0" (utc 2025 8 27 23 30 0) (Some (utc 2025 8 28 1 30 0));
    session "s1" (utc 2025 9 1 23 30 0) (Some (utc 2025 9 2 0 0 0));
    session "s2" (utc 2025 9 2 0 5 0) (Some (utc 2025 9 2 0 30 0)) ].

(** A session stored with seconds, 19:35:40 to 20:05:20 ET. *)
Definition withSeconds : Session.t :=
  session "s1" (utc 2025 9 1 23 35 40) (Some (utc 2025 9 2 0 5 20)).

(** A device four hours behind UTC. *)
Definition utcMinus4 : Z := - 4 * msPerHour.

(** Ada signed in since 19:35 ET, in the page's state and cache. *)
Definition signedInWorld (l : list Session.t) (a : Session.t) : World :=
  let w := remoteWorld "Ada Lovelace" l in
  storeActiveSession (Some a) (setActiveSession (Some a) w).

(** The edit panel as [openEditForLeaderboardRow] leaves it on a device
    for Ada and her one stored session, with [override] typed into the
    override input. *)
Definition panelOn (device : Zone) (s : Session.t) (override : string) : World :=
  with_editor
    {| editCadet := Some ada; editSessions := [s];
       editDraft := draftOf device <$> [s];
       editOverride := override; savingEdits := false |}
    (remoteWorld "Ada Lovelace" [s]).

(** The edit panel as it was opened on a session, nothing typed but the
    override. *)
Definition untouchedPanel (s : Session.t) : World :=
  with_editor
    {| editCadet := Some ada; editSessions := [s];
       editDraft := draftOf (fixedZone utcMinus4) <$> [s];
       editOverride := "1000"; savingEdits := false |}
    (remoteWorld "Ada Lovelace" [s]).

(** * Proofs *)

Lemma digitPrefix_string_of_uint d :
  digitPrefix (NilEmpty.string_of_uint d) = NilEmpty.string_of_uint d.
Proof. induction d; simpl; try rewrite IHd; reflexivity. Qed.

Lemma parseDigits_string_of_uint d :
  d <> Decimal.Nil ->
  parseDigits (NilEmpty.string_of_uint d) = Some (Z.of_N (N.of_uint d)).
Proof.
  intros Hd. unfold parseDigits. rewrite digitPrefix_string_of_uint.
  assert (H : NilZero.uint_of_string (NilEmpty.string_of_uint d) = Some d).
  { pose proof (NilZero.usu d Hd) as H. destruct d; try congruence; exact H. }
  destruct d; try congruence; simpl NilEmpty.string_of_uint in *; cbv iota; rewrite H; reflexivity.
Qed.

Lemma parseInt_string_of_uint d :
  d <> Decimal.Nil ->
  parseInt (NilEmpty.string_of_uint d) = Some (Z.of_N (N.of_uint d)).
Proof.
  intros Hd. rewrite <- (parseDigits_string_of_uint d Hd).
  destruct d; try congruence; reflexivity.
Qed.

Lemma parseInt_toString n : 0 <= n -> parseInt (toString n) = Some n.
Proof.
  intros Hn. destruct n as [|p|p]; [reflexivity| |lia].
  pose proof (Unsigned.to_uint_nonnil p) as Hp.
  pose proof (Unsigned.of_to p) as Hof.
  unfold toString, Z.to_int, NilZero.string_of_int.
  set (u := Pos.to_uint p) in *. clearbody u.
  replace (NilZero.string_of_uint u) with (NilEmpty.string_of_uint u)
    by (destruct u; simpl; congruence).
  rewrite parseInt_string_of_uint by assumption.
  unfold N.of_uint. rewrite Hof. reflexivity.
Qed.

Lemma parseInt_pad2 n : 0 <= n < 100 -> parseInt (pad2 n) = Some n.
Proof.
  intros Hn.
  assert (H : forallb (fun k => bool_decide (parseInt (pad2 k) = Some k)) (seqZ 0 100) = true)
    by (vm_compute; reflexivity).
  rewrite forallb_forall in H.
  specialize (H n). rewrite bool_decide_eq_true in H. apply H.
  apply list_elem_of_In, elem_of_seqZ. lia.
Qed.

Lemma length_pad2 n : 0 <= n < 100 -> String.length (pad2 n) = 2%nat.
Proof.
  intros Hn.
  assert (H : forallb (fun k => bool_decide (String.length (pad2 k) = 2%nat)) (seqZ 0 100) = true)
    by (vm_compute; reflexivity).
  rewrite forallb_forall in H.
  specialize (H n). rewrite bool_decide_eq_true in H. apply H.
  apply list_elem_of_In, elem_of_seqZ. lia.
Qed.

(** ** Time values *)

Lemma HourFromTime_range t : 0 <= HourFromTime t <= 23.
Proof. unfold HourFromTime, TimeWithinDay, msPerDay, msPerHour. Z.div_mod_to_equations. lia. Qed.

Lemma MinFromTime_range t : 0 <= MinFromTime t <= 59.
Proof. unfold MinFromTime, msPerHour, msPerMinute. Z.div_mod_to_equations. lia. Qed.

Lemma WeekDay_range t : 0 <= WeekDay t <= 6.
Proof. unfold WeekDay. Z.div_mod_to_equations. lia. Qed.

Lemma hour_minute_of_day t :
  HourFromTime t * 60 + MinFromTime t = TimeWithinDay t / msPerMinute.
Proof.
  unfold HourFromTime, MinFromTime, TimeWithinDay, msPerDay, msPerHour, msPerMinute.
  Z.div_mod_to_equations. lia.
Qed.

(** ** The parts object *)

Lemma orElse_pad2 n d : 0 <= n < 100 -> orElse (Some (pad2 n)) d = pad2 n.
Proof.
  intros Hn. pose proof (length_pad2 n Hn) as H.
  destruct (pad2 n); [discriminate H|reflexivity].
Qed.

Lemma parts_weekday_hm (wd hh mm : string) :
  let o := partsObject [("weekday", wd); ("literal", " "); ("hour", hh);
                        ("literal", ":"); ("minute", mm)]%string in
  o !! "weekday"%string = Some wd /\ o !! "hour"%string = Some hh
  /\ o !! "minute"%string = Some mm.
Proof. cbv zeta. unfold partsObject. simpl. repeat split; by simplify_map_eq. Qed.

Lemma parts_ymd_hm (mo dd yy hh mm : string) :
  let o := partsObject [("month", mo); ("literal", "/"); ("day", dd);
                        ("literal", "/"); ("year", yy); ("literal", ", ");
                        ("hour", hh); ("literal", ":"); ("minute", mm)]%string in
  o !! "year"%string = Some yy /\ o !! "month"%string = Some mo
  /\ o !! "day"%string = Some dd /\ o !! "hour"%string = Some hh
  /\ o !! "minute"%string = Some mm.
Proof. cbv zeta. unfold partsObject. simpl. repeat split; by simplify_map_eq. Qed.

Lemma weekday_is_mon wd :
  0 <= wd <= 6 ->
  startsWith (toLowerCase (orElse (Some (weekdayShort wd)) "")) "mon" = bool_decide (wd = 1).
Proof.
  intros H.
  assert (Hc : wd = 0 \/ wd = 1 \/ wd = 2 \/ wd = 3 \/ wd = 4 \/ wd = 5 \/ wd = 6) by lia.
  destruct Hc as [->|[->|[->|[->|[->|[->| ->]]]]]]; reflexivity.
Qed.

Lemma weekday_is_wed wd :
  0 <= wd <= 6 ->
  startsWith (toLowerCase (orElse (Some (weekdayShort wd)) "")) "wed" = bool_decide (wd = 3).
Proof.
  intros H.
  assert (Hc : wd = 0 \/ wd = 1 \/ wd = 2 \/ wd = 3 \/ wd = 4 \/ wd = 5 \/ wd = 6) by lia.
  destruct Hc as [->|[->|[->|[->|[->|[->| ->]]]]]]; reflexivity.
Qed.

Section WindowCalendar.

Variable TZ : Zone.

(** What [isAspOpen] reads off the formatted parts. *)
Lemma isAspOpen_unfold t :
  isAspOpen TZ t =
  (bool_decide (wallWeekday TZ t = 1) || bool_decide (wallWeekday TZ t = 3))
  && (1170 <=? wallMinuteOfDay TZ t) && (wallMinuteOfDay TZ t <? 1290).
Proof.
  unfold isAspOpen, formatToParts_weekday_hm, wallWeekday, wallMinuteOfDay.
  set (lt := LocalTime TZ t).
  destruct (parts_weekday_hm (weekdayShort (WeekDay lt)) (pad2 (HourFromTime lt))
              (pad2 (MinFromTime lt))) as (-> & -> & ->).
  pose proof (HourFromTime_range lt) as Hh. pose proof (MinFromTime_range lt) as Hm.
  rewrite !orElse_pad2, !parseInt_pad2 by lia.
  rewrite weekday_is_mon, weekday_is_wed by apply WeekDay_range.
  simpl num. rewrite hour_minute_of_day. reflexivity.
Qed.

(** C6. [isAspOpen] is true exactly when the wall-clock weekday in the
    program's zone is Monday (1) or Wednesday (3) and the minute of the day
    lies in the half-open interval from 1170 to 1290: minute 1170 (19:30) of
    such a day is open, minute 1290 (21:30) is closed. *)
Theorem isAspOpen_truth_table t :
  (isAspOpen TZ t = true <->
   (wallWeekday TZ t = 1 \/ wallWeekday TZ t = 3)
   /\ 1170 <= wallMinuteOfDay TZ t < 1290)
  /\ ((wallWeekday TZ t = 1 \/ wallWeekday TZ t = 3) ->
      wallMinuteOfDay TZ t = 1170 -> isAspOpen TZ t = true)
  /\ (wallMinuteOfDay TZ t = 1290 -> isAspOpen TZ t = false).
Proof.
  rewrite isAspOpen_unfold.
  split; [split|split].
  - intros H. apply andb_prop in H as [H Hhi]. apply andb_prop in H as [H Hlo].
    split; [|lia].
    apply orb_prop in H as [H|H]; apply bool_decide_eq_true in H; auto.
  - intros [[H|H] [Hlo Hhi]]; rewrite H; simpl;
      apply andb_true_intro; split; lia.
  - intros [H|H] ->; rewrite H; reflexivity.
  - intros ->. rewrite andb_false_r. reflexivity.
Qed.

End WindowCalendar.

(** ** Calendar *)

Lemma civil_from_days_range z :
  1 <= (civil_from_days z).1.2 <= 12 /\ 1 <= (civil_from_days z).2 <= 31.
Proof.
  unfold civil_from_days. simpl.
  set (doe := (z + 719468) mod 146097).
  assert (Hdoe : 0 <= doe < 146097) by (apply Z.mod_pos_bound; lia).
  clearbody doe.
  set (yoe := (doe - doe / 1460 + doe / 36524 - doe / 146096) / 365).
  assert (Hyoe : 0 <= yoe <= 399) by (subst yoe; Z.div_mod_to_equations; lia).
  set (doy := doe - (365 * yoe + yoe / 4 - yoe / 100)).
  assert (Hdoy : 0 <= doy <= 365) by (subst doy yoe; Z.div_mod_to_equations; lia).
  clearbody doy.
  set (mp := (5 * doy + 2) / 153).
  assert (Hmp : 0 <= mp <= 11) by (subst mp; Z.div_mod_to_equations; lia).
  split.
  - destruct (mp <? 10) eqn:E; lia.
  - subst mp. Z.div_mod_to_equations. lia.
Qed.

(** The day number is recovered from its date. *)
Lemma days_from_civil_from_days z :
  days_from_civil (civil_from_days z).1.1 (civil_from_days z).1.2 (civil_from_days z).2 = z.
Proof.
  unfold civil_from_days, days_from_civil. simpl.
  set (era := (z + 719468) / 146097).
  set (doe := (z + 719468) mod 146097).
  assert (Hz : z + 719468 = 146097 * era + doe) by (subst era doe; apply Z.div_mod; lia).
  assert (Hdoe : 0 <= doe < 146097) by (apply Z.mod_pos_bound; lia).
  clearbody era doe.
  set (yoe := (doe - doe / 1460 + doe / 36524 - doe / 146096) / 365).
  assert (Hyoe : 0 <= yoe <= 399) by (subst yoe; Z.div_mod_to_equations; lia).
  set (doy := doe - (365 * yoe + yoe / 4 - yoe / 100)).
  assert (Hdoy : 0 <= doy <= 365) by (subst doy yoe; Z.div_mod_to_equations; lia).
  set (mp := (5 * doy + 2) / 153).
  assert (Hmp : 0 <= mp <= 11) by (subst mp; Z.div_mod_to_equations; lia).
  assert (Hdoe' : doe = 365 * yoe + yoe / 4 - yoe / 100 + doy) by (subst doy; lia).
  clearbody yoe doy.
  destruct (mp <? 10) eqn:E.
  - apply Z.ltb_lt in E.
    replace (mp + 3 <=? 2) with false by (symmetry; apply Z.leb_gt; lia).
    replace (2 <? mp + 3) with true by (symmetry; apply Z.ltb_lt; lia).
    replace (mp + 3 - 3) with mp by lia.
    replace (yoe + era * 400 + 0) with (era * 400 + yoe) by lia.
    replace ((era * 400 + yoe) / 400) with era by (Z.div_mod_to_equations; lia).
    replace ((era * 400 + yoe) mod 400) with yoe by (Z.div_mod_to_equations; lia).
    subst mp. Z.div_mod_to_equations. lia.
  - apply Z.ltb_ge in E.
    replace (mp - 9 <=? 2) with true by (symmetry; apply Z.leb_le; lia).
    replace (2 <? mp - 9) with false by (symmetry; apply Z.ltb_ge; lia).
    replace (mp - 9 + 9) with mp by lia.
    replace (yoe + era * 400 + 1 - 1) with (era * 400 + yoe) by lia.
    replace ((era * 400 + yoe) / 400) with era by (Z.div_mod_to_equations; lia).
    replace ((era * 400 + yoe) mod 400) with yoe by (Z.div_mod_to_equations; lia).
    subst mp. Z.div_mod_to_equations. lia.
Qed.

Lemma civil_from_days_inj z1 z2 : civil_from_days z1 = civil_from_days z2 -> z1 = z2.
Proof.
  intros H. rewrite <- (days_from_civil_from_days z1), <- (days_from_civil_from_days z2).
  rewrite H. reflexivity.
Qed.

Lemma yearOfEra_pos y : 1 <= yearOfEra y.
Proof. unfold yearOfEra. destruct (1 <=? y) eqn:E; lia. Qed.

(** ** Strings of the date key *)

Lemma length_append (s1 s2 : string) :
  String.length (s1 +:+ s2) = (String.length s1 + String.length s2)%nat.
Proof. induction s1 as [|c s1 IH]; simpl; [reflexivity | rewrite IH; reflexivity]. Qed.

Lemma string_app_inj_tail (s1 s2 t1 t2 : string) :
  String.length t1 = String.length t2 ->
  (s1 +:+ t1 = s2 +:+ t2)%string -> s1 = s2 /\ t1 = t2.
Proof.
  intros Hlen. revert s2.
  induction s1 as [|c s1 IH]; intros [|c2 s2] H.
  - auto.
  - exfalso. apply (f_equal String.length) in H.
    rewrite !length_append in H. simpl in H. lia.
  - exfalso. apply (f_equal String.length) in H.
    rewrite !length_append in H. simpl in H. lia.
  - injection H as -> H. destruct (IH _ H) as [-> ->]. auto.
Qed.

Lemma toString_inj n1 n2 : 0 <= n1 -> 0 <= n2 -> toString n1 = toString n2 -> n1 = n2.
Proof.
  intros H1 H2 H. apply (f_equal parseInt) in H.
  rewrite !parseInt_toString in H by assumption. congruence.
Qed.

Lemma pad2_inj n1 n2 : 0 <= n1 < 100 -> 0 <= n2 < 100 -> pad2 n1 = pad2 n2 -> n1 = n2.
Proof.
  intros H1 H2 H. apply (f_equal parseInt) in H.
  rewrite !parseInt_pad2 in H by assumption. congruence.
Qed.

Lemma dateKey_inj y1 m1 d1 y2 m2 d2 :
  0 <= y1 -> 0 <= y2 -> 0 <= m1 < 100 -> 0 <= m2 < 100 ->
  0 <= d1 < 100 -> 0 <= d2 < 100 ->
  (toString y1 +:+ "-" +:+ pad2 m1 +:+ "-" +:+ pad2 d1
   = toString y2 +:+ "-" +:+ pad2 m2 +:+ "-" +:+ pad2 d2)%string ->
  y1 = y2 /\ m1 = m2 /\ d1 = d2.
Proof.
  intros Hy1 Hy2 Hm1 Hm2 Hd1 Hd2 H.
  apply string_app_inj_tail in H as [Hy H].
  2:{ rewrite !length_append, !length_pad2 by lia. reflexivity. }
  change ("-" +:+ ?s)%string with (String "-" s) in H. injection H as H.
  apply string_app_inj_tail in H as [Hm H].
  2:{ rewrite !length_append, !length_pad2 by lia. reflexivity. }
  change ("-" +:+ ?s)%string with (String "-" s) in H. injection H as H.
  auto using toString_inj, pad2_inj.
Qed.

Section MinuteAccounting.

Variable TZ : Zone.

Lemma etParts_fields t :
  etParts TZ t =
  {| y := yearOfEra (YearFromTime (LocalTime TZ t));
     m := MonthFromTime (LocalTime TZ t) + 1;
     da := DateFromTime (LocalTime TZ t);
     h := HourFromTime (LocalTime TZ t);
     mi := MinFromTime (LocalTime TZ t) |}.
Proof.
  unfold etParts, formatToParts_ymd_hm.
  set (lt := LocalTime TZ t).
  destruct (parts_ymd_hm (pad2 (MonthFromTime lt + 1)) (pad2 (DateFromTime lt))
              (toString (yearOfEra (YearFromTime lt))) (pad2 (HourFromTime lt))
              (pad2 (MinFromTime lt))) as (-> & -> & -> & -> & ->).
  pose proof (HourFromTime_range lt). pose proof (MinFromTime_range lt).
  pose proof (civil_from_days_range (Day lt)) as [Hm Hd].
  pose proof (yearOfEra_pos (YearFromTime lt)).
  cbv [default from_option id].
  rewrite parseInt_toString by lia.
  rewrite !parseInt_pad2 by (unfold MonthFromTime, DateFromTime; lia).
  reflexivity.
Qed.

Lemma minutesOfDayET_wall t : minutesOfDayET TZ t = wallMinuteOfDay TZ t.
Proof.
  unfold minutesOfDayET. rewrite etParts_fields. cbn [h mi].
  apply hour_minute_of_day.
Qed.

(** Two instants have the same date key exactly when they show the same
    date. *)
Lemma etDateKey_eq_iff t1 t2 :
  etDateKey TZ t1 = etDateKey TZ t2 <-> shownDate TZ t1 = shownDate TZ t2.
Proof.
  unfold etDateKey, shownDate. rewrite !etParts_fields. cbn [y m da].
  pose proof (civil_from_days_range (Day (LocalTime TZ t1))) as [Hm1 Hd1].
  pose proof (civil_from_days_range (Day (LocalTime TZ t2))) as [Hm2 Hd2].
  pose proof (yearOfEra_pos (YearFromTime (LocalTime TZ t1))) as Hy1.
  pose proof (yearOfEra_pos (YearFromTime (LocalTime TZ t2))) as Hy2.
  assert (Hm1' : 1 <= MonthFromTime (LocalTime TZ t1) + 1 <= 12)
    by (unfold MonthFromTime; lia).
  assert (Hm2' : 1 <= MonthFromTime (LocalTime TZ t2) + 1 <= 12)
    by (unfold MonthFromTime; lia).
  fold (DateFromTime (LocalTime TZ t1)) in Hd1.
  fold (DateFromTime (LocalTime TZ t2)) in Hd2.
  generalize dependent (yearOfEra (YearFromTime (LocalTime TZ t1))).
  generalize dependent (yearOfEra (YearFromTime (LocalTime TZ t2))).
  generalize dependent (MonthFromTime (LocalTime TZ t1) + 1).
  generalize dependent (MonthFromTime (LocalTime TZ t2) + 1).
  generalize dependent (DateFromTime (LocalTime TZ t1)).
  generalize dependent (DateFromTime (LocalTime TZ t2)).
  intros d2 Hd2 d1 Hd1 m2 Hm2' m1 Hm1' y2 Hy2 y1 Hy1.
  split.
  - intros H'. apply dateKey_inj in H' as (-> & -> & ->); [reflexivity|lia..].
  - intros [= -> -> ->]. reflexivity.
Qed.

End MinuteAccounting.

(** ** Overlap with the window *)

Lemma count_between lo hi (n : nat) s :
  Z.of_nat (length (filter (fun m => lo <= m < hi) (seqZ s (Z.of_nat n))))
  = Z.max 0 (Z.min hi (s + Z.of_nat n) - Z.max lo s).
Proof.
  revert s. induction n as [|n IH]; intros s.
  - simpl. lia.
  - rewrite Nat2Z.inj_succ, seqZ_cons by lia.
    rewrite Z.pred_succ, filter_cons.
    case_decide; simpl length; rewrite ?Nat2Z.inj_succ, IH; lia.
Qed.

Lemma overlapMinutesET_windowOverlap a b :
  overlapMinutesET a b ASP_START_MIN ASP_END_MIN = windowOverlap a b.
Proof.
  unfold windowOverlap, overlapMinutesET, ASP_START_MIN, ASP_END_MIN.
  rewrite (list_filter_iff _ (fun m => Z.max a 1170 <= m < Z.min b 1290)) by (intros; lia).
  change 1440 with (Z.of_nat 1440). rewrite count_between. lia.
Qed.

Lemma windowOverlap_nonneg a b : 0 <= windowOverlap a b.
Proof. unfold windowOverlap. lia. Qed.

Lemma sumZ_app l1 l2 : sumZ (l1 ++ l2) = sumZ l1 + sumZ l2.
Proof. unfold sumZ. induction l1 as [|x l1 IH]; simpl; lia. Qed.

Lemma sumZ_nonneg l : Forall (fun x => 0 <= x) l -> 0 <= sumZ l.
Proof. unfold sumZ. induction 1; simpl; lia. Qed.

Lemma filter_iff_in {A} (P1 P2 : A -> Prop)
    `{!forall x, Decision (P1 x), !forall x, Decision (P2 x)} (l : list A) :
  (forall x, x ∈ l -> P1 x <-> P2 x) -> filter P1 l = filter P2 l.
Proof.
  intros Hiff. induction l as [|a l IH]; [reflexivity|].
  rewrite !filter_cons.
  rewrite IH by (intros x Hx; apply Hiff; right; exact Hx).
  rewrite (decide_ext (P1 a) (P2 a)) by (apply Hiff; left). reflexivity.
Qed.

Section Tonight.

Variable TZ : Zone.

Lemma seg_windowOverlap now s :
  seg TZ now s = windowOverlap (wallMinuteOfDay TZ (Session.sign_in s))
                            (wallMinuteOfDay TZ (default now (Session.sign_out s))).
Proof. unfold seg. rewrite !minutesOfDayET_wall. apply overlapMinutesET_windowOverlap. Qed.

(** The loop as a sum over the sessions that pass its date test. *)
Lemma minutesTonightET_sum sessions now :
  minutesTonightET TZ sessions now
  = Z.min (sumZ (seg TZ now <$> filter (startedTonight TZ now) sessions)) TWO_HOURS_MIN.
Proof.
  unfold minutesTonightET. f_equal.
  enough (G : forall acc,
    foldl (fun sum s =>
             if negb (String.eqb (etDateKey TZ (Session.sign_in s)) (etDateKey TZ now))
             then sum
             else sum + overlapMinutesET (minutesOfDayET TZ (Session.sign_in s))
                          (minutesOfDayET TZ (default now (Session.sign_out s)))
                          ASP_START_MIN ASP_END_MIN)
          acc sessions
    = acc + sumZ (seg TZ now <$> filter (startedTonight TZ now) sessions))
    by (rewrite G; lia).
  induction sessions as [|s l IH]; intros acc.
  - unfold sumZ. cbn. lia.
  - cbn [foldl]. rewrite IH, filter_cons. unfold startedTonight at 2.
    destruct (String.eqb_spec (etDateKey TZ (Session.sign_in s)) (etDateKey TZ now)) as [E|E];
      simpl negb; cbv iota.
    + rewrite decide_True by exact E. rewrite fmap_cons. unfold sumZ at 2. simpl foldr.
      fold (sumZ (seg TZ now <$> filter (startedTonight TZ now) l)). unfold seg at 2. lia.
    + rewrite decide_False by exact E. reflexivity.
Qed.

(** From the year 1 on, the date that the formatter shows determines the
    calendar date. *)
Lemma shownDate_calendarDate t1 t2 :
  1 <= YearFromTime (LocalTime TZ t1) -> 1 <= YearFromTime (LocalTime TZ t2) ->
  shownDate TZ t1 = shownDate TZ t2 <-> calendarDate TZ t1 = calendarDate TZ t2.
Proof.
  unfold shownDate, calendarDate, YearFromTime, MonthFromTime, DateFromTime, yearOfEra.
  destruct (civil_from_days (Day (LocalTime TZ t1))) as [[y1 m1] d1].
  destruct (civil_from_days (Day (LocalTime TZ t2))) as [[y2 m2] d2].
  cbn [fst snd]. intros H1 H2.
  destruct (1 <=? y1) eqn:E1; [|lia]. destruct (1 <=? y2) eqn:E2; [|lia].
  split; intros [= -> Hm ->]; repeat f_equal; lia.
Qed.

(** On the date of its sign-in the end of a session falls at its minute
    of the day. *)
Lemma minuteFromDayOf_same_date now s :
  endsOnSignInDate TZ now s ->
  minuteFromDayOf TZ (Session.sign_in s) (default now (Session.sign_out s))
  = wallMinuteOfDay TZ (default now (Session.sign_out s)).
Proof.
  unfold endsOnSignInDate, calendarDate, minuteFromDayOf. intros H.
  apply civil_from_days_inj in H. rewrite H. lia.
Qed.

(** C1, as amended. For every list of sessions and every instant [now],
    dated from the year 1 on in the program's zone, in which the sessions
    whose sign-in date is the date of [now] end on that date (are open, or
    signed out before midnight): [minutesTonightET] is the sum, over exactly
    the sessions whose sign-in date in the program's zone is the date of
    [now], of the overlap in minutes between the session (from its sign-in
    to its sign-out, or to [now] while it is open) and the window from minute
    1170 to minute 1290 of that date, that sum clamped to the range from 0 to
    120. *)
Theorem minutesTonightET_accruedTonight sessions now :
  1 <= YearFromTime (LocalTime TZ now) ->
  Forall (fun s => 1 <= YearFromTime (LocalTime TZ (Session.sign_in s))) sessions ->
  Forall (fun s => calendarDate TZ (Session.sign_in s) = calendarDate TZ now ->
                   endsOnSignInDate TZ now s) sessions ->
  minutesTonightET TZ sessions now = accruedTonight TZ sessions now.
Proof.
  intros Hnow Hsessions Hends.
  rewrite minutesTonightET_sum. unfold accruedTonight, TWO_HOURS_MIN.
  rewrite (filter_iff_in (startedTonight TZ now)
             (fun s => calendarDate TZ (Session.sign_in s) = calendarDate TZ now)).
  2:{ intros s Hin. rewrite Forall_forall in Hsessions.
      unfold startedTonight. rewrite etDateKey_eq_iff.
      apply shownDate_calendarDate; [apply Hsessions, Hin|exact Hnow]. }
  set (today := filter _ sessions).
  assert (Heq : seg TZ now <$> today
                = (fun s => windowOverlap (wallMinuteOfDay TZ (Session.sign_in s))
                              (minuteFromDayOf TZ (Session.sign_in s)
                                 (default now (Session.sign_out s)))) <$> today).
  { apply list_fmap_ext. intros i s Hs.
    apply list_elem_of_lookup_2, list_elem_of_filter in Hs as [Hdate Hin].
    rewrite Forall_forall in Hends.
    rewrite minuteFromDayOf_same_date by (apply Hends; assumption).
    apply seg_windowOverlap. }
  rewrite <- Heq.
  assert (0 <= sumZ (seg TZ now <$> today)).
  { apply sumZ_nonneg, Forall_fmap, Forall_forall. intros s _.
    unfold compose, seg, overlapMinutesET. lia. }
  lia.
Qed.

(** C10. A session whose sign-out minute of the day (that of [now] while
    it is open) is not after its sign-in minute of the day, such as one that
    crosses midnight, is credited exactly 0 minutes by [minutesTonightET]:
    its overlap is 0, alone it yields 0, and anywhere in a list it adds
    nothing. *)
Theorem minutesTonightET_inverted_session s now before after :
  wallMinuteOfDay TZ (default now (Session.sign_out s))
    <= wallMinuteOfDay TZ (Session.sign_in s) ->
  overlapMinutesET (minutesOfDayET TZ (Session.sign_in s))
                   (minutesOfDayET TZ (default now (Session.sign_out s)))
                   ASP_START_MIN ASP_END_MIN = 0
  /\ minutesTonightET TZ [s] now = 0
  /\ minutesTonightET TZ (before ++ s :: after) now
     = minutesTonightET TZ (before ++ after) now.
Proof.
  intros H.
  assert (Hseg : seg TZ now s = 0).
  { unfold seg. rewrite !minutesOfDayET_wall.
    unfold overlapMinutesET, ASP_START_MIN, ASP_END_MIN. lia. }
  split; [exact Hseg|].
  rewrite !minutesTonightET_sum.
  assert (Hone : forall l, sumZ (seg TZ now <$> filter (startedTonight TZ now) (s :: l))
                           = sumZ (seg TZ now <$> filter (startedTonight TZ now) l)).
  { intros l. rewrite filter_cons. case_decide; [|reflexivity].
    rewrite fmap_cons. unfold sumZ. simpl. fold (seg TZ now s). rewrite Hseg. lia. }
  split.
  - rewrite Hone. reflexivity.
  - rewrite !filter_app, !fmap_app, !sumZ_app, Hone. reflexivity.
Qed.

End Tonight.

(** ** Frames of the handlers' building blocks *)

Section HandlerFacts.

Variable TZ : Zone.
Variable device : Zone.
Variable ilike : string -> string -> bool.
Variable rpc2 : Db -> option (list RowDB.v2).
Variable rpc1 : Db -> option (list RowDB.v1).
Variable floorNumber : string -> option Z.

(** In this section the handlers stand for their instances at the
    section's zones and server. *)
Abbreviation fetchLeaderboard := (fetchLeaderboard ilike rpc2 rpc1).
Abbreviation handleSignIn := (handleSignIn TZ ilike rpc2 rpc1).
Abbreviation handleSignOut := (handleSignOut ilike rpc2 rpc1).
Abbreviation autoSignOut := (autoSignOut ilike rpc2 rpc1).
Abbreviation saveEdits := (saveEdits device ilike rpc2 rpc1 floorNumber).
Abbreviation signedIn := (signedIn ilike rpc2 rpc1).
Abbreviation signedOut := (signedOut ilike rpc2 rpc1).

Lemma fetchLeaderboard_frame e w :
  db (fetchLeaderboard e w) = db w /\ ls (fetchLeaderboard e w) = ls w
  /\ editor (fetchLeaderboard e w) = editor w
  /\ statusMsg (ui (fetchLeaderboard e w)) = statusMsg (ui w)
  /\ activeSession (ui (fetchLeaderboard e w)) = activeSession (ui w)
  /\ cadet (ui (fetchLeaderboard e w)) = cadet (ui w).
Proof.
  unfold fetchLeaderboard.
  destruct (hasSupabase e); [destruct (rpc2 (db w)); [|destruct (rpc1 (db w))]|];
    repeat split; reflexivity.
Qed.

Lemma signedIn_frame msg c s e w :
  db (signedIn msg c s e w) = db w
  /\ asp_sessions (ls (signedIn msg c s e w)) = asp_sessions (ls w)
  /\ asp_active_session (ls (signedIn msg c s e w)) = Some s
  /\ statusMsg (ui (signedIn msg c s e w)) = Some msg
  /\ activeSession (ui (signedIn msg c s e w)) = Some s.
Proof.
  unfold signedIn.
  destruct (fetchLeaderboard_frame e
              (setStatusMsg msg (storeActiveSession (Some s)
                 (setActiveSession (Some s) (saveLocalCadet c (setCadet c w))))))
    as (-> & -> & _ & -> & -> & _).
  repeat split; reflexivity.
Qed.

Lemma signedOut_frame msg e w :
  db (signedOut msg e w) = db w
  /\ asp_sessions (ls (signedOut msg e w)) = asp_sessions (ls w)
  /\ asp_active_session (ls (signedOut msg e w)) = None
  /\ statusMsg (ui (signedOut msg e w)) = Some msg
  /\ activeSession (ui (signedOut msg e w)) = None.
Proof.
  unfold signedOut.
  destruct (fetchLeaderboard_frame e
              (setStatusMsg msg (storeActiveSession None (setActiveSession None w))))
    as (-> & -> & _ & -> & -> & _).
  repeat split; reflexivity.
Qed.

(** ** Updates by id *)

Lemma updateById_elem f id l s :
  s ∈ l -> Session.id s = id -> f s ∈ updateById f id l.
Proof.
  intros Hin Hid. unfold updateById.
  apply list_elem_of_fmap. exists s. split; [|exact Hin].
  rewrite <- Hid, String.eqb_refl. reflexivity.
Qed.

Lemma updateFirst_elem f id l s :
  NoDup (Session.id <$> l) -> s ∈ l -> Session.id s = id ->
  exists l', updateFirst f id l = Some l' /\ f s ∈ l'.
Proof.
  intros Hnd Hin Hid. induction l as [|r l IH]; [inversion Hin|].
  simpl. apply NoDup_cons in Hnd as [Hr Hnd].
  destruct (String.eqb_spec (Session.id r) id) as [E|E].
  - exists (f r :: l). split; [reflexivity|].
    apply elem_of_cons in Hin as [->|Hin]; [left|].
    exfalso. apply Hr. apply list_elem_of_fmap. exists s. split; [congruence|exact Hin].
  - apply elem_of_cons in Hin as [->|Hin]; [congruence|].
    destruct (IH Hnd Hin) as (l' & -> & Hl'). exists (r :: l'). split; [reflexivity|].
    right. exact Hl'.
Qed.


End HandlerFacts.

(** ** Sorting and sums *)

Lemma insertDesc_Permutation {A} (key : A -> Z) x l : insertDesc key x l ≡ₚ x :: l.
Proof.
  induction l as [|y l IH]; simpl; [reflexivity|].
  destruct (key y <=? key x); [reflexivity|].
  rewrite IH. apply Permutation_swap.
Qed.

Lemma sortDesc_Permutation {A} (key : A -> Z) l : sortDesc key l ≡ₚ l.
Proof.
  unfold sortDesc. induction l as [|x l IH]; simpl; [reflexivity|].
  rewrite insertDesc_Permutation, IH. reflexivity.
Qed.

Lemma sumZ_Permutation l1 l2 : l1 ≡ₚ l2 -> sumZ l1 = sumZ l2.
Proof. unfold sumZ. induction 1; simpl; lia. Qed.

(** ** Dates and the 36-hour horizon *)

Lemma civil_year_lower z : -1 <= z -> 1 <= (civil_from_days z).1.1.
Proof.
  intros Hz. unfold civil_from_days. cbn [fst snd].
  set (doe := (z + 719468) mod 146097).
  assert (Hdoe : 0 <= doe < 146097) by (apply Z.mod_pos_bound; lia).
  assert (Hera : 4 <= (z + 719468) / 146097) by (Z.div_mod_to_equations; lia).
  clearbody doe.
  set (yoe := (doe - doe / 1460 + doe / 36524 - doe / 146096) / 365).
  assert (Hyoe : 0 <= yoe <= 399) by (subst yoe; Z.div_mod_to_equations; lia).
  clearbody yoe.
  match goal with |- context [if ?b then 1 else 0] => destruct b end; lia.
Qed.

Lemma Day_close t1 t2 : Day t1 = Day t2 -> - msPerDay < t1 - t2 < msPerDay.
Proof. unfold Day, msPerDay. intros H. Z.div_mod_to_equations. lia. Qed.

Section Horizon.

Variable TZ : Zone.

(** The offsets of the program's zone lie between EST and EDT. *)
Hypothesis TZ_offsets : forall t, EST <= utcOffset TZ t <= EDT.

Lemma shownDate_same_day t1 t2 :
  0 <= t1 -> 0 <= t2 ->
  shownDate TZ t1 = shownDate TZ t2 -> Day (LocalTime TZ t1) = Day (LocalTime TZ t2).
Proof.
  intros H1 H2 H. unfold shownDate in H.
  assert (Hd : forall t, 0 <= t -> -1 <= Day (LocalTime TZ t)).
  { intros t Ht. pose proof (TZ_offsets t) as Ho. unfold LocalTime, Day, EST, EDT, msPerHour, msPerDay in *.
    Z.div_mod_to_equations. lia. }
  pose proof (civil_year_lower _ (Hd t1 H1)) as Hy1.
  pose proof (civil_year_lower _ (Hd t2 H2)) as Hy2.
  unfold YearFromTime, MonthFromTime, DateFromTime, yearOfEra in H.
  apply civil_from_days_inj.
  destruct (civil_from_days (Day (LocalTime TZ t1))) as [[y1 m1] d1].
  destruct (civil_from_days (Day (LocalTime TZ t2))) as [[y2 m2] d2].
  cbn [fst snd] in *.
  destruct (1 <=? y1) eqn:E1; [|lia]. destruct (1 <=? y2) eqn:E2; [|lia].
  injection H as -> Hm ->. f_equal. f_equal. lia.
Qed.

Lemma startedTonight_recent now s :
  0 <= now -> 0 <= Session.sign_in s ->
  startedTonight TZ now s -> now - THIRTY_SIX_HOURS <= Session.sign_in s.
Proof.
  intros Hn Hs H. apply etDateKey_eq_iff in H.
  apply shownDate_same_day in H; [|assumption..].
  apply Day_close in H.
  pose proof (TZ_offsets now). pose proof (TZ_offsets (Session.sign_in s)).
  unfold LocalTime, THIRTY_SIX_HOURS, EST, EDT, msPerHour, msPerDay in *. lia.
Qed.

(** The 36-hour query loses none of tonight's sessions. *)
Lemma minutesTonightET_recent (e : Env) (d : Db) cid recent :
  0 <= now e -> Forall (fun s => 0 <= Session.sign_in s) (sessions d) ->
  selectRecentSessions e d cid = Some recent ->
  minutesTonightET TZ recent (now e)
  = minutesTonightET TZ (nonVoidOf cid (sessions d)) (now e).
Proof.
  intros Hn Hs Hsel. unfold selectRecentSessions in Hsel.
  destruct (fails e SessionsSelectRecent); [discriminate|]. injection Hsel as <-.
  rewrite !minutesTonightET_sum. f_equal. apply sumZ_Permutation.
  apply fmap_Permutation. rewrite sortDesc_Permutation.
  unfold nonVoidOf. rewrite !list_filter_filter.
  replace (filter _ (sessions d)) with (filter (fun s => startedTonight TZ (now e) s /\ Session.cadet_id s = cid /\ Session.voided s = false) (sessions d)); [reflexivity|].
  apply filter_iff_in. intros s Hin.
  rewrite Forall_forall in Hs. specialize (Hs s Hin).
  pose proof (startedTonight_recent (now e) s Hn Hs). tauto.
Qed.

End Horizon.

(** ** Sign-in *)

Section SignIn.

Variable TZ : Zone.
Variable ilike : string -> string -> bool.
Variable rpc2 : Db -> option (list RowDB.v2).
Variable rpc1 : Db -> option (list RowDB.v1).

Abbreviation handleSignIn' := (handleSignIn TZ ilike rpc2 rpc1).
Abbreviation signedIn' := (signedIn ilike rpc2 rpc1).

(** The run up to the resume test, when validation, the window check and
    the cadet upsert pass. *)
Lemma handleSignIn_remote e w k :
  hasSupabase e = true -> klass (form w) = Some k -> name (form w) <> ""%string ->
  isAspOpen TZ (now e) = true -> fails e CadetsUpsert = false ->
  let c := signInCadet ilike e (db w) (form w) k in
  let w1 := with_db (with_cadets (upsertCadet c (cadets (db w))) (db w)) w in
  handleSignIn' e w =
  match selectOpenSession e (db w1) (Cadet.id c) with
  | Some (Some existing) => signedIn' MsgResumed c existing e w1
  | _ =>
    if match selectRecentSessions e (db w1) (Cadet.id c) with
       | Some recent => TWO_HOURS_MIN <=? minutesTonightET TZ recent (now e)
       | None => false
       end
    then setStatusMsg MsgTwoHoursTonight w1
    else
      match insertSession e (db w1)
              {| Session.id := uuidSession e; Session.cadet_id := Cadet.id c;
                 Session.sign_in := now e; Session.sign_out := None;
                 Session.voided := false |} with
      | None => setStatusMsg MsgSignInFailed w1
      | Some (db2, inserted) => signedIn' MsgSignedIn c inserted e (with_db db2 w1)
      end
  end.
Proof.
  intros Hmode Hk Hname Hopen Hup c w1. unfold handleSignIn.
  rewrite Hk. apply String.eqb_neq in Hname. rewrite Hname, Hopen, Hmode, Hup.
  reflexivity.
Qed.

Lemma selectOpenSession_none e d cid :
  openSessionsOf cid (sessions d) = [] ->
  selectOpenSession e d cid = None \/ selectOpenSession e d cid = Some None.
Proof.
  unfold selectOpenSession, openSessionsOf. intros ->.
  destruct (fails e SessionsSelectOpen); auto.
Qed.

Section Cap.

Hypothesis TZ_offsets : forall t, EST <= utcOffset TZ t <= EDT.


End Cap.

(** *** Runs and steps *)

Lemma signInSteps_Returned n e w : signInSteps TZ ilike rpc2 rpc1 n e Returned w = w.
Proof. induction n as [|n IH]; [reflexivity|exact IH]. Qed.

(** The steps from the upsert on are the steps of [handleSignIn]. *)
Lemma signInSteps_upsert n e c w :
  signInSteps TZ ilike rpc2 rpc1 (5 + n) e (AwaitCadetsUpsert c) w
  = if fails e CadetsUpsert then setStatusMsg MsgCadetSaveFailed w
    else
      let w1 := with_db (with_cadets (upsertCadet c (cadets (db w))) (db w)) w in
      match selectOpenSession e (db w1) (Cadet.id c) with
      | Some (Some existing) => signedIn' MsgResumed c existing e w1
      | _ =>
        if match selectRecentSessions e (db w1) (Cadet.id c) with
           | Some recent => TWO_HOURS_MIN <=? minutesTonightET TZ recent (now e)
           | None => false
           end
        then setStatusMsg MsgTwoHoursTonight w1
        else
          match insertSession e (db w1)
                  {| Session.id := uuidSession e; Session.cadet_id := Cadet.id c;
                     Session.sign_in := now e; Session.sign_out := None;
                     Session.voided := false |} with
          | None => setStatusMsg MsgSignInFailed w1
          | Some (db2, inserted) => signedIn' MsgSignedIn c inserted e (with_db db2 w1)
          end
      end.
Proof.
  change (5 + n)%nat with (S (S (S (S (S n))))).
  cbn [signInSteps signInStep].
  destruct (fails e CadetsUpsert); cbn [fst snd]; [apply signInSteps_Returned|].
  cbv zeta. set (w1 := with_db _ w).
  cbn [signInSteps signInStep].
  destruct (selectOpenSession e (db w1) (Cadet.id c)) as [[existing|]|]; cbn [fst snd].
  - cbn [signInSteps signInStep fst snd]. apply signInSteps_Returned.
  - cbn [signInSteps signInStep]. unfold selectRecentSessions.
    destruct (fails e SessionsSelectRecent); cbn [fst snd].
    + cbn [signInSteps signInStep].
      destruct (insertSession e (db w1) _) as [[db2 inserted]|]; cbn [fst snd];
        [cbn [signInSteps signInStep fst snd]|]; apply signInSteps_Returned.
    + destruct (TWO_HOURS_MIN <=? _); cbn [fst snd]; [apply signInSteps_Returned|].
      cbn [signInSteps signInStep].
      destruct (insertSession e (db w1) _) as [[db2 inserted]|]; cbn [fst snd];
        [cbn [signInSteps signInStep fst snd]|]; apply signInSteps_Returned.
  - cbn [signInSteps signInStep]. unfold selectRecentSessions.
    destruct (fails e SessionsSelectRecent); cbn [fst snd].
    + cbn [signInSteps signInStep].
      destruct (insertSession e (db w1) _) as [[db2 inserted]|]; cbn [fst snd];
        [cbn [signInSteps signInStep fst snd]|]; apply signInSteps_Returned.
    + destruct (TWO_HOURS_MIN <=? _); cbn [fst snd]; [apply signInSteps_Returned|].
      cbn [signInSteps signInStep].
      destruct (insertSession e (db w1) _) as [[db2 inserted]|]; cbn [fst snd];
        [cbn [signInSteps signInStep fst snd]|]; apply signInSteps_Returned.
Qed.

(** [handleSignIn] is the run that no other run interleaves with: the
    click and then the steps, one after the other in one environment. *)
Lemma handleSignIn_steps e w :
  handleSignIn' e w
  = signInSteps TZ ilike rpc2 rpc1 7 e (signInClick TZ ilike rpc2 rpc1 e w).1
      (signInClick TZ ilike rpc2 rpc1 e w).2.
Proof.
  unfold handleSignIn, signInClick.
  destruct (klass (form w)) as [k|]; [|reflexivity].
  destruct (String.eqb (name (form w)) ""); [reflexivity|].
  destruct (negb (isAspOpen TZ (now e))); [reflexivity|].
  destruct (hasSupabase e) eqn:Hmode.
  2:{ unfold signInCadet. rewrite Hmode. reflexivity. }
  cbn [fst snd].
  pose proof (signInSteps_upsert 0 e (signInCadet ilike e (db w) (form w) k) w) as H0.
  pose proof (signInSteps_upsert 1 e (signInCadet ilike e (db w) (form w) k) w) as H1.
  cbv zeta in H0, H1. cbv zeta.
  change (5 + 0)%nat with 5%nat in H0. change (5 + 1)%nat with 6%nat in H1.
  set (tail := if fails e CadetsUpsert then _ else _) in *.
  set (c := signInCadet ilike e (db w) (form w) k) in *.
  change 7%nat with (S 6). cbn [signInSteps signInStep Cadet.name Cadet.klass Cadet.company].
  assert (Hc : c = signInCadet ilike e (db w) (form w) k) by reflexivity.
  unfold signInCadet, resolveCadetId in Hc. rewrite Hmode in Hc.
  destruct (if fails e CadetsSelectExact then None else _) as [[row|]|]; cbn [fst snd].
  - rewrite <- H1. f_equal. rewrite Hc. unfold resolved. cbn [Cadet.id Cadet.name Cadet.klass Cadet.company].
    destruct (String.eqb (Cadet.id row) ""); reflexivity.
  - change 6%nat with (S 5). cbn [signInSteps signInStep fst snd Cadet.name Cadet.klass Cadet.company].
    rewrite <- H0. f_equal. rewrite Hc. unfold resolved.
    destruct (if fails e CadetsSelectIlike then None else _) as [rid|]; [|reflexivity].
    cbn [Cadet.id Cadet.name Cadet.klass Cadet.company].
    destruct (String.eqb rid ""); reflexivity.
  - change 6%nat with (S 5). cbn [signInSteps signInStep fst snd Cadet.name Cadet.klass Cadet.company].
    rewrite <- H0. f_equal. rewrite Hc. unfold resolved.
    destruct (if fails e CadetsSelectIlike then None else _) as [rid|]; [|reflexivity].
    cbn [Cadet.id Cadet.name Cadet.klass Cadet.company].
    destruct (String.eqb rid ""); reflexivity.
Qed.
(** Whatever other runs did before: the step that answers the
    open-session query with the one open session of the cadet resumes it,
    and the run writes nothing to the store from there on. *)
Lemma signInStep_resume e c w s :
  fails e SessionsSelectOpen = false ->
  openSessionsOf (Cadet.id c) (sessions (db w)) = [s] ->
  signInStep TZ ilike rpc2 rpc1 e (AwaitOpenSession c) w
  = (AwaitLeaderboard, signedInState MsgResumed c (select4 s) w)
  /\ db (signedInState MsgResumed c (select4 s) w) = db w
  /\ activeSession (ui (signedInState MsgResumed c (select4 s) w)) = Some (select4 s)
  /\ db (signInStep TZ ilike rpc2 rpc1 e AwaitLeaderboard
           (signedInState MsgResumed c (select4 s) w)).2 = db w.
Proof.
  intros Hsel Hone. split; [|split; [reflexivity|split; [reflexivity|]]].
  - cbn [signInStep]. unfold selectOpenSession. rewrite Hsel.
    fold (openSessionsOf (Cadet.id c) (sessions (db w))). rewrite Hone. reflexivity.
  - cbn [signInStep snd].
    destruct (fetchLeaderboard_frame ilike rpc2 rpc1 e
                (signedInState MsgResumed c (select4 s) w)) as (-> & _).
    reflexivity.
Qed.

(** *** Resuming *)


End SignIn.

(** ** Failures, edits and overrides *)

Section Operations.

Variable TZ : Zone.
Variable device : Zone.
Variable ilike : string -> string -> bool.
Variable rpc2 : Db -> option (list RowDB.v2).
Variable rpc1 : Db -> option (list RowDB.v1).
Variable floorNumber : string -> option Z.

Abbreviation handleSignIn_ := (handleSignIn TZ ilike rpc2 rpc1).
Abbreviation handleSignOut_ := (handleSignOut ilike rpc2 rpc1).
Abbreviation saveEdits_ := (saveEdits device ilike rpc2 rpc1 floorNumber).
Abbreviation saveOverride_ := (saveOverride floorNumber).

Lemma saveSessionEdits_prefix e updates l l' ok :
  saveSessionEdits e updates l = (l', ok) ->
  exists applied rest,
    updates = applied ++ rest /\ l' = applyEdits applied l
    /\ (ok = true -> rest = []).
Proof.
  revert l. induction updates as [|[[id sin] sout] us IH]; intros l H; simpl in H.
  - injection H as <- <-. exists [], []. auto.
  - destruct (fails e (SessionsUpdateEdit id)).
    + injection H as <- <-. exists [], ((id, sin, sout) :: us).
      repeat split. discriminate.
    + destruct (IH _ H) as (applied & rest & -> & -> & Hok).
      exists ((id, sin, sout) :: applied), rest. auto.
Qed.

Lemma saveOverride_frame e cid text d :
  sessions (saveOverride_ e cid text d).1 = sessions d
  /\ cadets (saveOverride_ e cid text d).1 = cadets d
  /\ ((saveOverride_ e cid text d).2 = false -> (saveOverride_ e cid text d).1 = d).
Proof.
  unfold saveOverride.
  destruct (0 <? String.length (trim text))%nat.
  - destruct (floorNumber (trim text)); [destruct (fails e OverridesUpsert)|];
      repeat split; try reflexivity; discriminate.
  - destruct (fails e OverridesDelete); repeat split; discriminate.
Qed.

Ltac not_among H :=
  repeat (apply elem_of_cons in H as [H|H]; [discriminate H|]);
  apply elem_of_nil in H; contradiction.

(** What sign-in leaves behind, by the message it ends with. *)
Lemma handleSignIn_failure e w :
  let w' := handleSignIn_ e w in
  (statusMsg (ui w') ∈ [Some MsgEnterNameAndClass; Some MsgAspClosed;
                        Some MsgCadetSaveFailed] ->
   db w' = db w /\ ls w' = ls w)
  /\ (statusMsg (ui w') ∈ [Some MsgTwoHoursTonight; Some MsgSignInFailed] ->
      sessions (db w') = sessions (db w)
      /\ leaderboard_overrides (db w') = leaderboard_overrides (db w)
      /\ ls w' = ls w).
Proof.
  cbv zeta. unfold handleSignIn.
  destruct (klass (form w)) as [k|];
    [|split; intros _; repeat split; reflexivity].
  destruct (String.eqb (name (form w)) "");
    [split; intros _; repeat split; reflexivity|].
  destruct (negb (isAspOpen TZ (now e)));
    [split; intros _; repeat split; reflexivity|].
  set (c := signInCadet ilike e (db w) (form w) k). clearbody c.
  destruct (hasSupabase e).
  - destruct (fails e CadetsUpsert);
      [split; intros _; repeat split; reflexivity|].
    set (w1 := with_db _ w).
    destruct (selectOpenSession e (db w1) (Cadet.id c)) as [[existing|]|].
    1:{ destruct (signedIn_frame ilike rpc2 rpc1 MsgResumed c existing e w1)
          as (_ & _ & _ & -> & _).
        split; intros H; not_among H. }
    all: destruct (match selectRecentSessions e (db w1) (Cadet.id c) with
              | Some recent => TWO_HOURS_MIN <=? minutesTonightET TZ recent (now e)
              | None => false end);
         [split; [intros H; not_among H|intros _; repeat split; reflexivity]|].
    all: destruct (insertSession e (db w1) _) as [[db2 inserted]|];
         [|split; [intros H; not_among H|intros _; repeat split; reflexivity]].
    all: destruct (signedIn_frame ilike rpc2 rpc1 MsgSignedIn c inserted e (with_db db2 w1))
          as (_ & _ & _ & -> & _);
         split; intros H; not_among H.
  - match goal with |- context [signedIn ilike rpc2 rpc1 ?m c ?s e ?x] =>
      destruct (signedIn_frame ilike rpc2 rpc1 m c s e x) as (_ & _ & _ & -> & _) end.
    split; intros H; not_among H.
Qed.

Lemma handleSignOut_failure e w :
  statusMsg (ui (handleSignOut_ e w)) = Some MsgSignOutFailed ->
  db (handleSignOut_ e w) = db w /\ ls (handleSignOut_ e w) = ls w.
Proof.
  unfold handleSignOut.
  destruct (activeSession (ui w)) as [a|]; [|auto].
  destruct (hasSupabase e).
  - destruct (_ || _); [auto|].
    match goal with |- context [signedOut ilike rpc2 rpc1 ?m e ?x] =>
      destruct (signedOut_frame ilike rpc2 rpc1 m e x) as (_ & _ & _ & -> & _) end.
    discriminate.
  - match goal with |- context [signedOut ilike rpc2 rpc1 ?m e ?x] =>
      destruct (signedOut_frame ilike rpc2 rpc1 m e x) as (_ & _ & _ & -> & _) end.
    discriminate.
Qed.

Lemma saveEdits_failure e w :
  statusMsg (ui (saveEdits_ e w)) = Some MsgSaveFailed ->
  cadets (db (saveEdits_ e w)) = cadets (db w)
  /\ leaderboard_overrides (db (saveEdits_ e w)) = leaderboard_overrides (db w)
  /\ ls (saveEdits_ e w) = ls w
  /\ exists updates,
       (mapM (draftUpdate device) (editDraft (editor w)) = None /\ updates = []
        \/ exists rest, mapM (draftUpdate device) (editDraft (editor w))
                        = Some (updates ++ rest))
       /\ sessions (db (saveEdits_ e w)) = applyEdits updates (sessions (db w)).
Proof.
  unfold saveEdits.
  destruct (editCadet (editor w)) as [ec|];
    [|intros _; repeat split; exists []; split; [|reflexivity]].
  2:{ destruct (mapM (draftUpdate device) (editDraft (editor w))) as [us|];
        [right; exists us; reflexivity|left; auto]. }
  destruct (hasSupabase e);
    [|intros _; repeat split; exists []; split; [|reflexivity]].
  2:{ destruct (mapM (draftUpdate device) (editDraft (editor w))) as [us|];
        [right; exists us; reflexivity|left; auto]. }
  destruct (mapM (draftUpdate device) (editDraft (editor w))) as [us|] eqn:Hus.
  2:{ intros _. repeat split. exists []. split; [left; auto|reflexivity]. }
  destruct (saveSessionEdits e us (sessions (db w))) as [l1 ok] eqn:Hedits.
  destruct (saveSessionEdits_prefix e us _ _ _ Hedits) as (applied & rest & -> & -> & Hok).
  destruct ok.
  - rewrite (Hok eq_refl), app_nil_r in *.
    destruct (saveOverride_frame e (Cadet.id ec) (editOverride (editor w))
                (with_sessions (applyEdits applied (sessions (db w))) (db w)))
      as (Hs & Hc & Hfail).
    destruct (saveOverride floorNumber e (Cadet.id ec) (editOverride (editor w)) _)
      as [db2 ok2]. cbn [fst snd] in *.
    destruct ok2.
    + cbn [statusMsg ui setSavingEdits with_editor].
      match goal with |- context [fetchLeaderboard ilike rpc2 rpc1 e ?x] =>
        destruct (fetchLeaderboard_frame ilike rpc2 rpc1 e x) as (_ & _ & _ & -> & _) end.
      discriminate.
    + intros _. rewrite (Hfail eq_refl). repeat split.
      exists applied. split; [right; exists []; rewrite app_nil_r; reflexivity|reflexivity].
  - intros _. repeat split.
    exists applied. split; [right; exists rest; reflexivity|reflexivity].
Qed.

(** C9, as amended. A sign-in refused by validation, by the closed
    window or by a failed cadet save, and a failed sign-out, leave the
    remote store and the localStorage as they were.  A sign-in refused at
    the nightly cap or failing at the session insert leaves the sessions,
    the overrides and the localStorage as they were (the cadet record has
    already been upserted).  A failed [saveEdits] leaves the cadets, the
    overrides and the localStorage as they were, and the session table
    holds the updates that preceded the failing call. *)
Theorem failed_operations_frame e w :
  (statusMsg (ui (handleSignIn_ e w))
     ∈ [Some MsgEnterNameAndClass; Some MsgAspClosed; Some MsgCadetSaveFailed] ->
   db (handleSignIn_ e w) = db w /\ ls (handleSignIn_ e w) = ls w)
  /\ (statusMsg (ui (handleSignIn_ e w))
        ∈ [Some MsgTwoHoursTonight; Some MsgSignInFailed] ->
      sessions (db (handleSignIn_ e w)) = sessions (db w)
      /\ leaderboard_overrides (db (handleSignIn_ e w)) = leaderboard_overrides (db w)
      /\ ls (handleSignIn_ e w) = ls w)
  /\ (statusMsg (ui (handleSignOut_ e w)) = Some MsgSignOutFailed ->
      db (handleSignOut_ e w) = db w /\ ls (handleSignOut_ e w) = ls w)
  /\ (statusMsg (ui (saveEdits_ e w)) = Some MsgSaveFailed ->
      cadets (db (saveEdits_ e w)) = cadets (db w)
      /\ leaderboard_overrides (db (saveEdits_ e w)) = leaderboard_overrides (db w)
      /\ ls (saveEdits_ e w) = ls w
      /\ exists updates,
           (mapM (draftUpdate device) (editDraft (editor w)) = None /\ updates = []
            \/ exists rest, mapM (draftUpdate device) (editDraft (editor w))
                            = Some (updates ++ rest))
           /\ sessions (db (saveEdits_ e w)) = applyEdits updates (sessions (db w))).
Proof.
  pose proof (handleSignIn_failure e w) as [H1 H2].
  split; [exact H1|]. split; [exact H2|].
  split; [apply handleSignOut_failure|apply saveEdits_failure].
Qed.

End Operations.

(** ** Leaderboard *)

Lemma localTotal_sum now raw id :
  localTotal now raw id
  = sumZ (rawMinutes now <$> filter (fun s => Session.cadet_id s = id) raw).
Proof.
  unfold localTotal.
  generalize (filter (fun s => Session.cadet_id s = id) raw). intros l.
  enough (G : forall acc,
    foldl (fun acc s =>
             acc + msToMin (default now (Session.sign_out s) - Session.sign_in s))
          acc l = acc + sumZ (rawMinutes now <$> l)) by (rewrite G; lia).
  induction l as [|s l IH]; intros acc.
  - unfold sumZ. simpl. lia.
  - cbn [foldl]. rewrite IH, fmap_cons. unfold sumZ. cbn [foldr].
    unfold msToMin, rawMinutes. lia.
Qed.

(** C3, as amended. In the local leaderboard, the only all-time total
    that the page computes itself, the total of a row is the sum, over
    every stored session of its cadet, voided or not and whatever the
    window, of the session's raw whole minutes (to [now] while open, never
    negative); so inserting one more session of a cadet adds exactly the
    raw whole minutes of that session. *)
Theorem localLeaderboard_raw_minutes now (l : LocalStorage) :
  (forall r, r ∈ localLeaderboard now l ->
     exists id c,
       asp_current_cadet_ l !! id = Some c
       /\ LeaderboardRow.name r = Cadet.name c
       /\ LeaderboardRow.totalMin r
          = sumZ (rawMinutes now <$> filter (fun s => Session.cadet_id s = id)
                                            (asp_sessions l)))
  /\ (forall before s after,
        localTotal now (before ++ s :: after) (Session.cadet_id s)
        = localTotal now (before ++ after) (Session.cadet_id s)
          + Z.max 0 ((default now (Session.sign_out s) - Session.sign_in s) / 60000)).
Proof.
  split.
  - intros r Hr. unfold localLeaderboard in Hr.
    rewrite sortDesc_Permutation in Hr.
    apply list_elem_of_omap in Hr as (id & _ & Hrow).
    destruct (asp_current_cadet_ l !! id) as [c|] eqn:Hc; [|discriminate].
    simpl in Hrow. injection Hrow as <-.
    exists id, c. repeat split; [exact Hc|]. simpl. apply localTotal_sum.
  - intros before s after. rewrite !localTotal_sum.
    rewrite !filter_app, filter_cons, decide_True by reflexivity.
    rewrite !fmap_app, fmap_cons, !sumZ_app.
    unfold sumZ. cbn [foldr]. unfold rawMinutes at 2. lia.
Qed.

(** ** Next session, on a device in the program's zone *)

(** When the device and the program share a zone at a fixed offset, the
    device-local methods of [nextWindow] compute in the program's zone. *)
Section NextSession.

Variable o : Z.

Lemma days_from_civil_day y m d : days_from_civil y m 1 + d - 1 = days_from_civil y m d.
Proof. unfold days_from_civil. lia. Qed.

Lemma setDate_fixedZone now add :
  setDate (fixedZone o) now (getDate (fixedZone o) now + add) = now + add * msPerDay.
Proof.
  unfold setDate, getDate, MakeDay, UTC, LocalTime, YearFromTime, MonthFromTime,
    DateFromTime. cbn [utcOffset localOffset fixedZone].
  set (lt := now + o).
  replace ((civil_from_days (Day lt)).1.2 - 1 + 1) with (civil_from_days (Day lt)).1.2 by lia.
  replace (days_from_civil _ _ 1 + ((civil_from_days (Day lt)).2 + add) - 1)
    with (days_from_civil (civil_from_days (Day lt)).1.1 (civil_from_days (Day lt)).1.2 1
          + (civil_from_days (Day lt)).2 - 1 + add) by lia.
  rewrite days_from_civil_day, days_from_civil_from_days.
  unfold Day, TimeWithinDay, msPerDay. subst lt. Z.div_mod_to_equations. lia.
Qed.

Lemma setHours_fixedZone t :
  setHours (fixedZone o) t 19 30 0 0 = Day (t + o) * msPerDay + 1170 * msPerMinute - o.
Proof.
  unfold setHours, UTC, LocalTime. cbn [utcOffset localOffset fixedZone].
  unfold msPerHour, msPerMinute. lia.
Qed.

Lemma nextWindowCandidates_fixedZone now :
  nextWindowCandidates (fixedZone o) now
  = omap (fun add => if bool_decide ((WeekDay (now + o) + add) mod 7 ∈ [1; 3])
                     then Some (openingOfDay o now add) else None)
         [0; 1; 2; 3; 4; 5; 6; 7].
Proof.
  unfold nextWindowCandidates. change (seqZ 0 8) with [0; 1; 2; 3; 4; 5; 6; 7].
  assert (E : forall add,
    (let d := setDate (fixedZone o) now (getDate (fixedZone o) now + add) in
     let dow := getDay (fixedZone o) d in
     if bool_decide (dow ∈ [1; 3]) then Some (setHours (fixedZone o) d 19 30 0 0) else None)
    = (if bool_decide ((WeekDay (now + o) + add) mod 7 ∈ [1; 3])
       then Some (openingOfDay o now add) else None)).
  { intros add. cbv zeta. rewrite setDate_fixedZone, setHours_fixedZone.
    unfold getDay, LocalTime, openingOfDay. cbn [utcOffset fixedZone].
    replace (WeekDay (now + add * msPerDay + o)) with ((WeekDay (now + o) + add) mod 7)
      by (unfold WeekDay, Day, msPerDay; Z.div_mod_to_equations; lia).
    replace (Day (now + add * msPerDay + o)) with (Day (now + o) + add)
      by (unfold Day, msPerDay; Z.div_mod_to_equations; lia).
    reflexivity. }
  cbn [omap list_omap]. rewrite !E. reflexivity.
Qed.

Lemma openingOfDay_open now add :
  (WeekDay (now + o) + add) mod 7 = 1 \/ (WeekDay (now + o) + add) mod 7 = 3 ->
  isAspOpen (fixedZone o) (openingOfDay o now add) = true
  /\ wallMinuteOfDay (fixedZone o) (openingOfDay o now add) = 1170.
Proof.
  intros Hwd.
  assert (Hm : wallMinuteOfDay (fixedZone o) (openingOfDay o now add) = 1170).
  { unfold wallMinuteOfDay, LocalTime, openingOfDay, TimeWithinDay, Day, msPerDay,
      msPerMinute.
    cbn [utcOffset fixedZone]. Z.div_mod_to_equations. lia. }
  split; [|exact Hm].
  rewrite isAspOpen_unfold, Hm.
  assert (Hd : Day (LocalTime (fixedZone o) (openingOfDay o now add)) = Day (now + o) + add).
  { unfold LocalTime, openingOfDay. cbn [utcOffset fixedZone].
    generalize (Day (now + o)). intros d0.
    unfold Day, msPerDay, msPerMinute. Z.div_mod_to_equations. lia. }
  replace (wallWeekday (fixedZone o) (openingOfDay o now add))
    with ((WeekDay (now + o) + add) mod 7)
    by (unfold wallWeekday, WeekDay; rewrite Hd; generalize (Day (now + o)); intros d0;
        Z.div_mod_to_equations; lia).
  destruct Hwd as [-> | ->]; reflexivity.
Qed.

(** An instant after [now] at 19:30 of a Monday or Wednesday of the zone
    is the opening of one of the days counted from today. *)
Lemma opening_is_openingOfDay now t :
  now < t ->
  wallWeekday (fixedZone o) t = 1 \/ wallWeekday (fixedZone o) t = 3 ->
  TimeWithinDay (LocalTime (fixedZone o) t) = 1170 * msPerMinute ->
  exists j, 0 <= j /\ t = openingOfDay o now j
            /\ ((WeekDay (now + o) + j) mod 7 = 1 \/ (WeekDay (now + o) + j) mod 7 = 3).
Proof.
  unfold wallWeekday, LocalTime, openingOfDay. cbn [utcOffset fixedZone].
  intros Hlt Hwd Ht. exists (Day (t + o) - Day (now + o)).
  revert Hwd Ht. unfold WeekDay, TimeWithinDay, Day, msPerDay, msPerMinute.
  intros Hwd Ht. repeat split.
  - Z.div_mod_to_equations. lia.
  - Z.div_mod_to_equations. lia.
  - replace (((now + o) / 86400000 + 4) mod 7 + ((t + o) / 86400000 - (now + o) / 86400000))
      with (((t + o) / 86400000 + 4) + 7 * - (((now + o) / 86400000 + 4) / 7))
      by (Z.div_mod_to_equations; lia).
    rewrite Z.add_mod, Z.mul_comm, Z.mod_mul, Z.add_0_r, Z.mod_mod by lia. exact Hwd.
Qed.

(** X1. On a device whose zone is the program's, at a fixed offset,
    [nextWindow] is an instant after [now] at which the program is open, at
    19:30 of a Monday or Wednesday, and the earliest such instant. *)
Theorem nextWindow_program_zone now :
  exists d, nextWindow (fixedZone o) now = Some d
    /\ now < d
    /\ isAspOpen (fixedZone o) d = true
    /\ wallMinuteOfDay (fixedZone o) d = 1170
    /\ (forall t, now < t ->
          wallWeekday (fixedZone o) t = 1 \/ wallWeekday (fixedZone o) t = 3 ->
          TimeWithinDay (LocalTime (fixedZone o) t) = 1170 * msPerMinute ->
          d <= t).
Proof.
  unfold nextWindow. rewrite nextWindowCandidates_fixedZone.
  assert (Hearliest : forall a,
    now < openingOfDay o now a ->
    (forall j, 0 <= j < a ->
       ((WeekDay (now + o) + j) mod 7 = 1 \/ (WeekDay (now + o) + j) mod 7 = 3) ->
       openingOfDay o now j <= now) ->
    forall t, now < t ->
      wallWeekday (fixedZone o) t = 1 \/ wallWeekday (fixedZone o) t = 3 ->
      TimeWithinDay (LocalTime (fixedZone o) t) = 1170 * msPerMinute ->
      openingOfDay o now a <= t).
  { intros a Ha Hbefore t Hlt Hwd Ht.
    destruct (opening_is_openingOfDay now t Hlt Hwd Ht) as (j & Hj & -> & Hwj).
    destruct (Z.lt_ge_cases j a) as [Hja|Hja].
    - specialize (Hbefore j (conj Hj Hja) Hwj). lia.
    - unfold openingOfDay, msPerDay. lia. }
  pose proof (openingOfDay_open now) as Hopen.
  pose proof (WeekDay_range (now + o)) as Hk.
  assert (Hnext : forall a, 1 <= a -> now < openingOfDay o now a).
  { intros a Ha. unfold openingOfDay, Day, msPerDay, msPerMinute.
    Z.div_mod_to_equations. lia. }
  set (k := WeekDay (now + o)) in *. clearbody k.
  set (c := openingOfDay o now) in *. clearbody c.
  assert (Hc : k = 0 \/ k = 1 \/ k = 2 \/ k = 3 \/ k = 4 \/ k = 5 \/ k = 6) by lia.
  (* the candidates of each weekday, then the outcome of each test of [find] *)
  destruct Hc as [->|[->|[->|[->|[->|[->| ->]]]]]];
    match goal with |- context [omap ?f ?l] =>
      let v := eval vm_compute in (omap f l) in change (omap f l) with v end;
    cbn [find head].
  all: repeat match goal with
       | |- context [?x <? ?y] =>
           let E := fresh "E" in
           destruct (x <? y) eqn:E;
           [apply Z.ltb_lt in E|apply Z.ltb_ge in E]
       end.
  (* a candidate of a later day is after [now] *)
  all: try (exfalso;
            repeat match goal with
              | E : ?f ?a <= _ |- _ =>
                  first [pose proof (Hnext a ltac:(lia)); lia | clear E]
              end; fail).
  all: match goal with |- exists d, Some (?f ?a) = Some d /\ _ =>
         exists (f a); split; [reflexivity|];
         split; [first [assumption | apply Hnext; lia]|];
         destruct (Hopen a ltac:(vm_compute; auto)) as [H1 H2];
         split; [exact H1|]; split; [exact H2|];
         apply Hearliest; [first [assumption | apply Hnext; lia]|];
         intros j Hj Hwj;
         assert (Hcase : j = 0 \/ j = 1 \/ j = 2 \/ j = 3 \/ j = 4 \/ j = 5 \/ j = 6 \/ j = 7)
           by lia;
         destruct Hcase as [->|[->|[->|[->|[->|[->|[->| ->]]]]]]];
         first [lia | assumption | (exfalso; vm_compute in Hwj; destruct Hwj; discriminate)]
       end.
Qed.

End NextSession.

(** ** More properties of the page *)

Section TonightFacts.

Variable TZ : Zone.

Lemma seg_bounds now s : 0 <= seg TZ now s <= 120.
Proof. unfold seg, overlapMinutesET, ASP_START_MIN, ASP_END_MIN. lia. Qed.

Lemma sum_seg_nonneg now l : 0 <= sumZ (seg TZ now <$> l).
Proof.
  apply sumZ_nonneg, Forall_fmap, Forall_forall. intros s _. apply seg_bounds.
Qed.

(** X4. [minutesTonightET] lies between 0 and 120, does not depend on the
    order of the sessions, and adding sessions never lowers it. *)
Theorem minutesTonightET_bounds sessions more now :
  0 <= minutesTonightET TZ sessions now <= TWO_HOURS_MIN
  /\ (forall sessions', sessions ≡ₚ sessions' ->
        minutesTonightET TZ sessions' now = minutesTonightET TZ sessions now)
  /\ minutesTonightET TZ sessions now <= minutesTonightET TZ (sessions ++ more) now
  /\ minutesTonightET TZ [] now = 0.
Proof.
  rewrite !minutesTonightET_sum. unfold TWO_HOURS_MIN.
  pose proof (sum_seg_nonneg now (filter (startedTonight TZ now) sessions)).
  pose proof (sum_seg_nonneg now (filter (startedTonight TZ now) more)).
  split; [lia|]. split; [|split].
  - intros sessions' Hp. rewrite !minutesTonightET_sum. f_equal.
    apply sumZ_Permutation, fmap_Permutation. rewrite Hp. reflexivity.
  - rewrite filter_app, fmap_app, sumZ_app. lia.
  - reflexivity.
Qed.

Lemma chained_weaken now hi hi' l : hi <= hi' -> chained TZ now hi l -> chained TZ now hi' l.
Proof. destruct l as [|s r]; simpl; [auto|]. intros Hle [H Hr]. split; [lia|exact Hr]. Qed.

Lemma chained_sum now hi l :
  chained TZ now hi l ->
  sumZ (seg TZ now <$> filter (startedTonight TZ now) l) <= Z.max 0 (Z.min hi 1290 - 1170).
Proof.
  revert hi. induction l as [|s r IH]; intros hi Hc.
  - unfold sumZ. simpl. lia.
  - destruct Hc as [Hs Hr]. rewrite filter_cons. case_decide.
    + rewrite fmap_cons. unfold sumZ. cbn [foldr].
      fold (sumZ (seg TZ now <$> filter (startedTonight TZ now) r)).
      specialize (IH _ Hr).
      rewrite seg_windowOverlap, <- overlapMinutesET_windowOverlap.
      unfold overlapMinutesET, ASP_START_MIN, ASP_END_MIN. lia.
    + specialize (IH _ Hr). lia.
Qed.

(** While the program is open, sessions that follow one another stay
    under the cap. *)
Lemma chained_under_cap now l :
  isAspOpen TZ now = true -> chained TZ now (wallMinuteOfDay TZ now) l ->
  minutesTonightET TZ l now < TWO_HOURS_MIN.
Proof.
  intros Hopen Hc. rewrite isAspOpen_unfold in Hopen.
  apply andb_prop in Hopen as [_ Hhi]. apply Z.ltb_lt in Hhi.
  rewrite minutesTonightET_sum. pose proof (chained_sum _ _ _ Hc).
  unfold TWO_HOURS_MIN. lia.
Qed.

End TonightFacts.

Section GuardFacts.

Variable TZ : Zone.
Variable ilike : string -> string -> bool.
Variable rpc2 : Db -> option (list RowDB.v2).
Variable rpc1 : Db -> option (list RowDB.v1).

(** X3. The two-hours guard of step 4 cannot fire on a history without
    overlaps: when the recent sessions of the cadet follow one another
    within the day, none ending after [now], sign-in never answers with the
    two-hours message (the window is 120 minutes long and is tested
    first). *)
Theorem handleSignIn_chained_never_capped e w k :
  klass (form w) = Some k ->
  chained TZ (now e) (wallMinuteOfDay TZ (now e))
    (default [] (selectRecentSessions e (db w)
                   (Cadet.id (signInCadet ilike e (db w) (form w) k)))) ->
  statusMsg (ui (handleSignIn TZ ilike rpc2 rpc1 e w)) <> Some MsgTwoHoursTonight.
Proof.
  intros Hk Hc. unfold handleSignIn. rewrite Hk.
  destruct (String.eqb (name (form w)) ""); [discriminate|].
  destruct (isAspOpen TZ (now e)) eqn:Hopen; [|discriminate]. cbn [negb].
  destruct (hasSupabase e).
  2:{ destruct (signedIn_frame ilike rpc2 rpc1 MsgSignedInLocal
                  (signInCadet ilike e (db w) (form w) k)
                  {| Session.id := uuidSession e;
                     Session.cadet_id := Cadet.id (signInCadet ilike e (db w) (form w) k);
                     Session.sign_in := now e; Session.sign_out := None;
                     Session.voided := false |} e
                  (storeSessions (asp_sessions (ls w) ++
                     [{| Session.id := uuidSession e;
                         Session.cadet_id := Cadet.id (signInCadet ilike e (db w) (form w) k);
                         Session.sign_in := now e; Session.sign_out := None;
                         Session.voided := false |}]) w))
        as (_ & _ & _ & -> & _). discriminate. }
  destruct (fails e CadetsUpsert); [discriminate|].
  set (c := signInCadet ilike e (db w) (form w) k) in *.
  set (w1 := with_db _ w).
  assert (Hcap :
    match selectRecentSessions e (db w1) (Cadet.id c) with
    | Some recent => TWO_HOURS_MIN <=? minutesTonightET TZ recent (now e)
    | None => false
    end = false).
  { change (selectRecentSessions e (db w1) (Cadet.id c))
      with (selectRecentSessions e (db w) (Cadet.id c)).
    destruct (selectRecentSessions e (db w) (Cadet.id c)) as [recent|]; [|reflexivity].
    apply Z.leb_gt. apply chained_under_cap; assumption. }
  rewrite Hcap.
  destruct (selectOpenSession e (db w1) (Cadet.id c)) as [[existing|]|].
  - destruct (signedIn_frame ilike rpc2 rpc1 MsgResumed c existing e w1)
      as (_ & _ & _ & -> & _). discriminate.
  - destruct (insertSession e (db w1) _) as [[db2 inserted]|]; [|discriminate].
    destruct (signedIn_frame ilike rpc2 rpc1 MsgSignedIn c inserted e (with_db db2 w1))
      as (_ & _ & _ & -> & _). discriminate.
  - destruct (insertSession e (db w1) _) as [[db2 inserted]|]; [|discriminate].
    destruct (signedIn_frame ilike rpc2 rpc1 MsgSignedIn c inserted e (with_db db2 w1))
      as (_ & _ & _ & -> & _). discriminate.
Qed.

(** X2. The query of step 4 reads only the last 36 hours, and that is
    enough: every session of the cadet that is not voided and whose date key
    is tonight's is among its rows, so the guard counts the same minutes as
    over all the sessions of the cadet that are not voided. *)
Theorem selectRecentSessions_tonight e d cid recent :
  (forall t, EST <= utcOffset TZ t <= EDT) ->
  0 <= now e -> Forall (fun s => 0 <= Session.sign_in s) (sessions d) ->
  selectRecentSessions e d cid = Some recent ->
  (forall s, s ∈ sessions d -> Session.cadet_id s = cid -> Session.voided s = false ->
             etDateKey TZ (Session.sign_in s) = etDateKey TZ (now e) -> s ∈ recent)
  /\ (forall s, s ∈ recent -> s ∈ nonVoidOf cid (sessions d))
  /\ minutesTonightET TZ recent (now e)
     = minutesTonightET TZ (nonVoidOf cid (sessions d)) (now e).
Proof.
  intros Hoff Hnow Hpos Hsel.
  split; [|split].
  - intros s Hin Hc Hv Hkey. unfold selectRecentSessions in Hsel.
    destruct (fails e SessionsSelectRecent); [discriminate|]. injection Hsel as <-.
    rewrite sortDesc_Permutation. apply list_elem_of_filter. split; [|exact Hin].
    rewrite Forall_forall in Hpos.
    pose proof (startedTonight_recent TZ Hoff (now e) s Hnow (Hpos s Hin) Hkey). auto.
  - intros s Hin. unfold selectRecentSessions in Hsel.
    destruct (fails e SessionsSelectRecent); [discriminate|]. injection Hsel as <-.
    rewrite sortDesc_Permutation in Hin. apply list_elem_of_filter in Hin as [(? & ? & ?) Hin].
    apply list_elem_of_filter. auto.
  - apply (minutesTonightET_recent TZ Hoff e d cid recent Hnow Hpos Hsel).
Qed.

End GuardFacts.

Section DateKeys.

Variable TZ : Zone.

(** X5. [etParts] reads the wall-clock fields of the zone, never NaN and
    in range, and from the year 1 on two instants have the same
    [etDateKey] exactly when they fall on the same day of the zone. *)
Theorem etDateKey_same_day t1 t2 :
  1 <= YearFromTime (LocalTime TZ t1) -> 1 <= YearFromTime (LocalTime TZ t2) ->
  (etDateKey TZ t1 = etDateKey TZ t2 <-> Day (LocalTime TZ t1) = Day (LocalTime TZ t2))
  /\ 1 <= m (etParts TZ t1) <= 12 /\ 1 <= da (etParts TZ t1) <= 31
  /\ 0 <= h (etParts TZ t1) <= 23 /\ 0 <= mi (etParts TZ t1) <= 59
  /\ 0 <= minutesOfDayET TZ t1 < 1440.
Proof.
  intros H1 H2. split.
  - rewrite etDateKey_eq_iff, shownDate_calendarDate by assumption.
    unfold calendarDate. split; [apply civil_from_days_inj|intros ->; reflexivity].
  - unfold minutesOfDayET. rewrite etParts_fields. cbn [m da h mi].
    pose proof (civil_from_days_range (Day (LocalTime TZ t1))) as [Hm Hd].
    pose proof (HourFromTime_range (LocalTime TZ t1)).
    pose proof (MinFromTime_range (LocalTime TZ t1)).
    unfold MonthFromTime, DateFromTime. lia.
Qed.

End DateKeys.

Section Lifecycle.

Variable TZ : Zone.
Variable device : Zone.
Variable ilike : string -> string -> bool.
Variable rpc2 : Db -> option (list RowDB.v2).
Variable rpc1 : Db -> option (list RowDB.v1).
Variable floorNumber : string -> option Z.

Abbreviation handleSignIn1 := (handleSignIn TZ ilike rpc2 rpc1).
Abbreviation handleSignOut1 := (handleSignOut ilike rpc2 rpc1).
Abbreviation autoSignOut1 := (autoSignOut ilike rpc2 rpc1).
Abbreviation saveEdits1 := (saveEdits device ilike rpc2 rpc1 floorNumber).
Abbreviation signedIn1 := (signedIn ilike rpc2 rpc1).
Abbreviation signedOut1 := (signedOut ilike rpc2 rpc1).
Abbreviation fetchLeaderboard1 := (fetchLeaderboard ilike rpc2 rpc1).
Abbreviation mount1 := (mount ilike rpc2 rpc1).

Lemma signedIn_cache msg c s e w :
  cadet (ui (signedIn1 msg c s e w)) = Some c
  /\ asp_current_cadet (ls (signedIn1 msg c s e w)) = Some c
  /\ asp_current_cadet_ (ls (signedIn1 msg c s e w))
     = <[Cadet.id c := c]> (asp_current_cadet_ (ls w)).
Proof.
  unfold signedIn.
  destruct (fetchLeaderboard_frame ilike rpc2 rpc1 e
              (setStatusMsg msg (storeActiveSession (Some s)
                 (setActiveSession (Some s) (saveLocalCadet c (setCadet c w))))))
    as (_ & -> & _ & _ & _ & ->).
  repeat split; reflexivity.
Qed.

Lemma signedOut_cache msg e w :
  cadet (ui (signedOut1 msg e w)) = cadet (ui w)
  /\ asp_current_cadet (ls (signedOut1 msg e w)) = asp_current_cadet (ls w)
  /\ asp_current_cadet_ (ls (signedOut1 msg e w)) = asp_current_cadet_ (ls w).
Proof.
  unfold signedOut.
  destruct (fetchLeaderboard_frame ilike rpc2 rpc1 e
              (setStatusMsg msg (storeActiveSession None (setActiveSession None w))))
    as (_ & -> & _ & _ & _ & ->).
  repeat split; reflexivity.
Qed.

Lemma signedIn_coherent msg c s e w : cacheCoherent (signedIn1 msg c s e w).
Proof.
  destruct (signedIn_cache msg c s e w) as (Hc & Hl & _).
  destruct (signedIn_frame ilike rpc2 rpc1 msg c s e w) as (_ & _ & Ha & _ & Hs).
  split; congruence.
Qed.

Lemma signedOut_coherent msg e w :
  cadet (ui w) = asp_current_cadet (ls w) -> cacheCoherent (signedOut1 msg e w).
Proof.
  intros H. destruct (signedOut_cache msg e w) as (Hc & Hl & _).
  destruct (signedOut_frame ilike rpc2 rpc1 msg e w) as (_ & _ & Ha & _ & Hs).
  split; congruence.
Qed.

Lemma handleSignIn_coherent e w : cacheCoherent w -> cacheCoherent (handleSignIn1 e w).
Proof.
  intros H. unfold handleSignIn.
  destruct (klass (form w)) as [k|]; [|exact H].
  destruct (String.eqb (name (form w)) ""); [exact H|].
  destruct (negb (isAspOpen TZ (now e))); [exact H|].
  destruct (hasSupabase e); [|apply signedIn_coherent].
  destruct (fails e CadetsUpsert); [exact H|].
  destruct (selectOpenSession e _ _) as [[existing|]|]; [apply signedIn_coherent| |];
    (destruct (match selectRecentSessions e _ _ with Some _ => _ | None => _ end);
     [exact H|]; destruct (insertSession e _ _) as [[db2 inserted]|];
     [apply signedIn_coherent|exact H]).
Qed.

Lemma handleSignOut_coherent e w : cacheCoherent w -> cacheCoherent (handleSignOut1 e w).
Proof.
  intros H. unfold handleSignOut.
  destruct (activeSession (ui w)) as [a|]; [|exact H].
  destruct (hasSupabase e).
  - destruct (_ || _); [exact H|]. apply signedOut_coherent. exact (proj1 H).
  - apply signedOut_coherent.
    destruct (updateFirst _ _ _); exact (proj1 H).
Qed.

Lemma autoSignOut_coherent e a w : cacheCoherent w -> cacheCoherent (autoSignOut1 e a w).
Proof.
  intros H. unfold autoSignOut. apply signedOut_coherent.
  destruct (hasSupabase e); [destruct (fails e SessionsUpdateAuto)|destruct (updateFirst _ _ _)];
    exact (proj1 H).
Qed.

Lemma saveEdits_coherent e w : cacheCoherent w -> cacheCoherent (saveEdits1 e w).
Proof.
  intros H. unfold saveEdits.
  destruct (editCadet (editor w)) as [ec|]; [|exact H].
  destruct (hasSupabase e); [|exact H].
  destruct (mapM _ _) as [updates|]; [|exact H].
  destruct (saveSessionEdits e updates _) as [l1 [|]]; [|exact H].
  destruct (saveOverride _ _ _ _ _) as [db2 [|]]; [|exact H].
  unfold cacheCoherent. cbn [ui ls setSavingEdits with_editor].
  match goal with |- context [fetchLeaderboard1 e ?x] =>
    destruct (fetchLeaderboard_frame ilike rpc2 rpc1 e x) as (_ & -> & _ & _ & -> & ->) end.
  exact H.
Qed.

Lemma mount_cache e w :
  cadet (ui (mount1 e w)) = asp_current_cadet (ls w)
  /\ activeSession (ui (mount1 e w)) = asp_active_session (ls w)
  /\ ls (mount1 e w) = ls w /\ db (mount1 e w) = db w.
Proof.
  unfold mount, loadOverridesMap.
  set (w0 := loadCached (freshPage w)).
  assert (H0 : cadet (ui w0) = asp_current_cadet (ls w)
               /\ activeSession (ui w0) = asp_active_session (ls w)
               /\ ls w0 = ls w /\ db w0 = db w).
  { subst w0. unfold loadCached, freshPage. cbn [ls].
    destruct (asp_current_cadet (ls w)); cbn [ls setCadet with_ui];
      destruct (asp_active_session (ls w)); repeat split; reflexivity. }
  destruct H0 as (Hc & Ha & Hl & Hd).
  destruct (fetchLeaderboard_frame ilike rpc2 rpc1 e w0) as (Fd & Fl & _ & _ & Fa & Fc).
  destruct (hasSupabase e && negb (fails e OverridesSelect));
    cbn [ui ls db setOverridesMap with_ui cadet activeSession];
    rewrite ?Fd, ?Fl, ?Fa, ?Fc; auto.
Qed.

(** X8. What the page caches in localStorage mirrors its state: the
    handlers keep the cached cadet and active session equal to the
    component's, mounting restores them from the cache, so a reload of the
    page shows the same cadet and the same active session. *)
Theorem cache_mirrors_state e e' a w :
  cacheCoherent w ->
  cacheCoherent (handleSignIn1 e w)
  /\ cacheCoherent (handleSignOut1 e w)
  /\ cacheCoherent (autoSignOut1 e a w)
  /\ cacheCoherent (saveEdits1 e w)
  /\ cacheCoherent (mount1 e' w)
  /\ cadet (ui (mount1 e' w)) = cadet (ui w)
  /\ activeSession (ui (mount1 e' w)) = activeSession (ui w).
Proof.
  intros H.
  split; [apply handleSignIn_coherent, H|].
  split; [apply handleSignOut_coherent, H|].
  split; [apply autoSignOut_coherent, H|].
  split; [apply saveEdits_coherent, H|].
  destruct (mount_cache e' w) as (Hc & Ha & Hl & _). destruct H as [H1 H2].
  unfold cacheCoherent. rewrite Hl. repeat split; congruence.
Qed.

End Lifecycle.

Section Lifecycle2.

Variable TZ : Zone.
Variable device : Zone.
Variable ilike : string -> string -> bool.
Variable rpc2 : Db -> option (list RowDB.v2).
Variable rpc1 : Db -> option (list RowDB.v1).
Variable floorNumber : string -> option Z.

Abbreviation handleSignIn1 := (handleSignIn TZ ilike rpc2 rpc1).
Abbreviation handleSignOut1 := (handleSignOut ilike rpc2 rpc1).
Abbreviation autoSignOut1 := (autoSignOut ilike rpc2 rpc1).
Abbreviation saveEdits1 := (saveEdits device ilike rpc2 rpc1 floorNumber).
Abbreviation signedIn1 := (signedIn ilike rpc2 rpc1).
Abbreviation signedOut1 := (signedOut ilike rpc2 rpc1).
Abbreviation fetchLeaderboard1 := (fetchLeaderboard ilike rpc2 rpc1).

(** X7. The two modes keep to their own store: without Supabase no
    handler writes the remote store, and with it no handler writes the
    session history of localStorage. *)
Theorem handlers_keep_to_their_store e a w :
  (hasSupabase e = false ->
   db (handleSignIn TZ ilike rpc2 rpc1 e w) = db w
   /\ db (handleSignOut ilike rpc2 rpc1 e w) = db w
   /\ db (autoSignOut ilike rpc2 rpc1 e a w) = db w
   /\ db (saveEdits device ilike rpc2 rpc1 floorNumber e w) = db w)
  /\ (hasSupabase e = true ->
      asp_sessions (ls (handleSignIn TZ ilike rpc2 rpc1 e w)) = asp_sessions (ls w)
      /\ asp_sessions (ls (handleSignOut ilike rpc2 rpc1 e w)) = asp_sessions (ls w)
      /\ asp_sessions (ls (autoSignOut ilike rpc2 rpc1 e a w)) = asp_sessions (ls w)
      /\ asp_sessions (ls (saveEdits device ilike rpc2 rpc1 floorNumber e w))
         = asp_sessions (ls w)).
Proof.
  split; intros Hmode.
  - repeat split.
    + unfold handleSignIn. rewrite Hmode.
      destruct (klass (form w)) as [k|]; [|reflexivity].
      destruct (String.eqb (name (form w)) ""); [reflexivity|].
      destruct (negb (isAspOpen TZ (now e))); [reflexivity|].
      match goal with |- db (signedIn1 ?m ?c ?s e ?x) = _ =>
        destruct (signedIn_frame ilike rpc2 rpc1 m c s e x) as (-> & _) end.
      reflexivity.
    + unfold handleSignOut. rewrite Hmode.
      destruct (activeSession (ui w)) as [s|]; [|reflexivity].
      match goal with |- db (signedOut1 ?m e ?x) = _ =>
        destruct (signedOut_frame ilike rpc2 rpc1 m e x) as (-> & _) end.
      destruct (updateFirst _ _ _); reflexivity.
    + unfold autoSignOut. rewrite Hmode.
      match goal with |- db (signedOut1 ?m e ?x) = _ =>
        destruct (signedOut_frame ilike rpc2 rpc1 m e x) as (-> & _) end.
      destruct (updateFirst _ _ _); reflexivity.
    + unfold saveEdits. rewrite Hmode. destruct (editCadet (editor w)); reflexivity.
  - repeat split.
    + unfold handleSignIn. rewrite Hmode.
      destruct (klass (form w)) as [k|]; [|reflexivity].
      destruct (String.eqb (name (form w)) ""); [reflexivity|].
      destruct (negb (isAspOpen TZ (now e))); [reflexivity|].
      destruct (fails e CadetsUpsert); [reflexivity|].
      destruct (selectOpenSession e _ _) as [[existing|]|];
        [match goal with |- asp_sessions (ls (signedIn1 ?m ?c ?s e ?x)) = _ =>
           destruct (signedIn_frame ilike rpc2 rpc1 m c s e x) as (_ & -> & _) end;
         reflexivity| |];
        (destruct (match selectRecentSessions e _ _ with Some _ => _ | None => _ end);
         [reflexivity|]; destruct (insertSession e _ _) as [[db2 inserted]|];
         [|reflexivity];
         match goal with |- asp_sessions (ls (signedIn1 ?m ?c ?s e ?x)) = _ =>
           destruct (signedIn_frame ilike rpc2 rpc1 m c s e x) as (_ & -> & _) end;
         reflexivity).
    + unfold handleSignOut. rewrite Hmode.
      destruct (activeSession (ui w)) as [s|]; [|reflexivity].
      destruct (_ || _); [reflexivity|].
      match goal with |- asp_sessions (ls (signedOut1 ?m e ?x)) = _ =>
        destruct (signedOut_frame ilike rpc2 rpc1 m e x) as (_ & -> & _) end.
      reflexivity.
    + unfold autoSignOut. rewrite Hmode.
      match goal with |- asp_sessions (ls (signedOut1 ?m e ?x)) = _ =>
        destruct (signedOut_frame ilike rpc2 rpc1 m e x) as (_ & -> & _) end.
      destruct (fails e SessionsUpdateAuto); reflexivity.
    + unfold saveEdits. rewrite Hmode.
      destruct (editCadet (editor w)) as [ec|]; [|reflexivity].
      destruct (mapM _ _) as [updates|]; [|reflexivity].
      destruct (saveSessionEdits e updates _) as [l1 [|]]; [|reflexivity].
      destruct (saveOverride _ _ _ _ _) as [db2 [|]]; [|reflexivity].
      cbn [ls setSavingEdits with_editor].
      match goal with |- context [fetchLeaderboard1 e ?x] =>
        destruct (fetchLeaderboard_frame ilike rpc2 rpc1 e x) as (_ & -> & _) end.
      reflexivity.
Qed.

Lemma upsertCadet_elem c l : c ∈ upsertCadet c l.
Proof.
  unfold upsertCadet. destruct (existsb _ l) eqn:E.
  - apply existsb_exists in E as (r & Hr & Hid).
    apply list_elem_of_fmap. exists r. rewrite Hid. split; [reflexivity|].
    apply list_elem_of_In, Hr.
  - apply elem_of_app. right. apply list_elem_of_here.
Qed.

Lemma upsertCadet_ids c l :
  Cadet.id <$> upsertCadet c l
  = if existsb (fun r => String.eqb (Cadet.id r) (Cadet.id c)) l
    then Cadet.id <$> l else (Cadet.id <$> l) ++ [Cadet.id c].
Proof.
  unfold upsertCadet. destruct (existsb _ l).
  - rewrite <- list_fmap_compose. apply list_fmap_ext. intros _ r _. simpl.
    destruct (String.eqb_spec (Cadet.id r) (Cadet.id c)); congruence.
  - rewrite fmap_app. reflexivity.
Qed.

Lemma upsertCadet_other c l r :
  r ∈ l -> Cadet.id r <> Cadet.id c -> r ∈ upsertCadet c l.
Proof.
  intros Hin Hne. unfold upsertCadet. destruct (existsb _ l).
  - apply list_elem_of_fmap. exists r. split; [|exact Hin].
    apply String.eqb_neq in Hne. rewrite Hne. reflexivity.
  - apply elem_of_app. left. exact Hin.
Qed.

(** X6. Sign-in only ever adds: whatever its outcome it leaves the
    overrides alone, keeps every stored session as it is and appends at
    most one, open, begun at [now] and owned by the cadet signing in, and it
    keeps every cadet other than that one; it appends exactly when it
    answers that the cadet is signed in. *)
Theorem handleSignIn_only_adds e w :
  let w' := handleSignIn1 e w in
  leaderboard_overrides (db w') = leaderboard_overrides (db w)
  /\ (exists added,
        storedSessions e w' = storedSessions e w ++ added
        /\ (added = [] \/
            exists k, klass (form w) = Some k /\
              added = [ {| Session.id := uuidSession e;
                           Session.cadet_id :=
                             Cadet.id (signInCadet ilike e (db w) (form w) k);
                           Session.sign_in := now e; Session.sign_out := None;
                           Session.voided := false |} ])
        /\ (added <> [] <->
            statusMsg (ui w') = Some MsgSignedIn
            \/ statusMsg (ui w') = Some MsgSignedInLocal))
  /\ (forall c k, c ∈ cadets (db w) -> klass (form w) = Some k ->
        Cadet.id c <> Cadet.id (signInCadet ilike e (db w) (form w) k) ->
        c ∈ cadets (db w'))
  /\ (forall c, c ∈ cadets (db w) ->
        exists c', c' ∈ cadets (db w') /\ Cadet.id c' = Cadet.id c).
Proof.
  cbv zeta. unfold handleSignIn, storedSessions.
  assert (Hsame : forall m : Status,
            m <> MsgSignedIn -> m <> MsgSignedInLocal ->
            forall (d : Db),
            leaderboard_overrides d = leaderboard_overrides (db w) ->
            sessions d = sessions (db w) ->
            (forall c k, c ∈ cadets (db w) -> klass (form w) = Some k ->
               Cadet.id c <> Cadet.id (signInCadet ilike e (db w) (form w) k) ->
               c ∈ cadets d) ->
            (forall c, c ∈ cadets (db w) -> exists c', c' ∈ cadets d /\ Cadet.id c' = Cadet.id c) ->
            let w' := setStatusMsg m (with_db d w) in
            leaderboard_overrides (db w') = leaderboard_overrides (db w)
            /\ (exists added,
                  (if hasSupabase e then sessions (db w') else asp_sessions (ls w'))
                  = (if hasSupabase e then sessions (db w) else asp_sessions (ls w)) ++ added
                  /\ (added = [] \/
                      exists k, klass (form w) = Some k /\
                        added = [ {| Session.id := uuidSession e;
                                     Session.cadet_id :=
                                       Cadet.id (signInCadet ilike e (db w) (form w) k);
                                     Session.sign_in := now e; Session.sign_out := None;
                                     Session.voided := false |} ])
                  /\ (added <> [] <->
                      statusMsg (ui w') = Some MsgSignedIn
                      \/ statusMsg (ui w') = Some MsgSignedInLocal))
            /\ (forall c k, c ∈ cadets (db w) -> klass (form w) = Some k ->
                  Cadet.id c <> Cadet.id (signInCadet ilike e (db w) (form w) k) ->
                  c ∈ cadets (db w'))
            /\ (forall c, c ∈ cadets (db w) ->
                  exists c', c' ∈ cadets (db w') /\ Cadet.id c' = Cadet.id c)).
  { intros m H1 H2 d Ho Hs Hc1 Hc2. cbv zeta. cbn [db ls ui setStatusMsg with_db with_ui statusMsg].
    split; [exact Ho|]. split; [|split; assumption].
    exists []. rewrite app_nil_r. split; [destruct (hasSupabase e); auto|].
    split; [auto|]. split; [congruence|]. intros [H|H]; congruence. }
  assert (Hkeep0 : forall c, c ∈ cadets (db w) ->
            exists c', c' ∈ cadets (db w) /\ Cadet.id c' = Cadet.id c) by eauto.
  assert (Hw : forall m, setStatusMsg m w = setStatusMsg m (with_db (db w) w))
    by (intros m; destruct w; reflexivity).
  destruct (klass (form w)) as [k|] eqn:Hk.
  2:{ rewrite Hw. apply Hsame; auto; discriminate. }
  destruct (String.eqb (name (form w)) "").
  { rewrite Hw. apply Hsame; auto; discriminate. }
  destruct (negb (isAspOpen TZ (now e))).
  { rewrite Hw. apply Hsame; auto; discriminate. }
  set (c := signInCadet ilike e (db w) (form w) k).
  set (s := {| Session.id := uuidSession e; Session.cadet_id := Cadet.id c;
               Session.sign_in := now e; Session.sign_out := None;
               Session.voided := false |}).
  assert (Hup1 : forall r k0, r ∈ cadets (db w) -> Some k = Some k0 ->
            Cadet.id r <> Cadet.id (signInCadet ilike e (db w) (form w) k0) ->
            r ∈ upsertCadet c (cadets (db w))).
  { intros r k0 Hr [= <-] Hne. apply upsertCadet_other; assumption. }
  assert (Hup2 : forall r, r ∈ cadets (db w) ->
            exists c', c' ∈ upsertCadet c (cadets (db w)) /\ Cadet.id c' = Cadet.id r).
  { intros r Hr. destruct (String.eqb_spec (Cadet.id r) (Cadet.id c)) as [E|E].
    - exists c. split; [apply upsertCadet_elem|congruence].
    - exists r. split; [apply upsertCadet_other; assumption|reflexivity]. }
  destruct (hasSupabase e) eqn:Hmode.
  - destruct (fails e CadetsUpsert).
    { rewrite Hw. apply Hsame; auto; discriminate. }
    set (d1 := with_cadets (upsertCadet c (cadets (db w))) (db w)).
    assert (Hresume : forall existing,
      let w' := signedIn1 MsgResumed c existing e (with_db d1 w) in
      leaderboard_overrides (db w') = leaderboard_overrides (db w)
      /\ (exists added,
            sessions (db w') = sessions (db w) ++ added
            /\ (added = [] \/ exists k0, Some k = Some k0 /\
                  added = [ {| Session.id := uuidSession e;
                               Session.cadet_id :=
                                 Cadet.id (signInCadet ilike e (db w) (form w) k0);
                               Session.sign_in := now e; Session.sign_out := None;
                               Session.voided := false |} ])
            /\ (added <> [] <->
                statusMsg (ui w') = Some MsgSignedIn
                \/ statusMsg (ui w') = Some MsgSignedInLocal))
      /\ (forall r k0, r ∈ cadets (db w) -> Some k = Some k0 ->
            Cadet.id r <> Cadet.id (signInCadet ilike e (db w) (form w) k0) ->
            r ∈ cadets (db w'))
      /\ (forall r, r ∈ cadets (db w) ->
            exists c', c' ∈ cadets (db w') /\ Cadet.id c' = Cadet.id r)).
    { intros existing. cbv zeta.
      destruct (signedIn_frame ilike rpc2 rpc1 MsgResumed c existing e (with_db d1 w))
        as (-> & _ & _ & -> & _).
      split; [reflexivity|]. split; [|split; assumption].
      exists []. rewrite app_nil_r. split; [reflexivity|]. split; [auto|].
      split; [congruence|]. intros [H|H]; discriminate. }
    assert (Hrest :
      let w' :=
        if match selectRecentSessions e d1 (Cadet.id c) with
           | Some recent => TWO_HOURS_MIN <=? minutesTonightET TZ recent (now e)
           | None => false
           end
        then setStatusMsg MsgTwoHoursTonight (with_db d1 w)
        else match insertSession e d1 s with
             | Some (db2, inserted) =>
                 signedIn1 MsgSignedIn c inserted e (with_db db2 (with_db d1 w))
             | None => setStatusMsg MsgSignInFailed (with_db d1 w)
             end in
      leaderboard_overrides (db w') = leaderboard_overrides (db w)
      /\ (exists added,
            sessions (db w') = sessions (db w) ++ added
            /\ (added = [] \/ exists k0, Some k = Some k0 /\
                  added = [ {| Session.id := uuidSession e;
                               Session.cadet_id :=
                                 Cadet.id (signInCadet ilike e (db w) (form w) k0);
                               Session.sign_in := now e; Session.sign_out := None;
                               Session.voided := false |} ])
            /\ (added <> [] <->
                statusMsg (ui w') = Some MsgSignedIn
                \/ statusMsg (ui w') = Some MsgSignedInLocal))
      /\ (forall r k0, r ∈ cadets (db w) -> Some k = Some k0 ->
            Cadet.id r <> Cadet.id (signInCadet ilike e (db w) (form w) k0) ->
            r ∈ cadets (db w'))
      /\ (forall r, r ∈ cadets (db w) ->
            exists c', c' ∈ cadets (db w') /\ Cadet.id c' = Cadet.id r)).
    { cbv zeta.
      destruct (match selectRecentSessions e d1 (Cadet.id c) with
                | Some recent => _ | None => false end).
      { apply (Hsame MsgTwoHoursTonight ltac:(discriminate) ltac:(discriminate) d1
                 eq_refl eq_refl); assumption. }
      unfold insertSession. destruct (_ || _).
      { apply (Hsame MsgSignInFailed ltac:(discriminate) ltac:(discriminate) d1
                 eq_refl eq_refl); assumption. }
      destruct (signedIn_frame ilike rpc2 rpc1 MsgSignedIn c s e
                  (with_db (with_sessions (sessions d1 ++ [s]) d1) (with_db d1 w)))
        as (-> & _ & _ & -> & _).
      split; [reflexivity|]. split; [|split; assumption].
      exists [s]. split; [reflexivity|]. split; [right; exists k; auto|].
      split; [auto|discriminate]. }
    destruct (selectOpenSession e _ _) as [[existing|]|];
      [apply Hresume|exact Hrest|exact Hrest].
  - destruct (signedIn_frame ilike rpc2 rpc1 MsgSignedInLocal c s e
                (storeSessions (asp_sessions (ls w) ++ [s]) w))
      as (-> & -> & _ & -> & _).
    split; [reflexivity|]. split.
    + exists [s]. split; [reflexivity|]. split; [right; exists k; auto|].
      split; [auto|discriminate].
    + split; [intros r k0 Hr _ _; exact Hr|exact Hkeep0].
Qed.

End Lifecycle2.

Lemma updateById_other f id l s :
  s ∈ l -> Session.id s <> id -> s ∈ updateById f id l.
Proof.
  intros Hin Hne. unfold updateById. apply list_elem_of_fmap. exists s.
  split; [|exact Hin]. apply String.eqb_neq in Hne. rewrite Hne. reflexivity.
Qed.

Lemma updateById_ids f id l :
  (forall s, Session.id (f s) = Session.id s) ->
  Session.id <$> updateById f id l = Session.id <$> l.
Proof.
  intros Hf. unfold updateById. rewrite <- list_fmap_compose.
  apply list_fmap_ext. intros _ s _. simpl.
  destruct (String.eqb (Session.id s) id); [apply Hf|reflexivity].
Qed.

Lemma updateFirst_other f id l l' s :
  updateFirst f id l = Some l' -> s ∈ l -> Session.id s <> id -> s ∈ l'.
Proof.
  revert l'. induction l as [|r l IH]; intros l' H Hin Hne; [inversion Hin|].
  simpl in H. destruct (String.eqb_spec (Session.id r) id) as [E|E].
  - injection H as <-. apply elem_of_cons in Hin as [->|Hin]; [congruence|].
    right. exact Hin.
  - destruct (updateFirst f id l) as [l0|]; [|discriminate]. injection H as <-.
    apply elem_of_cons in Hin as [->|Hin]; [left|right; apply IH; auto].
Qed.

Lemma updateFirst_ids f id l l' :
  (forall s, Session.id (f s) = Session.id s) ->
  updateFirst f id l = Some l' -> Session.id <$> l' = Session.id <$> l.
Proof.
  intros Hf. revert l'. induction l as [|r l IH]; intros l' H; [discriminate|].
  simpl in H. destruct (String.eqb (Session.id r) id).
  - injection H as <-. rewrite !fmap_cons, Hf. reflexivity.
  - destruct (updateFirst f id l) as [l0|]; [|discriminate]. injection H as <-.
    rewrite !fmap_cons, (IH l0 eq_refl). reflexivity.
Qed.

Lemma filter_none {A} (P : A -> Prop) `{!forall x, Decision (P x)} (l : list A) :
  (forall x, x ∈ l -> ~ P x) -> filter P l = [].
Proof.
  induction l as [|a l IH]; intros Hno; [reflexivity|].
  rewrite filter_cons, decide_False by (apply Hno; left).
  apply IH. intros x Hx. apply Hno. right. exact Hx.
Qed.

Lemma filter_id_length (l : list Session.t) s :
  NoDup (Session.id <$> l) -> s ∈ l ->
  length (filter (fun x => Session.id x = Session.id s) l) = 1%nat.
Proof.
  intros Hnd Hin. induction l as [|r l IH]; [inversion Hin|].
  rewrite fmap_cons in Hnd. apply NoDup_cons in Hnd as [Hr Hnd].
  rewrite filter_cons. apply elem_of_cons in Hin as [->|Hin].
  - rewrite decide_True by reflexivity. simpl. f_equal.
    apply length_zero_iff_nil, filter_none. intros x Hx Hid.
    apply Hr. rewrite <- Hid. apply list_elem_of_fmap. eauto.
  - rewrite decide_False; [apply IH; assumption|].
    intros Hid. apply Hr. rewrite Hid. apply list_elem_of_fmap. eauto.
Qed.

Section SignOut.

Variable ilike : string -> string -> bool.
Variable rpc2 : Db -> option (list RowDB.v2).
Variable rpc1 : Db -> option (list RowDB.v1).

Abbreviation handleSignOut2 := (handleSignOut ilike rpc2 rpc1).

(** X9. A sign-out that goes through closes the stored row of the
    active session at [now], whenever that is, and nothing else: the other
    stored sessions and the ids are as before, and the page has no active
    session left, neither in its state nor in its cache. *)
Theorem handleSignOut_closes_active e w a s :
  activeSession (ui w) = Some a ->
  s ∈ storedSessions e w ->
  NoDup (Session.id <$> storedSessions e w) ->
  Session.id s = Session.id a ->
  (hasSupabase e = true -> fails e SessionsUpdateSignOut = false) ->
  let w' := handleSignOut2 e w in
  statusMsg (ui w') = Some MsgSignedOut
  /\ activeSession (ui w') = None
  /\ asp_active_session (ls w') = None
  /\ with_sign_out (Some (now e)) s ∈ storedSessions e w'
  /\ (forall s', s' ∈ storedSessions e w -> Session.id s' <> Session.id a ->
                 s' ∈ storedSessions e w')
  /\ Session.id <$> storedSessions e w' = Session.id <$> storedSessions e w.
Proof.
  intros Ha Hin Hnd Hid Hok. cbv zeta. unfold handleSignOut, storedSessions in *.
  rewrite Ha. destruct (hasSupabase e) eqn:Hmode.
  - rewrite Hok by reflexivity. rewrite <- Hid, filter_id_length by assumption.
    cbn [orb negb Nat.eqb].
    match goal with |- context [signedOut ilike rpc2 rpc1 ?m e ?x] =>
      destruct (signedOut_frame ilike rpc2 rpc1 m e x) as (-> & _ & -> & -> & ->) end.
    cbn [db with_db sessions with_sessions]. repeat split.
    + apply updateById_elem; [exact Hin|reflexivity].
    + intros s' Hs' Hne. apply updateById_other; [exact Hs'|congruence].
    + apply updateById_ids. reflexivity.
  - destruct (updateFirst_elem (with_sign_out (Some (now e))) (Session.id a) _ s
                Hnd Hin Hid) as (l' & Hl' & Hs').
    rewrite Hl'.
    match goal with |- context [signedOut ilike rpc2 rpc1 ?m e ?x] =>
      destruct (signedOut_frame ilike rpc2 rpc1 m e x) as (_ & -> & -> & -> & ->) end.
    cbn [ls storeSessions with_ls asp_sessions]. repeat split.
    + exact Hs'.
    + intros s' Hin' Hne. apply (updateFirst_other _ _ _ _ _ Hl' Hin' Hne).
    + apply (updateFirst_ids (with_sign_out (Some (now e))) _ _ _ (fun _ => eq_refl) Hl').
Qed.

End SignOut.

Lemma elem_of_setOf seen ids x : x ∈ setOf seen ids <-> x ∈ ids /\ x ∉ seen.
Proof.
  revert seen. induction ids as [|i r IH]; intros seen; simpl.
  - split; [intros H; inversion H|intros [H _]; inversion H].
  - case_bool_decide as Hi.
    + rewrite IH, elem_of_cons. split; [tauto|].
      intros [[->|H] Hs]; [contradiction|auto].
    + rewrite !elem_of_cons, IH, not_elem_of_cons. split.
      * intros [->|[H [Hne Hs]]]; auto.
      * intros [[->|H] Hs]; [auto|].
        destruct (decide (x = i)) as [->|Hne]; auto.
Qed.

Lemma updateFirst_app_fresh f id l s :
  (forall x, x ∈ l -> Session.id x <> id) -> Session.id s = id ->
  updateFirst f id (l ++ [s]) = Some (l ++ [f s]).
Proof.
  intros Hfresh Hid. induction l as [|r l IH]; simpl.
  - apply String.eqb_eq in Hid. rewrite Hid. reflexivity.
  - assert (Hr : Session.id r <> id) by (apply Hfresh; left).
    apply String.eqb_neq in Hr. rewrite Hr.
    rewrite IH by (intros x Hx; apply Hfresh; right; exact Hx). reflexivity.
Qed.

Section LocalMode.

Variable TZ : Zone.
Variable ilike : string -> string -> bool.
Variable rpc2 : Db -> option (list RowDB.v2).
Variable rpc1 : Db -> option (list RowDB.v1).

Abbreviation handleSignIn3 := (handleSignIn TZ ilike rpc2 rpc1).
Abbreviation handleSignOut3 := (handleSignOut ilike rpc2 rpc1).

Lemma signedOut_local_leaderboard msg e w :
  hasSupabase e = false ->
  leaderboard (ui (signedOut ilike rpc2 rpc1 msg e w))
  = localLeaderboard (now e) (ls w).
Proof. intros Hmode. unfold signedOut, fetchLeaderboard. rewrite Hmode. reflexivity. Qed.

Lemma handleSignIn_local e w k :
  hasSupabase e = false -> klass (form w) = Some k -> name (form w) <> ""%string ->
  isAspOpen TZ (now e) = true ->
  let c := {| Cadet.id := uuidCadet e; Cadet.name := normalizeName (name (form w));
              Cadet.klass := k; Cadet.company := company (form w) |} in
  let s := {| Session.id := uuidSession e; Session.cadet_id := uuidCadet e;
              Session.sign_in := now e; Session.sign_out := None;
              Session.voided := false |} in
  handleSignIn3 e w
  = signedIn ilike rpc2 rpc1 MsgSignedInLocal c s e
      (storeSessions (asp_sessions (ls w) ++ [s]) w).
Proof.
  intros Hmode Hk Hname Hopen. unfold handleSignIn, signInCadet.
  apply String.eqb_neq in Hname. rewrite Hk, Hname, Hopen, Hmode. reflexivity.
Qed.

(** X10. In local mode a sign-in at [now e0] followed by a sign-out at
    [now e1] puts the session on the leaderboard: with ids that the history
    does not hold yet, the leaderboard that the sign-out loads has a row
    with the normalized name and the class typed in, whose total is the
    whole minutes between the two instants (0 when the clock went back). *)
Theorem local_session_reaches_leaderboard e0 e1 w k :
  hasSupabase e0 = false -> hasSupabase e1 = false ->
  klass (form w) = Some k -> name (form w) <> ""%string ->
  isAspOpen TZ (now e0) = true ->
  (forall s, s ∈ asp_sessions (ls w) ->
             Session.id s <> uuidSession e0 /\ Session.cadet_id s <> uuidCadet e0) ->
  let w1 := handleSignIn3 e0 w in
  let w2 := handleSignOut3 e1 w1 in
  (exists r, r ∈ leaderboard (ui w2)
             /\ LeaderboardRow.name r = normalizeName (name (form w))
             /\ LeaderboardRow.klass r = k
             /\ LeaderboardRow.company r = company (form w)
             /\ LeaderboardRow.totalMin r = Z.max 0 ((now e1 - now e0) / 60000))
  /\ statusMsg (ui w1) = Some MsgSignedInLocal
  /\ statusMsg (ui w2) = Some MsgSignedOut
  /\ activeSession (ui w2) = None.
Proof.
  intros Hm0 Hm1 Hk Hname Hopen Hfresh. cbv zeta.
  rewrite (handleSignIn_local e0 w k) by assumption. cbv zeta.
  set (c := {| Cadet.id := uuidCadet e0; Cadet.name := normalizeName (name (form w));
               Cadet.klass := k; Cadet.company := company (form w) |}).
  set (s := {| Session.id := uuidSession e0; Session.cadet_id := uuidCadet e0;
               Session.sign_in := now e0; Session.sign_out := None;
               Session.voided := false |}).
  set (w0 := storeSessions (asp_sessions (ls w) ++ [s]) w).
  destruct (signedIn_frame ilike rpc2 rpc1 MsgSignedInLocal c s e0 w0)
    as (_ & Hhist & _ & Hmsg & Hact).
  destruct (signedIn_cache ilike rpc2 rpc1 MsgSignedInLocal c s e0 w0) as (_ & _ & Hids).
  set (w1 := signedIn ilike rpc2 rpc1 MsgSignedInLocal c s e0 w0) in *.
  unfold handleSignOut. rewrite Hact, Hm1, Hhist.
  change (asp_sessions (ls w0)) with (asp_sessions (ls w) ++ [s]).
  rewrite (updateFirst_app_fresh _ (Session.id s) _ s)
    by (try reflexivity; intros x Hx; apply (Hfresh x Hx)).
  destruct (signedOut_frame ilike rpc2 rpc1 MsgSignedOut e1
              (storeSessions (asp_sessions (ls w) ++ [with_sign_out (Some (now e1)) s]) w1))
    as (_ & _ & _ & -> & ->).
  rewrite signedOut_local_leaderboard by assumption.
  split; [|auto].
  set (s' := with_sign_out (Some (now e1)) s).
  exists {| LeaderboardRow.cadetId := None; LeaderboardRow.name := Cadet.name c;
            LeaderboardRow.klass := Cadet.klass c; LeaderboardRow.company := Cadet.company c;
            LeaderboardRow.totalMin :=
              localTotal (now e1) (asp_sessions (ls w) ++ [s']) (uuidCadet e0) |}.
  split; [|repeat split].
  - unfold localLeaderboard. rewrite sortDesc_Permutation. apply list_elem_of_omap.
    exists (uuidCadet e0). cbn [ls storeSessions with_ls asp_sessions asp_current_cadet_].
    split.
    + apply elem_of_setOf. split; [|apply not_elem_of_nil].
      rewrite fmap_app. apply elem_of_app. right. apply list_elem_of_here.
    + rewrite Hids. cbn [Cadet.id c]. rewrite lookup_insert_eq. reflexivity.
  - cbn [LeaderboardRow.totalMin]. rewrite localTotal_sum, filter_app.
    rewrite (filter_none _ (asp_sessions (ls w)))
      by (intros x Hx; apply (Hfresh x Hx)).
    rewrite filter_cons, decide_True by reflexivity. rewrite filter_nil.
    unfold sumZ, rawMinutes. simpl. lia.
Qed.

Lemma collapseSpaces_nil prev : collapseSpaces prev "" = ""%string.
Proof. reflexivity. Qed.

(** X11. The form is validated on the name as typed, the cadet is saved
    under the normalized name: a name made of white space only passes the
    check and signs in a cadet whose name is empty. *)
Theorem handleSignIn_blank_name e w k :
  klass (form w) = Some k -> name (form w) <> ""%string ->
  trim (name (form w)) = ""%string ->
  isAspOpen TZ (now e) = true ->
  (hasSupabase e = true -> fails e CadetsUpsert = false) ->
  let w' := handleSignIn3 e w in
  (hasSupabase e = false ->
   exists c, cadet (ui w') = Some c /\ Cadet.name c = ""%string
             /\ statusMsg (ui w') = Some MsgSignedInLocal)
  /\ (hasSupabase e = true ->
      exists c, c ∈ cadets (db w') /\ Cadet.name c = ""%string /\ Cadet.klass c = k).
Proof.
  intros Hk Hname Hblank Hopen Hup. cbv zeta.
  assert (Hnorm : normalizeName (name (form w)) = ""%string)
    by (unfold normalizeName; rewrite Hblank; reflexivity).
  split; intros Hmode.
  - rewrite (handleSignIn_local e w k) by assumption. cbv zeta.
    match goal with |- context [signedIn ilike rpc2 rpc1 ?m ?c ?s e ?x] =>
      destruct (signedIn_cache ilike rpc2 rpc1 m c s e x) as (-> & _);
      destruct (signedIn_frame ilike rpc2 rpc1 m c s e x) as (_ & _ & _ & -> & _);
      exists c end.
    repeat split. exact Hnorm.
  - exists (signInCadet ilike e (db w) (form w) k).
    split; [|split; [exact Hnorm|reflexivity]].
    rewrite (handleSignIn_remote TZ ilike rpc2 rpc1 e w k) by auto. cbv zeta.
    set (c := signInCadet ilike e (db w) (form w) k).
    set (w1 := with_db _ w).
    assert (Hin : c ∈ cadets (db w1)) by apply upsertCadet_elem.
    destruct (selectOpenSession e (db w1) (Cadet.id c)) as [[existing|]|].
    + destruct (signedIn_frame ilike rpc2 rpc1 MsgResumed c existing e w1) as (-> & _).
      exact Hin.
    + destruct (match selectRecentSessions e _ _ with Some _ => _ | None => _ end);
        [exact Hin|].
      unfold insertSession. destruct (_ || _); [exact Hin|].
      match goal with |- context [signedIn ilike rpc2 rpc1 ?m ?c0 ?s e ?x] =>
        destruct (signedIn_frame ilike rpc2 rpc1 m c0 s e x) as (-> & _) end.
      exact Hin.
    + destruct (match selectRecentSessions e _ _ with Some _ => _ | None => _ end);
        [exact Hin|].
      unfold insertSession. destruct (_ || _); [exact Hin|].
      match goal with |- context [signedIn ilike rpc2 rpc1 ?m ?c0 ?s e ?x] =>
        destruct (signedIn_frame ilike rpc2 rpc1 m c0 s e x) as (-> & _) end.
      exact Hin.
Qed.

End LocalMode.

Section SignInPaths.

Variable TZ : Zone.
Variable ilike : string -> string -> bool.
Variable rpc2 : Db -> option (list RowDB.v2).
Variable rpc1 : Db -> option (list RowDB.v1).

Abbreviation handleSignIn7 := (handleSignIn TZ ilike rpc2 rpc1).

(** The cadet table after a sign-in that got past the upsert. *)
Lemma handleSignIn_cadets e w k :
  hasSupabase e = true -> klass (form w) = Some k -> name (form w) <> ""%string ->
  isAspOpen TZ (now e) = true -> fails e CadetsUpsert = false ->
  cadets (db (handleSignIn7 e w))
  = upsertCadet (signInCadet ilike e (db w) (form w) k) (cadets (db w)).
Proof.
  intros Hmode Hk Hname Hopen Hup.
  rewrite (handleSignIn_remote TZ ilike rpc2 rpc1 e w k) by assumption. cbv zeta.
  set (c := signInCadet ilike e (db w) (form w) k).
  set (w1 := with_db _ w).
  destruct (selectOpenSession e (db w1) (Cadet.id c)) as [[existing|]|].
  - destruct (signedIn_frame ilike rpc2 rpc1 MsgResumed c existing e w1) as (-> & _).
    reflexivity.
  - destruct (match selectRecentSessions e _ _ with Some _ => _ | None => _ end);
      [reflexivity|].
    unfold insertSession. destruct (_ || _); [reflexivity|].
    match goal with |- context [signedIn ilike rpc2 rpc1 ?m ?c0 ?s e ?x] =>
      destruct (signedIn_frame ilike rpc2 rpc1 m c0 s e x) as (-> & _) end.
    reflexivity.
  - destruct (match selectRecentSessions e _ _ with Some _ => _ | None => _ end);
      [reflexivity|].
    unfold insertSession. destruct (_ || _); [reflexivity|].
    match goal with |- context [signedIn ilike rpc2 rpc1 ?m ?c0 ?s e ?x] =>
      destruct (signedIn_frame ilike rpc2 rpc1 m c0 s e x) as (-> & _) end.
    reflexivity.
Qed.

(** X24. A returning cadet keeps their identity: when exactly one stored
    cadet has the normalized name, the class and the company typed in,
    sign-in reuses that cadet's id, so the cadet table keeps its ids and
    gains no row, and the row of that id holds the cadet as typed.  Without
    Supabase every sign-in makes a new identity. *)
Theorem handleSignIn_reuses_identity e w k c0 :
  hasSupabase e = true -> klass (form w) = Some k -> name (form w) <> ""%string ->
  isAspOpen TZ (now e) = true ->
  fails e CadetsSelectExact = false -> fails e CadetsUpsert = false ->
  filter (fun c => Cadet.name c = normalizeName (name (form w))
                   /\ Cadet.klass c = k /\ Cadet.company c = company (form w))
         (cadets (db w)) = [c0] ->
  Cadet.id c0 <> ""%string ->
  let w' := handleSignIn7 e w in
  signInCadet ilike e (db w) (form w) k = c0
  /\ Cadet.id <$> cadets (db w') = Cadet.id <$> cadets (db w)
  /\ c0 ∈ cadets (db w')
  /\ (forall e' d f, hasSupabase e' = false ->
        Cadet.id (signInCadet ilike e' d f k) = uuidCadet e').
Proof.
  intros Hmode Hk Hname Hopen Hsel Hup Hone Hid. cbv zeta.
  assert (Hin0 : c0 ∈ cadets (db w)).
  { assert (H : c0 ∈ [c0]) by apply list_elem_of_here.
    rewrite <- Hone in H. apply list_elem_of_filter in H as [_ H]. exact H. }
  assert (Hc0 : Cadet.name c0 = normalizeName (name (form w))
                /\ Cadet.klass c0 = k /\ Cadet.company c0 = company (form w)).
  { assert (H : c0 ∈ [c0]) by apply list_elem_of_here.
    rewrite <- Hone in H. apply list_elem_of_filter in H as [H _]. exact H. }
  assert (Hc : signInCadet ilike e (db w) (form w) k = c0).
  { unfold signInCadet, resolveCadetId. rewrite Hmode, Hsel, Hone. cbn [maybeSingle].
    apply String.eqb_neq in Hid. rewrite Hid.
    destruct c0 as [i n kl co]. destruct Hc0 as (Hn & Hkl & Hco). simpl in *. congruence. }
  split; [exact Hc|].
  rewrite (handleSignIn_cadets e w k) by assumption. rewrite Hc.
  split; [|split].
  - rewrite upsertCadet_ids.
    replace (existsb _ (cadets (db w))) with true; [reflexivity|].
    symmetry. apply existsb_exists. exists c0. split; [apply list_elem_of_In, Hin0|].
    apply String.eqb_refl.
  - apply upsertCadet_elem.
  - intros e' d f Hlocal. unfold signInCadet. rewrite Hlocal. reflexivity.
Qed.

(** X25. The plain sign-in: with the form filled in, the program open,
    the store answering, no session of the cadet open, under two hours
    tonight and a fresh session id, sign-in appends one open session that
    begins at [now], makes it the active session in the state and in the
    cache, and keeps the cadet as the current one. *)
Theorem handleSignIn_signs_in e w k :
  hasSupabase e = true -> klass (form w) = Some k -> name (form w) <> ""%string ->
  isAspOpen TZ (now e) = true ->
  fails e CadetsUpsert = false -> fails e SessionsInsert = false ->
  let c := signInCadet ilike e (db w) (form w) k in
  openSessionsOf (Cadet.id c) (sessions (db w)) = [] ->
  minutesTonightET TZ (default [] (selectRecentSessions e (db w) (Cadet.id c))) (now e)
    < TWO_HOURS_MIN ->
  (forall s, s ∈ sessions (db w) -> Session.id s <> uuidSession e) ->
  let s := {| Session.id := uuidSession e; Session.cadet_id := Cadet.id c;
              Session.sign_in := now e; Session.sign_out := None;
              Session.voided := false |} in
  let w' := handleSignIn7 e w in
  statusMsg (ui w') = Some MsgSignedIn
  /\ sessions (db w') = sessions (db w) ++ [s]
  /\ activeSession (ui w') = Some s
  /\ asp_active_session (ls w') = Some s
  /\ cadet (ui w') = Some c
  /\ asp_current_cadet (ls w') = Some c
  /\ c ∈ cadets (db w').
Proof.
  intros Hmode Hk Hname Hopen Hup Hins c Hnone Hcap Hfresh s w'.
  assert (Hcad : c ∈ cadets (db w')).
  { subst w'. rewrite (handleSignIn_cadets e w k) by assumption. apply upsertCadet_elem. }
  subst w'. rewrite (handleSignIn_remote TZ ilike rpc2 rpc1 e w k) in * by assumption.
  cbv zeta in *. fold c in Hcad |- *. fold s in Hcad |- *.
  set (w1 := with_db _ w) in *.
  assert (Hcapped :
    match selectRecentSessions e (db w1) (Cadet.id c) with
    | Some recent => TWO_HOURS_MIN <=? minutesTonightET TZ recent (now e)
    | None => false
    end = false).
  { change (selectRecentSessions e (db w1) (Cadet.id c))
      with (selectRecentSessions e (db w) (Cadet.id c)).
    destruct (selectRecentSessions e (db w) (Cadet.id c)) as [recent|]; [|reflexivity].
    apply Z.leb_gt. exact Hcap. }
  assert (Hinsert : insertSession e (db w1) s
                    = Some (with_sessions (sessions (db w) ++ [s]) (db w1), s)).
  { unfold insertSession. rewrite Hins.
    replace (existsb _ (sessions (db w1))) with false; [reflexivity|].
    symmetry. apply not_true_is_false. intros Hex.
    apply existsb_exists in Hex as (x & Hx & Hid). apply String.eqb_eq in Hid.
    apply (Hfresh x); [apply list_elem_of_In, Hx|exact Hid]. }
  rewrite Hcapped, Hinsert in *.
  set (w2 := with_db _ w1) in *.
  destruct (signedIn_frame ilike rpc2 rpc1 MsgSignedIn c s e w2) as (Hd & _ & Hls & Hm & Ha).
  destruct (signedIn_cache ilike rpc2 rpc1 MsgSignedIn c s e w2) as (Hc & Hlc & _).
  destruct (selectOpenSession_none e (db w1) (Cadet.id c) Hnone) as [Hq|Hq];
    rewrite Hq in *; rewrite Hd in Hcad |- *; rewrite Hls, Hm, Ha, Hc, Hlc;
    repeat split; exact Hcad.
Qed.

End SignInPaths.

(** ** Name normalization *)

Lemma skipSpaces_step s :
  skipSpaces s = match skipSpace s with Some r => skipSpaces r | None => s end.
Proof.
  destruct s as [|a [|b [|c r]]]; simpl; try reflexivity;
    repeat match goal with |- context [if ?b then _ else _] => destruct b; simpl end;
    reflexivity.
Qed.

Lemma collapseSpaces_step p s :
  collapseSpaces p s
  = match skipSpace s with
    | Some r => spaceOnce p (collapseSpaces true r)
    | None => match s with
              | EmptyString => EmptyString
              | String a r => String a (collapseSpaces false r)
              end
    end.
Proof.
  destruct s as [|a [|b [|c r]]]; simpl; try reflexivity;
    repeat match goal with |- context [if ?b then _ else _] => destruct b; simpl end;
    reflexivity.
Qed.

Lemma skipSpace_length s r : skipSpace s = Some r -> (String.length r < String.length s)%nat.
Proof.
  destruct s as [|a [|b [|c r']]]; simpl; try discriminate;
    repeat match goal with |- context [if ?b then _ else _] => destruct b; simpl end;
    intros [= <-]; simpl; lia.
Qed.

Lemma skipSpace_space r : skipSpace (String " " r) = Some r.
Proof. reflexivity. Qed.

(** The byte tests are the UTF-8 forms of the white space code points. *)
Lemma skipSpace_utf8 cp r : cp ∈ whiteSpace -> skipSpace (utf8 cp +:+ r) = Some r.
Proof.
  unfold whiteSpace. intros H.
  repeat (apply elem_of_cons in H as [->|H]; [reflexivity|]).
  apply elem_of_nil in H. destruct H.
Qed.

Lemma ascii_of_nat_of_ascii a n : nat_of_ascii a = n -> a = ascii_of_nat n.
Proof. intros <-. symmetry. apply ascii_nat_embedding. Qed.

Lemma isSpace_utf8 a : isSpace a = true -> exists cp, cp ∈ whiteSpace /\ String a "" = utf8 cp.
Proof.
  intros H. exists (Z.of_nat (nat_of_ascii a)).
  destruct a as [[] [] [] [] [] [] [] []]; try discriminate H;
    (split; [apply (bool_decide_unpack _); vm_compute; exact I|reflexivity]).
Qed.

Lemma isSpace2_utf8 a b :
  isSpace2 a b = true ->
  exists cp, cp ∈ whiteSpace /\ String a (String b "") = utf8 cp.
Proof.
  unfold isSpace2. rewrite andb_true_iff, !Nat.eqb_eq. intros [Ha Hb].
  apply ascii_of_nat_of_ascii in Ha, Hb. subst.
  exists 0xA0. split; [apply (bool_decide_unpack _); vm_compute; exact I|reflexivity].
Qed.

Lemma isSpace3_utf8 a b c :
  isSpace3 a b c = true ->
  exists cp, cp ∈ whiteSpace /\ String a (String b (String c "")) = utf8 cp.
Proof.
  unfold isSpace3. cbv zeta.
  rewrite !orb_true_iff, !andb_true_iff, !orb_true_iff, !andb_true_iff, !Nat.eqb_eq,
    !Nat.leb_le.
  intros H.
  assert (Hc : exists n, nat_of_ascii c = n /\ (n < 256)%nat)
    by (exists (nat_of_ascii c); split; [reflexivity|apply nat_ascii_bounded]).
  destruct Hc as (n & Hn & Hlt).
  assert (Hcp : exists cp, cp ∈ whiteSpace
                  /\ (nat_of_ascii a, nat_of_ascii b, n)
                     = (nat_of_ascii (byte (0xE0 + cp / 0x1000)),
                        nat_of_ascii (byte (0x80 + cp / 0x40 mod 0x40)),
                        nat_of_ascii (byte (0x80 + cp mod 0x40)))
                  /\ 0x800 <= cp < 0x10000).
  { rewrite Hn in H.
    assert (Hk : forall k, (k <= 10)%nat -> n = (128 + k)%nat ->
                 exists cp, cp ∈ whiteSpace
                   /\ (226%nat, 128%nat, n)
                      = (nat_of_ascii (byte (0xE0 + cp / 0x1000)),
                         nat_of_ascii (byte (0x80 + cp / 0x40 mod 0x40)),
                         nat_of_ascii (byte (0x80 + cp mod 0x40)))
                   /\ 0x800 <= cp < 0x10000).
    { intros k Hk ->. exists (0x2000 + Z.of_nat k).
      do 11 (destruct k as [|k]; [repeat split; try reflexivity;
                                  [apply (bool_decide_unpack _); vm_compute; exact I|lia]|]).
      lia. }
    repeat match goal with
           | H : _ \/ _ |- _ => destruct H
           | H : _ /\ _ |- _ => destruct H
           end;
    repeat match goal with
           | E : nat_of_ascii a = _ |- _ => rewrite E; clear E
           | E : nat_of_ascii b = _ |- _ => rewrite E; clear E
           end;
    try (apply (Hk (n - 128)%nat); lia);
    subst n;
    first [ exists 0x1680; repeat split; try reflexivity; [apply (bool_decide_unpack _); vm_compute; exact I|lia]
          | exists 0x2028; repeat split; try reflexivity; [apply (bool_decide_unpack _); vm_compute; exact I|lia]
          | exists 0x2029; repeat split; try reflexivity; [apply (bool_decide_unpack _); vm_compute; exact I|lia]
          | exists 0x202F; repeat split; try reflexivity; [apply (bool_decide_unpack _); vm_compute; exact I|lia]
          | exists 0x205F; repeat split; try reflexivity; [apply (bool_decide_unpack _); vm_compute; exact I|lia]
          | exists 0x3000; repeat split; try reflexivity; [apply (bool_decide_unpack _); vm_compute; exact I|lia]
          | exists 0xFEFF; repeat split; try reflexivity; [apply (bool_decide_unpack _); vm_compute; exact I|lia] ]. }
  destruct Hcp as (cp & Hin & Heq & Hrange). exists cp. split; [exact Hin|].
  injection Heq as Ha Hb Hc'. rewrite <- Hn in Hc'.
  apply (f_equal ascii_of_nat) in Ha, Hb, Hc'. rewrite !ascii_nat_embedding in Ha, Hb, Hc'.
  unfold utf8.
  replace (cp <? 0x80) with false by (symmetry; apply Z.ltb_ge; lia).
  replace (cp <? 0x800) with false by (symmetry; apply Z.ltb_ge; lia).
  replace (cp <? 0x10000) with true by (symmetry; apply Z.ltb_lt; lia).
  congruence.
Qed.

Lemma skipSpace_spec s r :
  skipSpace s = Some r -> exists cp, cp ∈ whiteSpace /\ s = (utf8 cp +:+ r)%string.
Proof.
  destruct s as [|a r1]; [discriminate|]. simpl.
  destruct (isSpace a) eqn:E1.
  { intros [= <-]. destruct (isSpace_utf8 a E1) as (cp & Hin & Heq).
    exists cp. split; [exact Hin|]. rewrite <- Heq. reflexivity. }
  destruct (negb (isLead a)); [discriminate|].
  destruct r1 as [|b r2]; [discriminate|].
  destruct (isSpace2 a b) eqn:E2.
  { intros [= <-]. destruct (isSpace2_utf8 a b E2) as (cp & Hin & Heq).
    exists cp. split; [exact Hin|]. rewrite <- Heq. reflexivity. }
  destruct r2 as [|c r3]; [discriminate|].
  destruct (isSpace3 a b c) eqn:E3; [|discriminate].
  intros [= <-]. destruct (isSpace3_utf8 a b c E3) as (cp & Hin & Heq).
  exists cp. split; [exact Hin|]. rewrite <- Heq. reflexivity.
Qed.

Lemma string_length_ind (P : string -> Prop) :
  (forall s, (forall r, (String.length r < String.length s)%nat -> P r) -> P s) ->
  forall s, P s.
Proof.
  intros H s. remember (String.length s) as n eqn:Hn.
  revert s Hn. induction n as [n IH] using lt_wf_ind. intros s ->.
  apply H. intros r Hr. apply (IH _ Hr). reflexivity.
Qed.

Lemma isSpace2_space a : isSpace2 a " " = false.
Proof. unfold isSpace2. apply andb_false_r. Qed.

Lemma isSpace3_high a b c :
  isSpace3 a b c = true -> (128 <= nat_of_ascii b)%nat /\ (128 <= nat_of_ascii c)%nat.
Proof.
  unfold isSpace3. cbv zeta.
  rewrite !orb_true_iff, !andb_true_iff, !orb_true_iff, !andb_true_iff, !Nat.eqb_eq,
    !Nat.leb_le.
  lia.
Qed.

Lemma isSpace3_space2 a c : isSpace3 a " " c = false.
Proof.
  destruct (isSpace3 a " " c) eqn:E; [|reflexivity].
  apply isSpace3_high in E as [E _]. change (nat_of_ascii " ") with 32%nat in E. lia.
Qed.

Lemma isSpace3_space3 a b : isSpace3 a b " " = false.
Proof.
  destruct (isSpace3 a b " ") eqn:E; [|reflexivity].
  apply isSpace3_high in E as [_ E]. change (nat_of_ascii " ") with 32%nat in E. lia.
Qed.

(** Whether a string begins with white space shows on its first three
    bytes, and a string that does not keeps that when it is cut short. *)
Lemma skipSpace_prefix x y : skipSpace (x +:+ y) = None -> skipSpace x = None.
Proof.
  destruct x as [|a [|b [|c x]]]; simpl; [reflexivity|..].
  - destruct (isSpace a); [discriminate|]. destruct (negb (isLead a)); reflexivity.
  - destruct (isSpace a); [discriminate|]. destruct (negb (isLead a)); [reflexivity|].
    destruct (isSpace2 a b); [discriminate|]. reflexivity.
  - destruct (isSpace a); [discriminate|]. destruct (negb (isLead a)); [reflexivity|].
    destruct (isSpace2 a b); [discriminate|]. destruct (isSpace3 a b c); [discriminate|].
    reflexivity.
Qed.

Lemma skipSpace_none_space a r : skipSpace (String a r) = None -> a <> " "%char.
Proof. intros H ->. discriminate H. Qed.

(** A byte that begins no white space character begins none after the
    rest of the string was collapsed. *)
Lemma skipSpace_collapseSpaces a r :
  skipSpace (String a r) = None ->
  skipSpace (String a (collapseSpaces false r)) = None.
Proof.
  intros H. simpl in H |- *.
  destruct (isSpace a); [discriminate|]. destruct (negb (isLead a)); [reflexivity|].
  destruct r as [|b r2]; [reflexivity|].
  rewrite (collapseSpaces_step false (String b r2)).
  destruct (skipSpace (String b r2)) as [r'|] eqn:Eb.
  { simpl. rewrite isSpace2_space.
    destruct (collapseSpaces true r'); [reflexivity|]. rewrite isSpace3_space2. reflexivity. }
  destruct (isSpace2 a b); [discriminate|].
  destruct r2 as [|c r3]; [reflexivity|].
  rewrite (collapseSpaces_step false (String c r3)).
  destruct (skipSpace (String c r3)) as [r'|] eqn:Ec.
  { simpl. rewrite isSpace3_space3. reflexivity. }
  destruct (isSpace3 a b c); [discriminate|]. reflexivity.
Qed.

Lemma skipSpaces_fixed s : skipSpace s = None -> skipSpaces s = s.
Proof. intros H. rewrite skipSpaces_step, H. reflexivity. Qed.

Lemma skipSpaces_head s : skipSpace (skipSpaces s) = None.
Proof.
  induction s as [s IH] using string_length_ind.
  rewrite skipSpaces_step. destruct (skipSpace s) as [r|] eqn:E; [|exact E].
  apply IH, skipSpace_length, E.
Qed.

Lemma collapseSpaces_head s :
  skipSpace s = None -> skipSpace (collapseSpaces false s) = None.
Proof.
  intros H. rewrite collapseSpaces_step, H.
  destruct s as [|a r]; [reflexivity|]. apply skipSpace_collapseSpaces, H.
Qed.

Lemma collapseSpaces_idem p s :
  collapseSpaces p (collapseSpaces p s) = collapseSpaces p s.
Proof.
  revert p. induction s as [s IH] using string_length_ind. intros p.
  rewrite (collapseSpaces_step p s).
  destruct (skipSpace s) as [r|] eqn:E.
  - apply skipSpace_length in E. destruct p; simpl spaceOnce.
    + apply IH, E.
    + rewrite collapseSpaces_step, skipSpace_space. simpl spaceOnce. rewrite IH by exact E.
      reflexivity.
  - destruct s as [|a r]; [reflexivity|].
    rewrite collapseSpaces_step, (skipSpace_collapseSpaces a r E).
    rewrite IH by (simpl; lia). reflexivity.
Qed.

(** *** Strings as sequences *)

Lemma append_nil_r s : (s +:+ "")%string = s.
Proof.
  induction s as [|a s IH]; [reflexivity|].
  change (String a (s +:+ "") = String a s). rewrite IH. reflexivity.
Qed.

Lemma append_assoc s1 s2 s3 : ((s1 +:+ s2) +:+ s3)%string = (s1 +:+ (s2 +:+ s3))%string.
Proof.
  induction s1 as [|a s IH]; [reflexivity|].
  change (String a ((s +:+ s2) +:+ s3) = String a (s +:+ (s2 +:+ s3))). rewrite IH.
  reflexivity.
Qed.

Lemma utf8_nonempty cp : utf8 cp <> ""%string.
Proof. unfold utf8. repeat destruct (_ <? _); discriminate. Qed.

Lemma utf8_space cp r :
  cp ∈ whiteSpace -> (exists t, (utf8 cp +:+ r)%string = String " " t) -> cp = 0x20.
Proof.
  unfold whiteSpace. intros H [t Ht].
  repeat (apply elem_of_cons in H as [->|H]; [try reflexivity; discriminate Ht|]).
  apply elem_of_nil in H. destruct H.
Qed.

(** *** The end of a string *)

Lemma isWhiteSpace_spec t :
  isWhiteSpace t = true <-> exists cp, cp ∈ whiteSpace /\ t = utf8 cp.
Proof.
  unfold isWhiteSpace. split.
  - destruct (skipSpace t) as [[|]|] eqn:E; try discriminate. intros _.
    apply skipSpace_spec in E as (cp & Hin & ->). exists cp. rewrite append_nil_r. auto.
  - intros (cp & Hin & ->). rewrite <- (append_nil_r (utf8 cp)).
    rewrite skipSpace_utf8 by exact Hin. reflexivity.
Qed.

Lemma trimEnd_cons a r :
  trimEnd (String a r)
  = if isWhiteSpace (String a (trimEnd r)) then ""%string else String a (trimEnd r).
Proof. reflexivity. Qed.

Lemma length_trimEnd s : (String.length (trimEnd s) <= String.length s)%nat.
Proof.
  induction s as [|a r IH]; [reflexivity|]. rewrite trimEnd_cons.
  destruct (isWhiteSpace _); simpl; lia.
Qed.

Lemma trimEnd_idem s : trimEnd (trimEnd s) = trimEnd s.
Proof.
  induction s as [|a r IH]; [reflexivity|]. rewrite trimEnd_cons.
  destruct (isWhiteSpace (String a (trimEnd r))) eqn:E; [reflexivity|].
  rewrite trimEnd_cons, IH, E. reflexivity.
Qed.

Lemma trimEnd_prefix s : exists z, s = (trimEnd s +:+ z)%string.
Proof.
  induction s as [|a r [z IH]]; [exists ""%string; reflexivity|]. rewrite trimEnd_cons.
  destruct (isWhiteSpace _).
  - exists (String a r). reflexivity.
  - exists z. change (String a r = String a (trimEnd r +:+ z)). rewrite <- IH. reflexivity.
Qed.

Lemma trimEnd_app_white x y : trimEnd y = ""%string -> trimEnd (x +:+ y) = trimEnd x.
Proof.
  intros Hy. induction x as [|a x IH]; [exact Hy|].
  change (String a x +:+ y)%string with (String a (x +:+ y)).
  rewrite !trimEnd_cons, IH. reflexivity.
Qed.

Lemma trimEnd_utf8 cp : cp ∈ whiteSpace -> trimEnd (utf8 cp) = ""%string.
Proof.
  unfold whiteSpace. intros H.
  repeat (apply elem_of_cons in H as [->|H]; [reflexivity|]).
  apply elem_of_nil in H. destruct H.
Qed.

Lemma endsWhite_cons a s : endsWhite s -> endsWhite (String a s).
Proof. intros (pre & cp & Hin & ->). exists (String a pre), cp. auto. Qed.

Lemma endsWhite_app x s : endsWhite s -> endsWhite (x +:+ s).
Proof.
  intros (pre & cp & Hin & ->). exists (x +:+ pre)%string, cp.
  rewrite append_assoc. auto.
Qed.

Lemma trimEnd_fixed s : trimEnd s = s <-> ~ endsWhite s.
Proof.
  split.
  - intros Hfix (pre & cp & Hin & ->).
    rewrite trimEnd_app_white in Hfix by (apply trimEnd_utf8, Hin).
    pose proof (length_trimEnd pre) as Hlen. rewrite Hfix, length_append in Hlen.
    pose proof (utf8_nonempty cp). destruct (utf8 cp); [congruence|simpl in Hlen; lia].
  - induction s as [|a r IH]; [reflexivity|]. intros Hne.
    rewrite trimEnd_cons, IH by (intros H; apply Hne, endsWhite_cons, H).
    destruct (isWhiteSpace (String a r)) eqn:E; [|reflexivity].
    apply isWhiteSpace_spec in E as (cp & Hin & E). exfalso. apply Hne.
    exists ""%string, cp. auto.
Qed.

Lemma trim_head s : skipSpace (trim s) = None.
Proof.
  unfold trim. destruct (trimEnd_prefix (skipSpaces s)) as [z Hz].
  apply (skipSpace_prefix _ z). rewrite <- Hz. apply skipSpaces_head.
Qed.

Lemma trim_end s : ~ endsWhite (trim s).
Proof. apply trimEnd_fixed. unfold trim. apply trimEnd_idem. Qed.

Lemma trim_fixed s : skipSpace s = None -> ~ endsWhite s -> trim s = s.
Proof.
  intros H1 H2. unfold trim. rewrite skipSpaces_fixed by exact H1.
  apply trimEnd_fixed, H2.
Qed.

(** *** Collapsed strings *)

Lemma collapseSpaces_nil_iff p s :
  collapseSpaces p s = ""%string ->
  s = ""%string \/ (p = true /\ skipSpaces s = ""%string).
Proof.
  revert p. induction s as [s IH] using string_length_ind. intros p.
  rewrite collapseSpaces_step, (skipSpaces_step s).
  destruct (skipSpace s) as [r|] eqn:E.
  - destruct p; simpl spaceOnce; [|discriminate]. intros H. right. split; [reflexivity|].
    destruct (IH r (skipSpace_length _ _ E) true H) as [->|[_ Hr]]; [reflexivity|exact Hr].
  - destruct s; [auto|discriminate].
Qed.

Lemma skipSpaces_nil_endsWhite s :
  skipSpaces s = ""%string -> s <> ""%string -> endsWhite s.
Proof.
  induction s as [s IH] using string_length_ind.
  rewrite skipSpaces_step. destruct (skipSpace s) as [r|] eqn:E; [|congruence].
  intros Hr _. pose proof (skipSpace_length _ _ E) as Hlen.
  apply skipSpace_spec in E as (cp & Hin & ->).
  destruct r as [|a r].
  - exists ""%string, cp. rewrite append_nil_r. auto.
  - apply endsWhite_app, IH; [exact Hlen|exact Hr|discriminate].
Qed.

Lemma lastChar_app pre c : lastChar (pre +:+ String c "") = Some c.
Proof.
  induction pre as [|a pre IH]; [reflexivity|].
  change (String a pre +:+ String c "")%string with (String a (pre +:+ String c "")).
  simpl. rewrite IH. destruct pre; reflexivity.
Qed.

(** A collapsed string that ends with a space comes from a string that
    ends with white space. *)
Lemma collapseSpaces_last p s :
  lastChar (collapseSpaces p s) = Some " "%char -> endsWhite s.
Proof.
  revert p. induction s as [s IH] using string_length_ind. intros p.
  rewrite collapseSpaces_step.
  destruct (skipSpace s) as [r|] eqn:E.
  - pose proof (skipSpace_length _ _ E) as Hlen.
    apply skipSpace_spec in E as (cp & Hin & ->).
    destruct (collapseSpaces true r) as [|x y] eqn:Er.
    + intros _. apply collapseSpaces_nil_iff in Er as [->|[_ Er]].
      * exists ""%string, cp. rewrite append_nil_r. auto.
      * destruct r as [|a r].
        -- exists ""%string, cp. rewrite append_nil_r. auto.
        -- apply endsWhite_app, skipSpaces_nil_endsWhite; [exact Er|discriminate].
    + intros H. apply endsWhite_app, (IH r Hlen true). rewrite Er.
      destruct p; exact H.
  - destruct s as [|a r]; [discriminate|].
    destruct (collapseSpaces false r) as [|x y] eqn:Er.
    + intros [= ->]. discriminate E.
    + intros H. apply endsWhite_cons, (IH r ltac:(simpl; lia) false). rewrite Er. exact H.
Qed.

(** The white space characters of a collapsed string are plain spaces. *)
Lemma collapseSpaces_spaces p s pre cp post :
  cp ∈ whiteSpace ->
  collapseSpaces p s = (pre +:+ utf8 cp +:+ post)%string -> cp = 0x20.
Proof.
  intros Hin. revert p pre. induction s as [s IH] using string_length_ind. intros p pre.
  rewrite collapseSpaces_step.
  destruct (skipSpace s) as [r|] eqn:E.
  - pose proof (skipSpace_length _ _ E) as Hlen. destruct p; simpl spaceOnce.
    + apply IH, Hlen.
    + destruct pre as [|a pre].
      * intros H. apply (utf8_space cp post Hin). eexists. symmetry. exact H.
      * intros [= _ H]. apply (IH r Hlen true pre H).
  - destruct s as [|a r].
    + destruct pre; [|discriminate]. pose proof (utf8_nonempty cp).
      destruct (utf8 cp); [congruence|discriminate].
    + destruct pre as [|a' pre].
      * intros H. apply skipSpace_collapseSpaces in E.
        rewrite H in E. change (""%string +:+ ?x)%string with x in E.
        rewrite skipSpace_utf8 in E by exact Hin. discriminate.
      * intros [= _ H]. apply (IH r ltac:(simpl; lia) false pre H).
Qed.

(** No two spaces in a row, and none at the start after white space. *)
Lemma collapseSpaces_single p s :
  (p = true -> forall t, collapseSpaces p s <> String " " t)
  /\ (forall pre post, collapseSpaces p s <> (pre +:+ String " " (String " " post))%string).
Proof.
  revert p. induction s as [s IH] using string_length_ind. intros p.
  rewrite collapseSpaces_step.
  destruct (skipSpace s) as [r|] eqn:E.
  - destruct (IH r (skipSpace_length _ _ E) true) as [H1 H2].
    destruct p; simpl spaceOnce; [split; [intros _|]; auto|].
    split; [discriminate|]. intros [|a pre] post.
    + intros [= H]. apply (H1 eq_refl _ H).
    + intros [= _ H]. apply (H2 _ _ H).
  - destruct s as [|a r].
    + split; [discriminate|]. intros [|a pre] post; discriminate.
    + pose proof (skipSpace_none_space a r E) as Ha.
      destruct (IH r ltac:(simpl; lia) false) as [_ H2].
      split; [intros _ t [= H _]; congruence|].
      intros [|a' pre] post.
      * intros [= H _]. congruence.
      * intros [= _ H]. apply (H2 _ _ H).
Qed.

(** X12. [normalizeName] yields a normal form: normalizing or trimming
    its result again changes nothing, and every white space character in
    it, of all those of ECMAScript, is a plain space that stands strictly
    inside the name and is followed by no white space. *)
Theorem normalizeName_normal_form raw :
  let n := normalizeName raw in
  normalizeName n = n
  /\ trim n = n
  /\ (forall cp pre post,
        cp ∈ whiteSpace -> n = (pre +:+ utf8 cp +:+ post)%string ->
        cp = 0x20 /\ pre <> ""%string /\ post <> ""%string
        /\ forall cp' post', cp' ∈ whiteSpace -> post <> (utf8 cp' +:+ post')%string).
Proof.
  cbv zeta. change (normalizeName raw) with (collapseSpaces false (trim raw)).
  set (n := collapseSpaces false (trim raw)).
  assert (N1 : skipSpace n = None) by apply collapseSpaces_head, trim_head.
  assert (NS : forall cp pre post,
             cp ∈ whiteSpace -> n = (pre +:+ utf8 cp +:+ post)%string -> cp = 0x20)
    by (intros cp pre post Hin; apply collapseSpaces_spaces, Hin).
  assert (N2 : ~ endsWhite n).
  { intros (pre & cp & Hin & Hn).
    assert (cp = 0x20) as -> by (apply (NS cp pre ""%string Hin); rewrite append_nil_r; exact Hn).
    apply (trim_end raw), (collapseSpaces_last false). fold n. rewrite Hn.
    apply lastChar_app. }
  assert (N3 : trim n = n) by (apply trim_fixed; assumption).
  split; [|split; [exact N3|]].
  - unfold normalizeName. rewrite N3. apply collapseSpaces_idem.
  - intros cp pre post Hin Hn. pose proof (NS cp pre post Hin Hn) as ->.
    split; [reflexivity|]. split; [|split].
    + intros ->. rewrite Hn in N1. discriminate N1.
    + intros ->. apply N2. exists pre, 0x20. rewrite append_nil_r in Hn. auto.
    + intros cp' post' Hin' ->. rewrite <- append_assoc in Hn.
      pose proof (NS cp' _ _ Hin' Hn) as ->. rewrite append_assoc in Hn.
      apply (proj2 (collapseSpaces_single false (trim raw)) pre post'). exact Hn.
Qed.

Lemma string_app_inv_head (s t1 t2 : string) : (s +:+ t1 = s +:+ t2)%string -> t1 = t2.
Proof. induction s as [|c s IH]; simpl; [auto|]. intros [= H]. auto. Qed.

Lemma digitPrefix_fixed s :
  digitPrefix s = s <->
  match s with
  | String a r => isDigit a = true /\ digitPrefix r = r
  | EmptyString => True
  end.
Proof.
  destruct s as [|a r]; simpl; [tauto|].
  destruct (isDigit a); split; try discriminate; try tauto.
  - intros [= H]. auto.
  - intros [_ ->]. reflexivity.
  - intros [H _]. discriminate.
Qed.

Lemma digitPrefix_before s c r :
  digitPrefix s = s -> isDigit c = false -> digitPrefix (s +:+ String c r) = s.
Proof.
  intros Hs Hc. induction s as [|a s IH]; simpl.
  - rewrite Hc. reflexivity.
  - apply digitPrefix_fixed in Hs as [Ha Hs]. rewrite Ha, (IH Hs). reflexivity.
Qed.

Lemma parseInt_digit_head a r : isDigit a = true -> parseInt (String a r) = parseDigits (String a r).
Proof.
  destruct a as [[] [] [] [] [] [] [] []]; intros H; try discriminate H; reflexivity.
Qed.

Lemma toString_digits n :
  0 <= n -> digitPrefix (toString n) = toString n /\ toString n <> ""%string.
Proof.
  intros Hn. destruct n as [|p|p]; [split; [reflexivity|discriminate]| |lia].
  pose proof (Unsigned.to_uint_nonnil p) as Hp.
  unfold toString, Z.to_int, NilZero.string_of_int.
  set (u := Pos.to_uint p) in *. clearbody u.
  replace (NilZero.string_of_uint u) with (NilEmpty.string_of_uint u)
    by (destruct u; simpl; congruence).
  split; [apply digitPrefix_string_of_uint|].
  destruct u; try congruence; discriminate.
Qed.

(** [parseInt] stops at the first character that is no digit. *)
Lemma parseInt_toString_before n c r :
  0 <= n -> isDigit c = false ->
  parseInt (toString n +:+ String c r) = Some n.
Proof.
  intros Hn Hc. rewrite <- (parseInt_toString n Hn).
  destruct (toString_digits n Hn) as [Hd Hne].
  pose proof (digitPrefix_before _ c r Hd Hc) as Hpre.
  destruct (toString n) as [|a t] eqn:E; [congruence|].
  apply digitPrefix_fixed in Hd as [Ha Ht].
  change (String a t +:+ String c r)%string with (String a (t +:+ String c r)) in *.
  rewrite !parseInt_digit_head by exact Ha.
  unfold parseDigits. rewrite Hpre.
  replace (digitPrefix (String a t)) with (String a t)
    by (symmetry; apply digitPrefix_fixed; auto).
  reflexivity.
Qed.

Lemma formatHMS_fields n :
  0 <= n < 360000 ->
  0 <= n / 3600 < 100 /\ 0 <= Z.rem n 3600 / 60 < 100 /\ 0 <= Z.rem n 60 < 100
  /\ n = n / 3600 * 3600 + Z.rem n 3600 / 60 * 60 + Z.rem n 60.
Proof.
  intros Hn. rewrite !Z.rem_mod_nonneg by lia. Z.div_mod_to_equations. lia.
Qed.

Lemma length_formatHMS n : 0 <= n < 360000 -> String.length (formatHMS n) = 8%nat.
Proof.
  intros Hn. destruct (formatHMS_fields n Hn) as (Hh & Hm & Hs & _).
  unfold formatHMS. cbv zeta. rewrite !length_append, !length_pad2 by assumption.
  reflexivity.
Qed.

Lemma formatHMS_inj n1 n2 :
  0 <= n1 < 360000 -> 0 <= n2 < 360000 -> formatHMS n1 = formatHMS n2 -> n1 = n2.
Proof.
  intros H1 H2 H.
  destruct (formatHMS_fields n1 H1) as (Hh1 & Hm1 & Hs1 & E1).
  destruct (formatHMS_fields n2 H2) as (Hh2 & Hm2 & Hs2 & E2).
  unfold formatHMS in H. cbv zeta in H.
  apply string_app_inj_tail in H as [Hh H].
  2:{ rewrite !length_append, !length_pad2 by assumption. reflexivity. }
  change (":" +:+ ?s)%string with (String ":" s) in H. injection H as H.
  apply string_app_inj_tail in H as [Hm H].
  2:{ rewrite !length_append, !length_pad2 by assumption. reflexivity. }
  change (":" +:+ ?s)%string with (String ":" s) in H. injection H as H.
  apply pad2_inj in Hh, Hm, H; try assumption. lia.
Qed.

Lemma formatHM_inj n1 n2 : 0 <= n1 -> 0 <= n2 -> formatHM n1 = formatHM n2 -> n1 = n2.
Proof.
  intros H1 H2 H.
  assert (Hh : n1 / 60 = n2 / 60).
  { apply (f_equal parseInt) in H. unfold formatHM in H. cbv zeta in H.
    change ("h " +:+ ?s)%string with (String "h" (String " " s)) in H.
    rewrite !parseInt_toString_before in H
      by (try reflexivity; apply Z.div_pos; lia).
    congruence. }
  unfold formatHM in H. cbv zeta in H. rewrite Hh in H.
  apply string_app_inv_head in H.
  change ("h " +:+ ?s)%string with (String "h" (String " " s)) in H. injection H as H.
  apply string_app_inj_tail in H as [Hm _]; [|reflexivity].
  rewrite !Z.rem_mod_nonneg in Hm by lia.
  apply toString_inj in Hm; [|apply Z.mod_pos_bound; lia..].
  Z.div_mod_to_equations. lia.
Qed.

(** X14. The two duration formats lose nothing: distinct whole minutes
    print differently as "Hh Mm", and [parseInt] reads the hours back;
    below 100 hours, seconds print as the eight characters "HH:MM:SS", and
    distinct seconds print differently. *)
Theorem duration_formats_injective n1 n2 :
  0 <= n1 -> 0 <= n2 ->
  (formatHM n1 = formatHM n2 -> n1 = n2)
  /\ parseInt (formatHM n1) = Some (n1 / 60)
  /\ (n1 < 360000 -> String.length (formatHMS n1) = 8%nat)
  /\ (n1 < 360000 -> n2 < 360000 -> formatHMS n1 = formatHMS n2 -> n1 = n2).
Proof.
  intros H1 H2. split; [apply formatHM_inj; assumption|]. split; [|split].
  - unfold formatHM. cbv zeta.
    change ("h " +:+ ?s)%string with (String "h" (String " " s)).
    apply parseInt_toString_before; [apply Z.div_pos; lia|reflexivity].
  - intros. apply length_formatHMS. lia.
  - intros. apply formatHMS_inj; [lia..|assumption].
Qed.

Lemma currentElapsedSec_range a now : 0 <= currentElapsedSec a now <= 7200.
Proof.
  unfold currentElapsedSec, TWO_HOURS_SEC, TWO_HOURS_MIN.
  destruct a as [s|]; lia.
Qed.

(** X13. The live timer never runs backwards and never leaves the range
    from 00:00:00 to 02:00:00: [currentElapsedSec] lies between 0 and
    7200, grows with the clock, is 0 without an active session or while the
    clock is behind the sign-in, and stays at 7200 from two hours after the
    sign-in on; its display is always eight characters long. *)
Theorem currentElapsedSec_display a now now' :
  0 <= currentElapsedSec a now <= 7200
  /\ (now <= now' -> currentElapsedSec a now <= currentElapsedSec a now')
  /\ String.length (formatHMS (currentElapsedSec a now)) = 8%nat
  /\ formatHMS (currentElapsedSec None now) = "00:00:00"%string
  /\ (forall s, a = Some s -> Session.sign_out s = None ->
        (now <= Session.sign_in s ->
         formatHMS (currentElapsedSec a now) = "00:00:00"%string)
        /\ (Session.sign_in s + 7200000 <= now ->
            formatHMS (currentElapsedSec a now) = "02:00:00"%string)).
Proof.
  pose proof (currentElapsedSec_range a now) as Hr.
  split; [exact Hr|]. split; [|split; [apply length_formatHMS; lia|split; [reflexivity|]]].
  - intros Hle. unfold currentElapsedSec, TWO_HOURS_SEC, TWO_HOURS_MIN.
    destruct a as [s|]; [|lia]. destruct (Session.sign_out s); simpl; [lia|].
    assert ((now - Session.sign_in s) / 1000 <= (now' - Session.sign_in s) / 1000)
      by (apply Z.div_le_mono; lia).
    lia.
  - intros s -> Hopen. unfold currentElapsedSec, TWO_HOURS_SEC, TWO_HOURS_MIN.
    rewrite Hopen. simpl default. split; intros H.
    + replace (Z.min _ _) with 0; [reflexivity|].
      assert ((now - Session.sign_in s) / 1000 <= 0)
        by (apply Z.div_le_upper_bound; lia).
      lia.
    + replace (Z.min _ _) with 7200; [reflexivity|].
      assert (7200 <= (now - Session.sign_in s) / 1000)
        by (apply Z.div_le_lower_bound; lia).
      lia.
Qed.

(** ** Ranking *)

Lemma insertDesc_sorted {A} (key : A -> Z) x l :
  StronglySorted (fun a b => key b <= key a) l ->
  StronglySorted (fun a b => key b <= key a) (insertDesc key x l).
Proof.
  induction 1 as [|y l Hl IH Hy]; simpl.
  - repeat constructor.
  - destruct (key y <=? key x) eqn:E.
    + apply Z.leb_le in E. constructor; [constructor; assumption|].
      constructor; [exact E|]. eapply Forall_impl; [exact Hy|]. simpl. intros; lia.
    + apply Z.leb_gt in E. constructor; [exact IH|].
      rewrite (insertDesc_Permutation key x l). constructor; [lia|exact Hy].
Qed.

Lemma sortDesc_sorted {A} (key : A -> Z) l :
  StronglySorted (fun a b => key b <= key a) (sortDesc key l).
Proof.
  unfold sortDesc. induction l as [|x l IH]; simpl; [constructor|].
  apply insertDesc_sorted, IH.
Qed.

(** Rows with the same key keep their order. *)
Lemma insertDesc_stable {A} (key : A -> Z) v x l :
  filter (fun a => key a = v) (insertDesc key x l) = filter (fun a => key a = v) (x :: l).
Proof.
  induction l as [|y l IH]; simpl; [reflexivity|].
  destruct (key y <=? key x) eqn:E; [reflexivity|]. apply Z.leb_gt in E.
  rewrite (filter_cons _ y), IH, !filter_cons.
  destruct (decide (key y = v)) as [Hy|Hy], (decide (key x = v)) as [Hx|Hx];
    try reflexivity.
  exfalso. rewrite <- Hx in Hy. rewrite Hy in E. apply (Z.lt_irrefl _ E).
Qed.

Lemma sortDesc_stable {A} (key : A -> Z) v l :
  filter (fun a => key a = v) (sortDesc key l) = filter (fun a => key a = v) l.
Proof.
  unfold sortDesc. induction l as [|x l IH]; simpl; [reflexivity|].
  rewrite insertDesc_stable, !filter_cons, IH. reflexivity.
Qed.

(** X15. Each tab of the leaderboard ranks the rows of its class, and
    the tab "all" every row, by displayed total: the totals never increase
    down the table, rows with equal totals keep the order of the loaded
    leaderboard, no row is lost or repeated, and an empty leaderboard gives
    an empty table. *)
Theorem shownRows_ranked tab lb om :
  StronglySorted (fun a b => Shown.total b <= Shown.total a) (shownRows tab lb om)
  /\ Shown.row <$> shownRows tab lb om
     ≡ₚ filter (fun r => tab = None \/ tab = Some (LeaderboardRow.klass r)) lb
  /\ (forall v, Shown.row <$> filter (fun x => Shown.total x = v) (shownRows tab lb om)
                = filter (fun r => default (LeaderboardRow.totalMin r)
                                     (match LeaderboardRow.cadetId r with
                                      | Some cid => if String.eqb cid "" then None else om !! cid
                                      | None => None
                                      end) = v)
                    (filter (fun r => tab = None \/ tab = Some (LeaderboardRow.klass r)) lb))
  /\ length (shownRows None lb om) = length lb
  /\ shownRows tab [] om = [].
Proof.
  unfold shownRows. split; [apply sortDesc_sorted|]. split; [|split; [|split]].
  - rewrite sortDesc_Permutation, <- list_fmap_compose.
    generalize (filter (fun r => tab = None \/ tab = Some (LeaderboardRow.klass r)) lb).
    intros l. induction l as [|r l IH]; [reflexivity|].
    rewrite fmap_cons, IH. reflexivity.
  - intros v. rewrite sortDesc_stable.
    generalize (filter (fun r => tab = None \/ tab = Some (LeaderboardRow.klass r)) lb).
    intros l. induction l as [|r l IH]; [reflexivity|].
    rewrite fmap_cons, !filter_cons. cbn [Shown.total].
    case_decide; [rewrite fmap_cons; cbn [Shown.row]|]; rewrite IH; reflexivity.
  - rewrite (Permutation_length (sortDesc_Permutation _ _)), length_fmap.
    f_equal. induction lb as [|r l IH]; [reflexivity|].
    rewrite filter_cons, decide_True by auto. f_equal. exact IH.
  - reflexivity.
Qed.

Lemma length_setOf seen ids : (length (setOf seen ids) <= length ids)%nat.
Proof.
  revert seen. induction ids as [|i r IH]; intros seen; simpl; [lia|].
  case_bool_decide; simpl; [specialize (IH seen)|specialize (IH (i :: seen))]; lia.
Qed.

Lemma length_omap_le {A B} (f : A -> option B) l : (length (omap f l) <= length l)%nat.
Proof. induction l as [|a l IH]; csimpl; [lia|]. destruct (f a); csimpl; lia. Qed.

(** X16. The local leaderboard is ranked, totals never increasing down
    the list, and complete: every cadet who owns a stored session and whose
    identity is cached has a row, with the raw minutes of all their
    sessions; sessions whose cadet is not cached count for nobody, and an
    empty history gives an empty leaderboard. *)
Theorem localLeaderboard_ranked now (l : LocalStorage) :
  StronglySorted (fun a b => LeaderboardRow.totalMin b <= LeaderboardRow.totalMin a)
    (localLeaderboard now l)
  /\ (forall s c, s ∈ asp_sessions l ->
        asp_current_cadet_ l !! Session.cadet_id s = Some c ->
        exists r, r ∈ localLeaderboard now l
                  /\ LeaderboardRow.name r = Cadet.name c
                  /\ LeaderboardRow.klass r = Cadet.klass c
                  /\ LeaderboardRow.totalMin r
                     = localTotal now (asp_sessions l) (Session.cadet_id s))
  /\ ((forall s, s ∈ asp_sessions l -> asp_current_cadet_ l !! Session.cadet_id s = None) ->
      localLeaderboard now l = [])
  /\ (length (localLeaderboard now l) <= length (asp_sessions l))%nat
  /\ (forall r, r ∈ localLeaderboard now l -> 0 <= LeaderboardRow.totalMin r).
Proof.
  unfold localLeaderboard. split; [apply sortDesc_sorted|]. split; [|split; [|split]].
  - intros s c Hs Hc. eexists. split.
    + rewrite sortDesc_Permutation. apply list_elem_of_omap.
      exists (Session.cadet_id s). split.
      * apply elem_of_setOf. split; [|apply not_elem_of_nil].
        apply list_elem_of_In, in_map, list_elem_of_In, Hs.
      * rewrite Hc. reflexivity.
    + repeat split.
  - intros Hnone.
    enough (E : omap (fun id =>
                        c ← asp_current_cadet_ l !! id;
                        Some {| LeaderboardRow.cadetId := None;
                                LeaderboardRow.name := Cadet.name c;
                                LeaderboardRow.klass := Cadet.klass c;
                                LeaderboardRow.company := Cadet.company c;
                                LeaderboardRow.totalMin := localTotal now (asp_sessions l) id |})
                     (setOf [] (map Session.cadet_id (asp_sessions l))) = [])
      by (rewrite E; reflexivity).
    apply elem_of_nil_inv. intros r Hr. apply list_elem_of_omap in Hr as (id & Hid & Hr).
    apply elem_of_setOf in Hid as [Hid _].
    apply list_elem_of_In, in_map_iff in Hid as (s & <- & Hs).
    rewrite (Hnone s) in Hr by (apply list_elem_of_In, Hs). discriminate.
  - rewrite (Permutation_length (sortDesc_Permutation _ _)).
    etransitivity; [apply length_omap_le|].
    replace (length (asp_sessions l)) with (length (map Session.cadet_id (asp_sessions l)))
      by apply length_map.
    apply length_setOf.
  - intros r Hr. rewrite sortDesc_Permutation in Hr.
    apply list_elem_of_omap in Hr as (id & _ & Hr).
    destruct (asp_current_cadet_ l !! id); [|discriminate]. injection Hr as <-. simpl.
    rewrite localTotal_sum. apply sumZ_nonneg, Forall_fmap, Forall_forall.
    intros s _. unfold rawMinutes. simpl. lia.
Qed.

Lemma applyEdits_fields updates l :
  Session.id <$> applyEdits updates l = Session.id <$> l
  /\ Session.cadet_id <$> applyEdits updates l = Session.cadet_id <$> l
  /\ Session.voided <$> applyEdits updates l = Session.voided <$> l.
Proof.
  unfold applyEdits. revert l. induction updates as [|u us IH]; intros l; [auto|].
  cbn [foldl]. destruct (IH (updateById (with_times u.1.2 u.2) u.1.1 l)) as (-> & -> & ->).
  unfold updateById. rewrite <- !list_fmap_compose.
  repeat split; apply list_fmap_ext; intros _ s _; simpl;
    destruct (String.eqb (Session.id s) u.1.1); reflexivity.
Qed.

Lemma applyEdits_other updates l s :
  s ∈ l -> Session.id s ∉ (fun u : string * Z * option Z => u.1.1) <$> updates ->
  s ∈ applyEdits updates l.
Proof.
  unfold applyEdits. revert l. induction updates as [|u us IH]; intros l Hin Hno; [exact Hin|].
  cbn [foldl]. rewrite fmap_cons in Hno. apply not_elem_of_cons in Hno as [Hne Hno].
  apply IH; [|exact Hno]. apply updateById_other; assumption.
Qed.

Lemma draftUpdate_id device entry u : draftUpdate device entry = Some u -> u.1.1 = entry.1.
Proof.
  unfold draftUpdate. destruct (localInputToIso device (draft_sign_in entry.2)); [|discriminate].
  simpl. destruct (String.eqb _ _); [intros [= <-]; reflexivity|].
  destruct (localInputToIso device (draft_sign_out entry.2)); [|discriminate].
  simpl. intros [= <-]. reflexivity.
Qed.

Lemma mapM_draftUpdate_ids device drafts updates :
  mapM (draftUpdate device) drafts = Some updates ->
  (fun u : string * Z * option Z => u.1.1) <$> updates = fst <$> drafts.
Proof.
  intros H. apply mapM_Some_1 in H. induction H as [|d u ds us Hd _ IH]; [reflexivity|].
  rewrite !fmap_cons, IH, (draftUpdate_id _ _ _ Hd). reflexivity.
Qed.

Section Edits.

Variable device : Zone.
Variable ilike : string -> string -> bool.
Variable rpc2 : Db -> option (list RowDB.v2).
Variable rpc1 : Db -> option (list RowDB.v1).
Variable floorNumber : string -> option Z.

Abbreviation saveEdits4 := (saveEdits device ilike rpc2 rpc1 floorNumber).

(** What [saveEdits] leaves in the session table: the updates of a prefix
    of the drafts. *)
Lemma saveEdits_sessions e w :
  sessions (db (saveEdits4 e w)) = sessions (db w)
  \/ exists drafts rest updates,
       editDraft (editor w) = drafts ++ rest
       /\ mapM (draftUpdate device) drafts = Some updates
       /\ sessions (db (saveEdits4 e w)) = applyEdits updates (sessions (db w)).
Proof.
  unfold saveEdits.
  destruct (editCadet (editor w)) as [ec|]; [|auto].
  destruct (hasSupabase e); [|auto].
  destruct (mapM (draftUpdate device) (editDraft (editor w))) as [updates|] eqn:Hm; [|auto].
  destruct (saveSessionEdits e updates (sessions (db w))) as [l1 ok] eqn:Hs.
  destruct (saveSessionEdits_prefix e updates _ _ _ Hs) as (applied & rest & -> & -> & Hok).
  assert (Hpre : exists drafts rest',
            editDraft (editor w) = drafts ++ rest'
            /\ mapM (draftUpdate device) drafts = Some applied).
  { apply mapM_Some_1 in Hm. apply Forall2_app_inv_r in Hm as (d1 & d2 & H1 & H2 & ->).
    exists d1, d2. split; [reflexivity|]. apply mapM_Some_2, H1. }
  destruct Hpre as (drafts & rest' & Hd & Hmd).
  right. exists drafts, rest', applied. split; [exact Hd|]. split; [exact Hmd|].
  destruct ok.
  - pose proof (saveOverride_frame floorNumber e (Cadet.id ec) (editOverride (editor w))
                  (with_sessions (applyEdits applied (sessions (db w))) (db w))) as (Hso & _).
    destruct (saveOverride floorNumber e (Cadet.id ec) (editOverride (editor w)) _)
      as [db2 [|]]; cbn [fst] in Hso; cbn [db setSavingEdits with_editor].
    + match goal with |- context [fetchLeaderboard ilike rpc2 rpc1 e ?x] =>
        destruct (fetchLeaderboard_frame ilike rpc2 rpc1 e x) as (-> & _) end.
      exact Hso.
    + exact Hso.
  - reflexivity.
Qed.

(** X18. An administrator's save rewrites times only: whatever its
    outcome, [saveEdits] keeps the number of stored sessions, their ids,
    their owners and their voided flags, leaves the cadets alone, and does
    not touch a session that has no draft in the panel. *)
Theorem saveEdits_rewrites_times_only e w :
  let w' := saveEdits device ilike rpc2 rpc1 floorNumber e w in
  Session.id <$> sessions (db w') = Session.id <$> sessions (db w)
  /\ Session.cadet_id <$> sessions (db w') = Session.cadet_id <$> sessions (db w)
  /\ Session.voided <$> sessions (db w') = Session.voided <$> sessions (db w)
  /\ length (sessions (db w')) = length (sessions (db w))
  /\ cadets (db w') = cadets (db w)
  /\ (forall s, s ∈ sessions (db w) -> Session.id s ∉ fst <$> editDraft (editor w) ->
                s ∈ sessions (db w')).
Proof.
  cbv zeta.
  assert (Hc : cadets (db (saveEdits4 e w)) = cadets (db w)).
  { unfold saveEdits.
    destruct (editCadet (editor w)) as [ec|]; [|reflexivity].
    destruct (hasSupabase e); [|reflexivity].
    destruct (mapM _ _) as [updates|]; [|reflexivity].
    destruct (saveSessionEdits e updates _) as [l1 [|]]; [|reflexivity].
    pose proof (saveOverride_frame floorNumber e (Cadet.id ec) (editOverride (editor w))
                  (with_sessions l1 (db w))) as (_ & Hso & _).
    destruct (saveOverride floorNumber e (Cadet.id ec) (editOverride (editor w)) _)
      as [db2 [|]]; cbn [fst] in Hso; cbn [db setSavingEdits with_editor]; [|exact Hso].
    match goal with |- context [fetchLeaderboard ilike rpc2 rpc1 e ?x] =>
      destruct (fetchLeaderboard_frame ilike rpc2 rpc1 e x) as (-> & _) end.
    exact Hso. }
  destruct (saveEdits_sessions e w) as [-> | (drafts & rest & updates & Hd & Hm & ->)].
  - repeat split; auto.
  - destruct (applyEdits_fields updates (sessions (db w))) as (Hi & Ho & Hv).
    split; [exact Hi|]. split; [exact Ho|]. split; [exact Hv|].
    split; [|split; [exact Hc|]].
    + rewrite <- (length_fmap Session.id), Hi, length_fmap. reflexivity.
    + intros s Hin Hno. apply applyEdits_other; [exact Hin|].
      rewrite (mapM_draftUpdate_ids _ _ _ Hm). intros Hd'. apply Hno.
      rewrite Hd, fmap_app. apply elem_of_app. left. exact Hd'.
Qed.

Lemma trim_nonempty text : trim text <> ""%string -> (0 <? String.length (trim text))%nat = true.
Proof. destruct (trim text); [congruence|reflexivity]. Qed.

Lemma saveSessionEdits_all e updates l :
  (forall c, fails e c = false) -> saveSessionEdits e updates l = (applyEdits updates l, true).
Proof.
  intros Hok. revert l. induction updates as [|[[id sin] sout] us IH]; intros l; [reflexivity|].
  simpl. rewrite Hok. apply IH.
Qed.

(** A save that goes through, as one state transformer; [o] is the
    overrides table it leaves. *)
Lemma saveEdits_through e w ec updates :
  hasSupabase e = true -> editCadet (editor w) = Some ec ->
  (forall c, fails e c = false) ->
  mapM (draftUpdate device) (editDraft (editor w)) = Some updates ->
  (trim (editOverride (editor w)) = ""%string
   \/ is_Some (floorNumber (trim (editOverride (editor w))))) ->
  exists o,
    saveEdits4 e w
    = setSavingEdits false
        (fetchLeaderboard ilike rpc2 rpc1 e
           (cancelEdits (setStatusMsg MsgSavedEdits
              (with_db (with_overrides o
                          (with_sessions (applyEdits updates (sessions (db w))) (db w)))
                       (setSavingEdits true w)))))
    /\ (trim (editOverride (editor w)) = ""%string ->
        o = delete (Cadet.id ec) (leaderboard_overrides (db w)))
    /\ (forall n, trim (editOverride (editor w)) <> ""%string ->
          floorNumber (trim (editOverride (editor w))) = Some n ->
          o = <[Cadet.id ec := Z.max 0 n]> (leaderboard_overrides (db w))).
Proof.
  intros Hmode Hec Hok Hm Htext.
  set (text := editOverride (editor w)) in *.
  set (d1 := with_sessions (applyEdits updates (sessions (db w))) (db w)).
  assert (Hso : exists o,
    saveOverride floorNumber e (Cadet.id ec) text d1 = (with_overrides o d1, true)
    /\ (trim text = ""%string -> o = delete (Cadet.id ec) (leaderboard_overrides (db w)))
    /\ (forall n, trim text <> ""%string -> floorNumber (trim text) = Some n ->
          o = <[Cadet.id ec := Z.max 0 n]> (leaderboard_overrides (db w)))).
  { unfold saveOverride. destruct Htext as [Hb|[n Hn]].
    - rewrite Hb. cbn [String.length Nat.ltb Nat.leb]. rewrite (Hok OverridesDelete).
      eexists. split; [reflexivity|]. split; [reflexivity|]. intros n Hne. congruence.
    - destruct (trim text) as [|a t] eqn:Et.
      + cbn [String.length Nat.ltb Nat.leb]. rewrite (Hok OverridesDelete).
        eexists. split; [reflexivity|]. split; [reflexivity|]. intros n' Hne. congruence.
      + cbn [String.length Nat.ltb Nat.leb]. rewrite Hn, (Hok OverridesUpsert).
        eexists. split; [reflexivity|]. split; [discriminate|].
        intros n' _ [= <-]. reflexivity. }
  destruct Hso as (o & Hso & Hblank & Hnum).
  exists o. split; [|split; assumption].
  unfold saveEdits. rewrite Hec, Hmode, Hm, (saveSessionEdits_all e updates _ Hok).
  fold d1. fold text. rewrite Hso. reflexivity.
Qed.

(** X17. A save that goes through stores the override typed in the
    panel, floored and never negative, or removes it when the field is
    blank; it closes the panel and writes the drafted times.  The map that
    the table reads is not refreshed by the save itself: once the overrides
    are loaded again, the row of the cadet shows the stored override. *)
Theorem saveEdits_stores_override e w ec updates :
  hasSupabase e = true -> editCadet (editor w) = Some ec ->
  (forall c, fails e c = false) ->
  mapM (draftUpdate device) (editDraft (editor w)) = Some updates ->
  (trim (editOverride (editor w)) = ""%string
   \/ is_Some (floorNumber (trim (editOverride (editor w))))) ->
  let w' := saveEdits4 e w in
  let w'' := loadOverridesMap e w' in
  statusMsg (ui w') = Some MsgSavedEdits
  /\ sessions (db w') = applyEdits updates (sessions (db w))
  /\ (trim (editOverride (editor w)) = ""%string ->
      leaderboard_overrides (db w') = delete (Cadet.id ec) (leaderboard_overrides (db w)))
  /\ (forall n, trim (editOverride (editor w)) <> ""%string ->
        floorNumber (trim (editOverride (editor w))) = Some n ->
        leaderboard_overrides (db w')
        = <[Cadet.id ec := Z.max 0 n]> (leaderboard_overrides (db w))
        /\ forall tab r, r ∈ leaderboard (ui w'') ->
             LeaderboardRow.cadetId r = Some (Cadet.id ec) -> Cadet.id ec <> ""%string ->
             (tab = None \/ tab = Some (LeaderboardRow.klass r)) ->
             {| Shown.row := r; Shown.total := Z.max 0 n |}
               ∈ shownRows tab (leaderboard (ui w'')) (overridesMap (ui w'')))
  /\ overridesMap (ui w') = overridesMap (ui w)
  /\ overridesMap (ui w'') = leaderboard_overrides (db w')
  /\ editCadet (editor w') = None /\ editDraft (editor w') = []
  /\ savingEdits (editor w') = false.
Proof.
  intros Hmode Hec Hok Hm Htext. cbv zeta.
  destruct (saveEdits_through e w ec updates Hmode Hec Hok Hm Htext)
    as (o & -> & Hblank & Hnum).
  set (w0 := cancelEdits (setStatusMsg MsgSavedEdits
               (with_db (with_overrides o
                           (with_sessions (applyEdits updates (sessions (db w))) (db w)))
                        (setSavingEdits true w)))).
  destruct (fetchLeaderboard_frame ilike rpc2 rpc1 e w0) as (Fd & Fl & Fe & Fs & _).
  assert (Fo : overridesMap (ui (fetchLeaderboard ilike rpc2 rpc1 e w0)) = overridesMap (ui w0)).
  { unfold fetchLeaderboard.
    destruct (hasSupabase e); [destruct (rpc2 (db w0)); [|destruct (rpc1 (db w0))]|];
      reflexivity. }
  unfold loadOverridesMap. cbn [hasSupabase]. rewrite Hmode, (Hok OverridesSelect).
  cbn [andb negb].
  cbn [ui db editor setSavingEdits setOverridesMap with_editor with_ui statusMsg overridesMap
       editCadet editDraft savingEdits leaderboard].
  rewrite Fd, Fs, Fe, Fo.
  assert (Hdb : leaderboard_overrides (db w0) = o) by reflexivity.
  assert (Hss : sessions (db w0) = applyEdits updates (sessions (db w))) by reflexivity.
  assert (Hom : overridesMap (ui w0) = overridesMap (ui w)) by reflexivity.
  rewrite Hdb, Hss, Hom.
  split; [reflexivity|]. split; [reflexivity|].
  split; [intros Hb; rewrite (Hblank Hb); reflexivity|].
  split; [|repeat split].
  intros n Hne Hn. rewrite (Hnum n Hne Hn). split; [reflexivity|].
  intros tab r Hr Hid Hne' Htab. unfold shownRows. rewrite sortDesc_Permutation.
  apply list_elem_of_fmap. exists r. split.
  - rewrite Hid. apply String.eqb_neq in Hne'. rewrite Hne', lookup_insert_eq. reflexivity.
  - apply list_elem_of_filter. split; [exact Htab|exact Hr].
Qed.

End Edits.

(** ** The datetime-local round trip *)

Lemma digitsValue_toString n : 0 <= n -> digitsValue (toString n) = Some n.
Proof.
  intros Hn. destruct n as [|p|p]; [reflexivity| |lia].
  pose proof (Unsigned.to_uint_nonnil p) as Hp.
  pose proof (Unsigned.of_to p) as Hof.
  unfold digitsValue, toString, Z.to_int, NilZero.string_of_int.
  set (u := Pos.to_uint p) in *. clearbody u.
  rewrite (NilZero.usu u Hp). simpl. unfold N.of_uint. rewrite Hof. reflexivity.
Qed.

Lemma digitsValue_pad2 n : 0 <= n < 100 -> digitsValue (pad2 n) = Some n.
Proof.
  intros Hn.
  assert (H : forallb (fun k => bool_decide (digitsValue (pad2 k) = Some k)) (seqZ 0 100) = true)
    by (vm_compute; reflexivity).
  rewrite forallb_forall in H.
  specialize (H n). rewrite bool_decide_eq_true in H. apply H.
  apply list_elem_of_In, elem_of_seqZ. lia.
Qed.

Lemma length_toString_year y : 1000 <= y <= 9999 -> String.length (toString y) = 4%nat.
Proof.
  intros Hy.
  assert (H : forallb (fun k => bool_decide (String.length (toString k) = 4%nat))
                      (seqZ 1000 9000) = true)
    by (vm_compute; reflexivity).
  rewrite forallb_forall in H.
  specialize (H y). rewrite bool_decide_eq_true in H. apply H.
  apply list_elem_of_In, elem_of_seqZ. lia.
Qed.

Lemma string_length_2 s : String.length s = 2%nat -> exists a b, s = String a (String b "").
Proof. destruct s as [|a [|b [|c r]]]; try discriminate. eauto. Qed.

Lemma string_length_4 s :
  String.length s = 4%nat ->
  exists a b c d, s = String a (String b (String c (String d ""))).
Proof. destruct s as [|a [|b [|c [|d [|e r]]]]]; try discriminate. eauto 6. Qed.

(** [localInputToIso] on a value of the shape "YYYY-MM-DDTHH:mm". *)
Lemma localInputToIso_shape device (yy mm dd hh mi : string) :
  String.length yy = 4%nat -> String.length mm = 2%nat -> String.length dd = 2%nat ->
  String.length hh = 2%nat -> String.length mi = 2%nat ->
  localInputToIso device (yy +:+ "-" +:+ mm +:+ "-" +:+ dd +:+ "T" +:+ hh +:+ ":" +:+ mi)
  = (y ← digitsValue yy; mo ← digitsValue mm; d ← digitsValue dd;
     h ← digitsValue hh; mi ← digitsValue mi;
     if bool_decide (civil_from_days (days_from_civil y mo d) = (y, mo, d))
        && (h <=? 23) && (mi <=? 59)
     then Some (UTC device (days_from_civil y mo d * msPerDay
                            + h * msPerHour + mi * msPerMinute))
     else None).
Proof.
  intros Hy Hm Hd Hh Hi.
  destruct (string_length_4 _ Hy) as (y1 & y2 & y3 & y4 & ->).
  destruct (string_length_2 _ Hm) as (m1 & m2 & ->).
  destruct (string_length_2 _ Hd) as (d1 & d2' & ->).
  destruct (string_length_2 _ Hh) as (h1 & h2 & ->).
  destruct (string_length_2 _ Hi) as (i1 & i2 & ->).
  reflexivity.
Qed.

Section LocalInput.

Variable o : Z.

Lemma localInputToIso_isoToLocalInput t :
  1000 <= YearFromTime (t + o) <= 9999 ->
  localInputToIso (fixedZone o) (isoToLocalInput (fixedZone o) t) = Some (startOfMinute o t)
  /\ String.length (isoToLocalInput (fixedZone o) t) = 16%nat.
Proof.
  intros Hy. unfold isoToLocalInput, LocalTime. cbn [utcOffset fixedZone].
  set (lt := t + o) in *.
  pose proof (civil_from_days_range (Day lt)) as [Hm Hd].
  pose proof (HourFromTime_range lt) as Hh. pose proof (MinFromTime_range lt) as Hmi.
  assert (Hmo : 1 <= MonthFromTime lt + 1 <= 12) by (unfold MonthFromTime; lia).
  fold (DateFromTime lt) in Hd.
  pose proof (digitsValue_toString (YearFromTime lt) ltac:(lia)) as Dy.
  pose proof (digitsValue_pad2 (MonthFromTime lt + 1) ltac:(lia)) as Dm.
  pose proof (digitsValue_pad2 (DateFromTime lt) ltac:(lia)) as Dd.
  pose proof (digitsValue_pad2 (HourFromTime lt) ltac:(lia)) as Dh.
  pose proof (digitsValue_pad2 (MinFromTime lt) ltac:(lia)) as Dmi.
  split.
  2:{ rewrite !length_append, (length_toString_year _ Hy), !length_pad2 by lia.
      reflexivity. }
  rewrite localInputToIso_shape
    by first [apply length_toString_year; exact Hy | apply length_pad2; lia].
  rewrite Dy, Dm, Dd, Dh, Dmi. cbn [mbind option_bind].
  assert (Hciv : civil_from_days (days_from_civil (YearFromTime lt) (MonthFromTime lt + 1)
                                    (DateFromTime lt))
                 = (YearFromTime lt, MonthFromTime lt + 1, DateFromTime lt)).
  { unfold YearFromTime, MonthFromTime, DateFromTime.
    replace ((civil_from_days (Day lt)).1.2 - 1 + 1) with (civil_from_days (Day lt)).1.2 by lia.
    rewrite days_from_civil_from_days.
    destruct (civil_from_days (Day lt)) as [[? ?] ?]. reflexivity. }
  rewrite bool_decide_true by exact Hciv.
  replace (HourFromTime lt <=? 23) with true by (symmetry; apply Z.leb_le; lia).
  replace (MinFromTime lt <=? 59) with true by (symmetry; apply Z.leb_le; lia).
  cbn [andb]. f_equal. unfold UTC, startOfMinute. cbn [localOffset fixedZone].
  assert (Hday : days_from_civil (YearFromTime lt) (MonthFromTime lt + 1) (DateFromTime lt)
                 = Day lt).
  { unfold YearFromTime, MonthFromTime, DateFromTime.
    replace ((civil_from_days (Day lt)).1.2 - 1 + 1) with (civil_from_days (Day lt)).1.2 by lia.
    apply days_from_civil_from_days. }
  rewrite Hday. fold lt.
  unfold Day, HourFromTime, MinFromTime, TimeWithinDay, msPerDay, msPerHour, msPerMinute.
  subst lt. Z.div_mod_to_equations. lia.
Qed.

End LocalInput.

Lemma applyEdits_elem updates l s id i o' :
  NoDup ((fun u : string * Z * option Z => u.1.1) <$> updates) ->
  (id, i, o') ∈ updates -> s ∈ l -> Session.id s = id ->
  with_times i o' s ∈ applyEdits updates l.
Proof.
  unfold applyEdits. revert l s. induction updates as [|u us IH]; intros l s Hnd Hu Hs Hid.
  - inversion Hu.
  - cbn [foldl]. rewrite fmap_cons in Hnd. apply NoDup_cons in Hnd as [Hfresh Hnd].
    apply elem_of_cons in Hu as [<-|Hu].
    + apply (applyEdits_other us); [|cbn [Session.id with_times fst] in *; rewrite Hid; exact Hfresh].
      apply (updateById_elem (with_times i o') id l s Hs Hid).
    + apply (IH _ _ Hnd Hu); [|exact Hid].
      apply updateById_other; [exact Hs|]. intros E. apply Hfresh.
      apply list_elem_of_fmap. exists (id, i, o'). split; [simpl; congruence|exact Hu].
Qed.

Section Panel.

Variable o : Z.
Variable ilike : string -> string -> bool.
Variable rpc2 : Db -> option (list RowDB.v2).
Variable rpc1 : Db -> option (list RowDB.v1).
Variable floorNumber : string -> option Z.

Abbreviation device5 := (fixedZone o).
Abbreviation saveEdits5 := (saveEdits (fixedZone o) ilike rpc2 rpc1 floorNumber).

Lemma isoToLocalInput_startOfMinute t :
  isoToLocalInput device5 (startOfMinute o t) = isoToLocalInput device5 t.
Proof.
  unfold isoToLocalInput, LocalTime, startOfMinute. cbn [utcOffset fixedZone].
  replace (t - (t + o) mod msPerMinute + o) with (t + o - (t + o) mod msPerMinute) by lia.
  generalize (t + o). intros lt.
  assert (Hday : Day (lt - lt mod msPerMinute) = Day lt)
    by (unfold Day, msPerDay, msPerMinute; Z.div_mod_to_equations; lia).
  assert (Hh : HourFromTime (lt - lt mod msPerMinute) = HourFromTime lt)
    by (unfold HourFromTime, TimeWithinDay, msPerDay, msPerHour, msPerMinute;
        Z.div_mod_to_equations; lia).
  assert (Hm : MinFromTime (lt - lt mod msPerMinute) = MinFromTime lt)
    by (unfold MinFromTime, msPerHour, msPerMinute; Z.div_mod_to_equations; lia).
  unfold YearFromTime, MonthFromTime, DateFromTime. rewrite Hday, Hh, Hm. reflexivity.
Qed.

Lemma draftUpdate_draftOf s :
  fourDigitYear o (Session.sign_in s) ->
  (forall out, Session.sign_out s = Some out -> fourDigitYear o out) ->
  draftUpdate device5 (draftOf device5 s) = Some (truncated o s).
Proof.
  intros Hin Hout. unfold draftUpdate, draftOf, truncated. cbn [fst snd draft_sign_in draft_sign_out].
  destruct (localInputToIso_isoToLocalInput o (Session.sign_in s) Hin) as [-> _].
  cbn [mbind option_bind]. destruct (Session.sign_out s) as [out|]; [|reflexivity].
  destruct (localInputToIso_isoToLocalInput o out (Hout out eq_refl)) as [-> Hlen].
  destruct (isoToLocalInput device5 out); [discriminate Hlen|]. reflexivity.
Qed.

(** X19. The edit panel shows times to the minute, in the zone of the
    device, and saves what it shows: on a device at a fixed offset from UTC,
    for years of four digits, the draft of a stored session reads back as
    the session with both its times moved to the start of their minute,
    and that session in turn is shown by the same draft. *)
Theorem draft_round_trip s :
  fourDigitYear o (Session.sign_in s) ->
  (forall out, Session.sign_out s = Some out -> fourDigitYear o out) ->
  draftUpdate device5 (draftOf device5 s) = Some (truncated o s)
  /\ draftOf device5 (with_times (truncated o s).1.2 (truncated o s).2 s) = draftOf device5 s
  /\ startOfMinute o (Session.sign_in s) <= Session.sign_in s
       < startOfMinute o (Session.sign_in s) + msPerMinute
  /\ (o mod msPerMinute = 0 ->
      startOfMinute o (Session.sign_in s)
      = Session.sign_in s - Session.sign_in s mod msPerMinute)
  /\ localInputToIso device5 "" = None.
Proof.
  intros Hin Hout. split; [apply draftUpdate_draftOf; assumption|]. split; [|split; [|split]].
  - unfold draftOf, truncated. cbn [fst snd Session.id Session.sign_in Session.sign_out with_times].
    rewrite isoToLocalInput_startOfMinute.
    destruct (Session.sign_out s) as [out|]; [|reflexivity].
    cbn [fmap option_fmap option_map]. rewrite isoToLocalInput_startOfMinute. reflexivity.
  - unfold startOfMinute, msPerMinute. Z.div_mod_to_equations. lia.
  - unfold startOfMinute, msPerMinute. intros Ho. Z.div_mod_to_equations. lia.
  - reflexivity.
Qed.

(** X20. Saving a panel that nobody touched is not a no-op: with the
    drafts as they were built for the loaded sessions, a save that goes
    through rewrites every loaded session to the start of the minute of its
    times, dropping the seconds. *)
Theorem saveEdits_untouched_panel e w ec loaded :
  hasSupabase e = true -> editCadet (editor w) = Some ec ->
  (forall c, fails e c = false) ->
  editDraft (editor w) = draftOf device5 <$> loaded ->
  NoDup (Session.id <$> loaded) ->
  Forall (fun s => fourDigitYear o (Session.sign_in s)
                   /\ forall out, Session.sign_out s = Some out -> fourDigitYear o out) loaded ->
  (trim (editOverride (editor w)) = ""%string
   \/ is_Some (floorNumber (trim (editOverride (editor w))))) ->
  let w' := saveEdits5 e w in
  statusMsg (ui w') = Some MsgSavedEdits
  /\ sessions (db w') = applyEdits (truncated o <$> loaded) (sessions (db w))
  /\ (forall s, s ∈ loaded -> s ∈ sessions (db w) ->
        with_times (startOfMinute o (Session.sign_in s))
                   (startOfMinute o <$> Session.sign_out s) s ∈ sessions (db w'))
  /\ (forall s, s ∈ sessions (db w) -> Session.id s ∉ Session.id <$> loaded ->
        s ∈ sessions (db w')).
Proof.
  intros Hmode Hec Hok Hd Hnd Hyears Htext. cbv zeta.
  assert (Hm : mapM (draftUpdate device5) (editDraft (editor w)) = Some (truncated o <$> loaded)).
  { rewrite Hd. apply mapM_Some_2. clear Hd Hnd.
    induction Hyears as [|s l [Hi Ho] _ IH]; [constructor|].
    rewrite !fmap_cons. constructor; [apply draftUpdate_draftOf; assumption|exact IH]. }
  destruct (saveEdits_through (fixedZone o) ilike rpc2 rpc1 floorNumber e w ec
              (truncated o <$> loaded) Hmode Hec Hok Hm Htext) as (ov & Heq & _).
  assert (Hs : statusMsg (ui (saveEdits5 e w)) = Some MsgSavedEdits
               /\ sessions (db (saveEdits5 e w))
                  = applyEdits (truncated o <$> loaded) (sessions (db w))).
  { rewrite Heq. cbn [ui db setSavingEdits with_editor].
    match goal with |- context [fetchLeaderboard ilike rpc2 rpc1 e ?x] =>
      destruct (fetchLeaderboard_frame ilike rpc2 rpc1 e x) as (-> & _ & _ & -> & _) end.
    split; reflexivity. }
  destruct Hs as [Hs Hss].
  assert (Hids : (fun u : string * Z * option Z => u.1.1) <$> (truncated o <$> loaded)
                 = Session.id <$> loaded).
  { rewrite <- list_fmap_compose. reflexivity. }
  split; [exact Hs|]. split; [exact Hss|]. split.
  - intros s Hl Hin. rewrite Hss.
    apply (applyEdits_elem _ _ s (Session.id s)); [rewrite Hids; exact Hnd| |exact Hin|reflexivity].
    apply list_elem_of_fmap. exists s. split; [reflexivity|exact Hl].
  - intros s Hin Hno. rewrite Hss. apply applyEdits_other; [exact Hin|].
    rewrite Hids. exact Hno.
Qed.

End Panel.

(** ** Leaderboard maintenance *)

Lemma select4_with_voided v s : select4 (with_voided v s) = select4 s.
Proof. reflexivity. Qed.

Lemma voidSessionsOf_select4 cid l : select4 <$> voidSessionsOf cid l = select4 <$> l.
Proof.
  unfold voidSessionsOf. change (@map) with (@fmap list list_fmap).
  rewrite <- list_fmap_compose. apply list_fmap_ext. intros _ s _. simpl.
  case_bool_decide; reflexivity.
Qed.

Lemma voidHistoryOf_select4 cid l : select4 <$> voidHistoryOf cid l = select4 <$> l.
Proof.
  unfold voidHistoryOf. change (@map) with (@fmap list list_fmap).
  rewrite <- list_fmap_compose. apply list_fmap_ext. intros _ s _. simpl.
  destruct (String.eqb _ _); reflexivity.
Qed.

(** A filter that does not read the voided column sees the same rows. *)
Lemma filter_select4 (P : Session.t -> Prop) `{!forall s, Decision (P s)}
    (l1 l2 : list Session.t) :
  (forall s, P s <-> P (select4 s)) ->
  select4 <$> l1 = select4 <$> l2 ->
  select4 <$> filter P l1 = select4 <$> filter P l2.
Proof.
  intros HP. revert l2. induction l1 as [|a l1 IH]; intros [|b l2] Heq; try discriminate.
  - reflexivity.
  - rewrite !fmap_cons in Heq.
    assert (Hab : select4 a = select4 b) by exact (inj Some _ _ (f_equal head Heq)).
    apply (f_equal tail) in Heq. cbn [tail] in Heq.
    rewrite !filter_cons.
    destruct (decide (P a)) as [Ha|Ha], (decide (P b)) as [Hb|Hb].
    + rewrite !fmap_cons, Hab, (IH _ Heq). reflexivity.
    + exfalso. apply Hb. apply HP. rewrite <- Hab. apply (proj1 (HP a)), Ha.
    + exfalso. apply Ha. apply HP. rewrite Hab. apply (proj1 (HP b)), Hb.
    + apply IH, Heq.
Qed.

Lemma localTotal_select4 now l1 l2 id :
  select4 <$> l1 = select4 <$> l2 -> localTotal now l1 id = localTotal now l2 id.
Proof.
  intros H. rewrite !localTotal_sum.
  assert (Hf : select4 <$> filter (fun s => Session.cadet_id s = id) l1
               = select4 <$> filter (fun s => Session.cadet_id s = id) l2)
    by (apply filter_select4; [reflexivity|exact H]).
  assert (Hr : forall l : list Session.t,
            rawMinutes now <$> l = rawMinutes now <$> (select4 <$> l)).
  { intros l. rewrite <- list_fmap_compose. reflexivity. }
  rewrite (Hr (filter _ l1)), (Hr (filter _ l2)), Hf. reflexivity.
Qed.

(** The local leaderboard does not read the voided column. *)
Lemma localLeaderboard_select4 now (l1 l2 : LocalStorage) :
  asp_current_cadet_ l1 = asp_current_cadet_ l2 ->
  select4 <$> asp_sessions l1 = select4 <$> asp_sessions l2 ->
  localLeaderboard now l1 = localLeaderboard now l2.
Proof.
  intros Hc Hs. unfold localLeaderboard. rewrite Hc.
  assert (Hids : map Session.cadet_id (asp_sessions l1) = map Session.cadet_id (asp_sessions l2)).
  { change (@map) with (@fmap list list_fmap).
    assert (E : forall l : list Session.t,
              Session.cadet_id <$> l = Session.cadet_id <$> (select4 <$> l))
      by (intros l; rewrite <- list_fmap_compose; reflexivity).
    rewrite (E (asp_sessions l1)), (E (asp_sessions l2)), Hs. reflexivity. }
  rewrite Hids. f_equal. apply list_omap_ext.
  set (ids := setOf [] (map Session.cadet_id (asp_sessions l2))). clearbody ids.
  induction ids as [|i r IH]; constructor; [|exact IH].
  rewrite (localTotal_select4 now _ _ i Hs). reflexivity.
Qed.

Lemma nonVoidOf_voidSessionsOf cid l : nonVoidOf cid (voidSessionsOf cid l) = [].
Proof.
  unfold nonVoidOf, voidSessionsOf. apply filter_none. intros s Hs [Hc Hv].
  apply list_elem_of_fmap in Hs as (s0 & -> & _).
  case_bool_decide as H; [discriminate Hv|]. apply H. auto.
Qed.

Lemma voidSessionsOf_others cid l :
  filter (fun s => Session.cadet_id s <> cid) (voidSessionsOf cid l)
  = filter (fun s => Session.cadet_id s <> cid) l.
Proof.
  unfold voidSessionsOf. induction l as [|s l IH]; [reflexivity|]. simpl.
  rewrite !filter_cons. case_bool_decide as H.
  - destruct H as [Hc _]. rewrite !decide_False by (simpl; auto). exact IH.
  - rewrite IH. reflexivity.
Qed.

Section MaintenanceFacts.

Variable ilike : string -> string -> bool.
Variable rpc2 : Db -> option (list RowDB.v2).
Variable rpc1 : Db -> option (list RowDB.v1).

Abbreviation removeFromLeaderboard6 := (removeFromLeaderboard ilike rpc2 rpc1).
Abbreviation voidCadetSessions6 := (voidCadetSessions rpc1).
Abbreviation resetLeaderboardAll6 := (resetLeaderboardAll rpc1).

(** X21. The Remove button voids the sessions of the row's cadet and
    nothing else: only the voided column of the session table can change,
    cadets and overrides stay; when the update goes through, no session of
    the cadet is left that is not voided, the sessions of the other cadets
    are as before, the query of the two-hours guard finds nothing for the
    cadet, and the open-session query of sign-in answers as before, so
    a cadet who is signed in stays signed in.  The message is the same when
    the update came back with an error and changed nothing. *)
Theorem removeFromLeaderboard_voids e af r w cid :
  hasSupabase e = true ->
  LeaderboardRow.cadetId r = Some cid -> cid <> ""%string ->
  let w' := (removeFromLeaderboard6 e af true r w).1 in
  (removeFromLeaderboard6 e af true r w).2 = Some MsgRemovedCadetSessions
  /\ cadets (db w') = cadets (db w)
  /\ leaderboard_overrides (db w') = leaderboard_overrides (db w)
  /\ select4 <$> sessions (db w') = select4 <$> sessions (db w)
  /\ (forall e' c, selectOpenSession e' (db w') c = selectOpenSession e' (db w) c)
  /\ (af SessionsVoid = false ->
      nonVoidOf cid (sessions (db w')) = []
      /\ filter (fun s => Session.cadet_id s <> cid) (sessions (db w'))
         = filter (fun s => Session.cadet_id s <> cid) (sessions (db w))
      /\ (forall e', fails e' SessionsSelectRecent = false ->
                     selectRecentSessions e' (db w') cid = Some []))
  /\ (af SessionsVoid = true -> db w' = db w).
Proof.
  intros Hmode Hid Hne. cbv zeta. unfold removeFromLeaderboard.
  rewrite Hmode, Hid. apply String.eqb_neq in Hne. rewrite Hne. cbn [negb].
  destruct cid as [|a cid']; [discriminate Hne|]. cbn [fst snd].
  set (cid := String a cid') in *.
  set (d := if af SessionsVoid then db w
            else with_sessions (voidSessionsOf cid (sessions (db w))) (db w)).
  destruct (fetchLeaderboard_frame ilike rpc2 rpc1 e (with_db d w)) as (-> & _).
  cbn [db with_db].
  assert (Hsel : select4 <$> sessions d = select4 <$> sessions (db w)).
  { subst d. destruct (af SessionsVoid); [reflexivity|]. apply voidSessionsOf_select4. }
  split; [reflexivity|].
  split; [subst d; destruct (af SessionsVoid); reflexivity|].
  split; [subst d; destruct (af SessionsVoid); reflexivity|].
  split; [exact Hsel|]. split; [|split].
  - intros e' c. unfold selectOpenSession. destruct (fails e' SessionsSelectOpen); [reflexivity|].
    f_equal. apply filter_select4; [reflexivity|exact Hsel].
  - intros Hok. subst d. rewrite Hok. cbn [sessions with_sessions].
    split; [apply nonVoidOf_voidSessionsOf|]. split; [apply voidSessionsOf_others|].
    intros e' Hrec. unfold selectRecentSessions. rewrite Hrec.
    rewrite (filter_none _ (voidSessionsOf cid (sessions (db w)))); [reflexivity|].
    intros s Hs (Hc & Hv & _).
    pose proof (nonVoidOf_voidSessionsOf cid (sessions (db w))) as Hnone.
    apply (filter_nil_not_elem_of _ _ s Hnone); auto.
  - intros Hfail. subst d. rewrite Hfail. reflexivity.
Qed.

(** X22. In local mode the tools that are meant to remove a cadet from
    the leaderboard, or everybody, mark the stored sessions as voided and
    report success, but the leaderboard they reload is the one from before:
    the local aggregation does not read the voided flag. *)
Theorem local_void_keeps_leaderboard e af cid w :
  hasSupabase e = false ->
  let w1 := (voidCadetSessions6 e af cid w).1 in
  let w2 := (resetLeaderboardAll6 e af true w).1 in
  (voidCadetSessions6 e af cid w).2 = MsgRemovedEntry
  /\ (resetLeaderboardAll6 e af true w).2 = Some MsgResetComplete
  /\ leaderboard (ui w1) = localLeaderboard (now e) (ls w)
  /\ leaderboard (ui w2) = localLeaderboard (now e) (ls w)
  /\ Forall (fun s => Session.cadet_id s = cid -> Session.voided s = true)
       (asp_sessions (ls w1))
  /\ Forall (fun s => Session.voided s = true) (asp_sessions (ls w2))
  /\ db w1 = db w /\ db w2 = db w.
Proof.
  intros Hmode. cbv zeta. unfold voidCadetSessions, resetLeaderboardAll, fetchLeaderboardV1.
  rewrite Hmode. cbn [negb fst snd ui ls db setLeaderboard with_ui storeSessions with_ls
    leaderboard asp_sessions].
  split; [reflexivity|]. split; [reflexivity|]. split; [|split; [|split; [|split]]].
  - apply localLeaderboard_select4; [reflexivity|]. apply voidHistoryOf_select4.
  - apply localLeaderboard_select4; [reflexivity|]. cbn [asp_sessions].
    rewrite <- list_fmap_compose. reflexivity.
  - apply Forall_forall. intros s Hs Hc. unfold voidHistoryOf in Hs.
    apply list_elem_of_fmap in Hs as (s0 & -> & _).
    destruct (String.eqb_spec (Session.cadet_id s0) cid) as [E|E]; [reflexivity|].
    contradiction.
  - apply Forall_forall. intros s Hs. apply list_elem_of_fmap in Hs as (s0 & -> & _).
    reflexivity.
  - auto.
Qed.

End MaintenanceFacts.

Section AdminKeyFacts.

Variable key : option string.

(** X23. The admin key guard: typing unlocks exactly on the configured
    key, compared after trimming, and never when no key is configured; an
    unlock survives a reload, through the stored flag alone, until admin
    mode is disabled; and a reload trusts the stored flag whatever key is
    configured. *)
Theorem admin_key_guard k a :
  (adminMode (setAdminKey key k a) = true <->
   adminMode a = true \/ (trim k = ADMIN_KEY key /\ ADMIN_KEY key <> ""%string))
  /\ (adminMode (adminMount key a) = true <-> asp_admin_unlocked a = Some "1"%string)
  /\ (trim k = ADMIN_KEY key -> ADMIN_KEY key <> ""%string ->
      adminMode (adminMount key (setAdminKey key k a)) = true)
  /\ adminMode (adminMount key (disableAdmin key a)) = false
  /\ (ADMIN_KEY key = ""%string -> setAdminKey key k a
        = {| adminMode := adminMode a; adminKey := k;
             asp_admin_unlocked := asp_admin_unlocked a |}).
Proof.
  unfold setAdminKey, adminMount, disableAdmin, adminKeyEffect, adminUnlockedEffect.
  cbn [adminKey adminMode asp_admin_unlocked].
  change (trim "") with ""%string. cbn [String.eqb negb andb].
  split; [|split; [|split; [|split]]].
  - destruct (String.eqb_spec (trim k) ""), (String.eqb_spec (ADMIN_KEY key) ""),
      (String.eqb_spec (trim k) (ADMIN_KEY key)); cbn [negb andb adminMode];
      split; auto; intros [H|[H1 H2]]; auto; congruence.
  - case_bool_decide as H; cbn [adminMode]; split; auto; discriminate.
  - intros Hk Hne. apply String.eqb_neq in Hne. rewrite Hk, Hne, String.eqb_refl.
    cbn [negb andb asp_admin_unlocked]. rewrite bool_decide_true by reflexivity. reflexivity.
  - rewrite bool_decide_false by discriminate. reflexivity.
  - intros ->. cbn [String.eqb negb andb]. rewrite andb_false_r. reflexivity.
Qed.

End AdminKeyFacts.

(** ** Examples on concrete inputs *)

Ltac by_compute := vm_compute; first [reflexivity | discriminate | exact I].

Lemma usEastern_offsets t : EST <= utcOffset usEastern t <= EDT.
Proof.
  cbn [utcOffset usEastern]. unfold usEasternOffsetAt.
  destruct (_ && _); unfold EST, EDT, msPerHour; lia.
Qed.

Example isAspOpen_boundaries :
  isAspOpen usEastern (utc 2025 9 1 23 30 0) = true
  /\ isAspOpen usEastern (utc 2025 9 1 23 29 59) = false
  /\ isAspOpen usEastern (utc 2025 9 2 1 29 59) = true
  /\ isAspOpen usEastern (utc 2025 9 2 1 30 0) = false
  /\ isAspOpen usEastern (utc 2025 9 2 23 30 0) = false
  /\ isAspOpen usEastern (utc 2025 12 4 0 30 0) = true.
Proof. repeat split; by_compute. Qed.

(** Witness of C10: a session from 21:00 ET on Monday to 00:30 ET on
    Tuesday, looked at on Tuesday at 01:00 ET and on Monday at 23:00 ET. *)
Lemma minutesTonightET_inverted_session_witness :
  overlapMinutesET (minutesOfDayET usEastern (Session.sign_in overMidnight))
    (minutesOfDayET usEastern
       (default (utc 2025 9 2 5 0 0) (Session.sign_out overMidnight)))
    ASP_START_MIN ASP_END_MIN = 0
  /\ minutesTonightET usEastern [overMidnight] (utc 2025 9 2 5 0 0) = 0
  /\ minutesTonightET usEastern ([] ++ overMidnight :: []) (utc 2025 9 2 5 0 0)
     = minutesTonightET usEastern ([] ++ []) (utc 2025 9 2 5 0 0).
Proof.
  apply (minutesTonightET_inverted_session usEastern overMidnight
           (utc 2025 9 2 5 0 0) [] []).
  by_compute.
Defined.

(** Witness of C1 as amended: at 22:30 ET on Monday 1 September 2025,
    with one session from 19:00 ET to 22:00 ET that day, one open since
    22:10 ET, and one of the Wednesday before. *)
Lemma minutesTonightET_accruedTonight_witness :
  let sessions :=
    [ mondayEvening;
      session "s2" (utc 2025 9 2 2 10 0) None;
      session "s0" (utc 2025 8 27 23 30 0) (Some (utc 2025 8 28 0 30 0)) ] in
  minutesTonightET usEastern sessions (utc 2025 9 2 2 30 0)
  = accruedTonight usEastern sessions (utc 2025 9 2 2 30 0).
Proof.
  intros sessions.
  apply (minutesTonightET_accruedTonight usEastern sessions (utc 2025 9 2 2 30 0)).
  - by_compute.
  - repeat (constructor; [by_compute|]). constructor.
  - repeat (constructor; [intros _; by_compute|]). constructor.
Defined.

(** Counterexample to C1 as stated: a session from 20:00 ET on Monday to
    20:30 ET on Tuesday, seen at 21:45 ET on Monday.  Its sign-in date is the
    date of [now] and it overlaps Monday's window from 20:00 to 21:30, for 90
    minutes; [minutesTonightET] takes the minute of the day of its end, 20:30,
    and counts 30. *)
Lemma minutesTonightET_accruedTonight_counterexample :
  calendarDate usEastern (Session.sign_in untilTuesday) = (2025, 9, 1)
  /\ calendarDate usEastern (utc 2025 9 2 1 45 0) = (2025, 9, 1)
  /\ calendarDate usEastern (default (utc 2025 9 2 1 45 0) (Session.sign_out untilTuesday))
     = (2025, 9, 2)
  /\ windowOverlap (wallMinuteOfDay usEastern (Session.sign_in untilTuesday))
       (minuteFromDayOf usEastern (Session.sign_in untilTuesday)
          (default (utc 2025 9 2 1 45 0) (Session.sign_out untilTuesday))) = 90
  /\ accruedTonight usEastern [untilTuesday] (utc 2025 9 2 1 45 0) = 90
  /\ minutesTonightET usEastern [untilTuesday] (utc 2025 9 2 1 45 0) = 30.
Proof. repeat split; by_compute. Qed.






(** Counterexample to C9 as stated: [saveEdits] on two drafts, the
    update of the second session failing, reports the failure and has
    already moved the sign-in of the first session; and a sign-in of a new
    participant that fails at the session insert has already stored the
    cadet. *)
Lemma failed_operations_counterexample :
  statusMsg (ui (saveEdits utcZone ilikePlain rpcDown rpcDown parseInt
                   (envAt true (utc 2025 9 2 0 40 0) (failing (SessionsUpdateEdit "s2")))
                   editingWorld))
  = Some MsgSaveFailed
  /\ sessions (db editingWorld) = twoLongSessions
  /\ sessions (db (saveEdits utcZone ilikePlain rpcDown rpcDown parseInt
                     (envAt true (utc 2025 9 2 0 40 0)
                            (failing (SessionsUpdateEdit "s2")))
                     editingWorld))
     = [ session "s1" (utc 2025 9 1 23 0 0) (Some (utc 2025 9 2 0 31 0));
         session "s2" (utc 2025 9 1 23 30 0) (Some (utc 2025 9 2 0 31 0)) ]
  /\ statusMsg (ui (handleSignIn usEastern ilikePlain rpcDown rpcDown
                      (envAt true (utc 2025 9 1 23 50 0) (failing SessionsInsert))
                      (remoteWorld "Grace Hopper" [])))
     = Some MsgSignInFailed
  /\ cadets (db (remoteWorld "Grace Hopper" [])) = [ada]
  /\ Cadet.id <$> cadets (db (handleSignIn usEastern ilikePlain rpcDown rpcDown
                      (envAt true (utc 2025 9 1 23 50 0) (failing SessionsInsert))
                      (remoteWorld "Grace Hopper" [])))
     = ["cadet-ada"; "cadet-new"]%string.
Proof. repeat split; by_compute. Qed.

(** Counterexample to C3 as stated: in local mode a session from 19:00
    ET to 22:00 ET on Monday, whose overlap with the window is 120 minutes,
    puts 180 minutes on the leaderboard. *)
Lemma localLeaderboard_counterexample :
  LeaderboardRow.totalMin <$> leaderboard (ui (fetchLeaderboard ilikePlain rpcDown rpcDown
                                      (envAt false (utc 2025 9 2 3 0 0) noFailure)
                                      (localWorld [mondayEvening])))
  = [180]
  /\ windowOverlap (wallMinuteOfDay usEastern (Session.sign_in mondayEvening))
       (wallMinuteOfDay usEastern
          (default (utc 2025 9 2 3 0 0) (Session.sign_out mondayEvening)))
     = 120
  /\ wallWeekday usEastern (Session.sign_in mondayEvening) = 1.
Proof. repeat split; by_compute. Qed.

(** C7 at a failing input: on a device in UTC, at 08:00 ET on Monday 1
    September 2025, [nextWindow] is 19:30 UTC of that day, which is 15:30
    in New York (minute 930), when the program is closed; on a device in New
    York it is 19:30 ET, when the program opens. *)
Lemma nextWindow_device_zone :
  nextWindow utcZone (utc 2025 9 1 12 0 0) = Some (utc 2025 9 1 19 30 0)
  /\ isAspOpen usEastern (utc 2025 9 1 19 30 0) = false
  /\ wallMinuteOfDay usEastern (utc 2025 9 1 19 30 0) = 930
  /\ nextWindow usEastern (utc 2025 9 1 12 0 0) = Some (utc 2025 9 1 23 30 0)
  /\ isAspOpen usEastern (utc 2025 9 1 23 30 0) = true.
Proof. repeat split; by_compute. Qed.

(** Signing in twice in succession: the first run inserts a session, the
    second run, with other fresh ids, resumes it and inserts nothing. *)
Example handleSignIn_twice :
  let e1 := envAt true (utc 2025 9 1 23 35 0) noFailure in
  let e2 := {| hasSupabase := true; now := utc 2025 9 1 23 35 1;
               uuidCadet := "cadet-other"; uuidSession := "session-other";
               fails := noFailure |} in
  let w1 := handleSignIn usEastern ilikePlain rpcDown rpcDown e1
              (remoteWorld "Ada Lovelace" []) in
  let w2 := handleSignIn usEastern ilikePlain rpcDown rpcDown e2 w1 in
  statusMsg (ui w1) = Some MsgSignedIn
  /\ statusMsg (ui w2) = Some MsgResumed
  /\ activeSession (ui w2) = activeSession (ui w1)
  /\ sessions (db w2) = sessions (db w1)
  /\ sessions (db w1) = [session "session-new" (utc 2025 9 1 23 35 0) None].
Proof. repeat split; by_compute. Qed.

(** Two clicks on Sign In, the second before the first run has
    answered.  Each run takes its steps up to the open-session query and
    finds no open session; then each runs its guard and inserts: Ada has two
    open sessions, against the rule of the page, "One active session per
    cadet".  Taken one after the other, the same two runs leave one. *)
Example handleSignIn_two_clicks :
  let eA := clickAt (utc 2025 9 1 23 35 0) "session-a" in
  let eB := clickAt (utc 2025 9 1 23 35 1) "session-b" in
  let w0 := remoteWorld "Ada Lovelace" [] in
  let clickA := signInClick usEastern ilikePlain rpcDown rpcDown eA w0 in
  let clickB := signInClick usEastern ilikePlain rpcDown rpcDown eB clickA.2 in
  let atQuery :=
    interleave usEastern ilikePlain rpcDown rpcDown
      [true; true; true; false; false; false] eA eB clickA.1 clickB.1 clickB.2 in
  let final :=
    interleave usEastern ilikePlain rpcDown rpcDown
      [true; true; true; false; false; false] eA eB atQuery.1.1 atQuery.1.2 atQuery.2 in
  atQuery.1.1 = AwaitRecentSessions ada (utc 2025 9 1 23 35 0 - THIRTY_SIX_HOURS)
  /\ atQuery.1.2 = AwaitRecentSessions ada (utc 2025 9 1 23 35 1 - THIRTY_SIX_HOURS)
  /\ sessions (db atQuery.2) = []
  /\ final.1 = (Returned, Returned)
  /\ statusMsg (ui final.2) = Some MsgSignedIn
  /\ sessions (db final.2)
     = [ session "session-a" (utc 2025 9 1 23 35 0) None;
         session "session-b" (utc 2025 9 1 23 35 1) None ]
  /\ openSessionsOf "cadet-ada" (sessions (db final.2)) = sessions (db final.2)
  /\ ~ atMostOneOpen (sessions (db final.2))
  /\ sessions (db (handleSignIn usEastern ilikePlain rpcDown rpcDown eB
                     (handleSignIn usEastern ilikePlain rpcDown rpcDown eA w0)))
     = [ session "session-a" (utc 2025 9 1 23 35 0) None ].
Proof.
  repeat split; try by_compute.
  intros H. specialize (H "cadet-ada"%string). vm_compute in H. lia.
Qed.

(** An open-session query that comes back with an error is taken for "no
    open session": Ada, signed in since 19:35 ET, signs in again at 19:50 ET
    and gets a second open session. *)
Example handleSignIn_open_query_error :
  openSessionsOf "cadet-ada"
    (sessions (db (handleSignIn usEastern ilikePlain rpcDown rpcDown
                     (envAt true (utc 2025 9 1 23 50 0) (failing SessionsSelectOpen))
                     (remoteWorld "Ada Lovelace" oneOpenSession))))
  = [session "s1" (utc 2025 9 1 23 35 0) None;
     session "session-new" (utc 2025 9 1 23 50 0) None].
Proof. by_compute. Qed.

(** C8 at a failing input. An administrator in New York opens the edit
    panel on Ada, whose one stored session runs from 19:35:40 ET to 20:05:20
    ET, types the override 1000 and saves without touching a time.  The
    override is stored and a row of Ada, once the overrides are loaded, shows
    1000 minutes and 4 reward days; but the save has rewritten the stored
    session to 19:35:00 - 20:05:00, and the minutes computed from it go from
    29 to 30.  On a session stored on whole minutes the same save leaves the
    times as they were. *)
Lemma saveEdits_override_rewrites_sessions :
  let e := envAt true (utc 2025 9 3 12 0 0) noFailure in
  let w := panelOn usEastern withSeconds "1000" in
  let w' := loadOverridesMap e
              (saveEdits usEastern ilikePlain rpcDown rpcDown parseInt e w) in
  let row := {| LeaderboardRow.cadetId := Some "cadet-ada"%string;
                LeaderboardRow.name := "Ada Lovelace"; LeaderboardRow.klass := K1C;
                LeaderboardRow.company := "G1"; LeaderboardRow.totalMin := 29 |} in
  let onMinutes := session "s1" (utc 2025 9 1 23 35 0) (Some (utc 2025 9 2 0 5 0)) in
  statusMsg (ui w') = Some MsgSavedEdits
  /\ leaderboard_overrides (db w') !! "cadet-ada"%string = Some 1000
  /\ (fun x => (Shown.total x, pmiDays x)) <$> shownRows None [row] (overridesMap (ui w'))
     = [(1000, 4)]
  /\ sessions (db w)
     = [session "s1" (utc 2025 9 1 23 35 40) (Some (utc 2025 9 2 0 5 20))]
  /\ sessions (db w')
     = [session "s1" (utc 2025 9 1 23 35 0) (Some (utc 2025 9 2 0 5 0))]
  /\ localTotal (now e) (sessions (db w)) "cadet-ada" = 29
  /\ localTotal (now e) (sessions (db w')) "cadet-ada" = 30
  /\ sessions (db (saveEdits usEastern ilikePlain rpcDown rpcDown parseInt e
                     (panelOn usEastern onMinutes "1000")))
     = [onMinutes].
Proof. repeat split; by_compute. Qed.

(** The scenarios of the specification, on the page's own minute
    accounting: a session from 19:35 ET to 20:05 ET on Monday counts 30
    minutes tonight and 0 reward days; one from 19:00 ET to 22:00 ET counts
    the 120 minutes of the window. *)
Example tonight_scenarios :
  minutesTonightET usEastern
    [session "s1" (utc 2025 9 1 23 35 0) (Some (utc 2025 9 2 0 5 0))]
    (utc 2025 9 2 0 10 0) = 30
  /\ 30 / 240 = 0
  /\ minutesTonightET usEastern [mondayEvening] (utc 2025 9 2 2 30 0) = 120
  /\ minutesTonightET usEastern
       [session "s1" (utc 2025 9 1 23 35 0) None] (utc 2025 9 2 0 10 0) = 35.
Proof. repeat split; by_compute. Qed.

(** White space beyond ASCII: a name typed with no-break spaces, an em
    space and a byte order mark is normalized like one typed with spaces; a
    key pasted with a no-break space unlocks; [parseInt] skips it too; and
    a letter whose bytes end like a no-break space is left alone. *)
Example normalizeName_white_space :
  normalizeName ("  Ada" +:+ utf8 0xA0 +:+ utf8 0xA0 +:+ utf8 0x2003 +:+ "Lovelace"
                 +:+ utf8 0xFEFF) = "Ada Lovelace"%string
  /\ normalizeName (utf8 0x3000 +:+ utf8 0x2028) = ""%string
  /\ trim (utf8 0xA0 +:+ "secret" +:+ utf8 0x3000) = "secret"%string
  /\ adminMode (setAdminKey (Some "secret"%string) (utf8 0xA0 +:+ "secret")
                  {| adminMode := false; adminKey := ""; asp_admin_unlocked := None |})
     = true
  /\ parseInt (utf8 0xA0 +:+ " 42") = Some 42
  /\ normalizeName ("voil" +:+ utf8 0xE0) = ("voil" +:+ utf8 0xE0)%string.
Proof. repeat split; by_compute. Qed.

(** ** Instances of the further properties *)

Lemma selectRecentSessions_tonight_witness :
  let e := envAt true (utc 2025 9 2 0 40 0) noFailure in
  let d := db (remoteWorld "Ada Lovelace" oneAfterAnother) in
  let recent := [ session "s2" (utc 2025 9 2 0 5 0) (Some (utc 2025 9 2 0 30 0));
                  session "s1" (utc 2025 9 1 23 30 0) (Some (utc 2025 9 2 0 0 0)) ] in
  (forall s, s ∈ sessions d -> Session.cadet_id s = "cadet-ada"%string ->
             Session.voided s = false ->
             etDateKey usEastern (Session.sign_in s) = etDateKey usEastern (now e) ->
             s ∈ recent)
  /\ (forall s, s ∈ recent -> s ∈ nonVoidOf "cadet-ada" (sessions d))
  /\ minutesTonightET usEastern recent (now e)
     = minutesTonightET usEastern (nonVoidOf "cadet-ada" (sessions d)) (now e).
Proof.
  intros e d recent.
  apply (selectRecentSessions_tonight usEastern e d "cadet-ada" recent usEastern_offsets).
  - by_compute.
  - repeat (constructor; [by_compute|]). constructor.
  - by_compute.
Defined.

Lemma handleSignIn_chained_never_capped_witness :
  let e := envAt true (utc 2025 9 2 0 40 0) noFailure in
  let w := remoteWorld "Ada Lovelace" oneAfterAnother in
  statusMsg (ui (handleSignIn usEastern ilikePlain rpcDown rpcDown e w))
    <> Some MsgTwoHoursTonight
  /\ minutesTonightET usEastern (nonVoidOf "cadet-ada" oneAfterAnother) (now e) = 55.
Proof.
  intros e w. split; [|by_compute].
  apply (handleSignIn_chained_never_capped usEastern ilikePlain rpcDown rpcDown e w K1C).
  - reflexivity.
  - vm_compute. repeat split; discriminate.
Defined.

Lemma etDateKey_same_day_witness :
  let t1 := utc 2025 9 2 3 59 0 in
  let t2 := utc 2025 9 1 4 0 0 in
  (etDateKey usEastern t1 = etDateKey usEastern t2
   <-> Day (LocalTime usEastern t1) = Day (LocalTime usEastern t2))
  /\ 1 <= m (etParts usEastern t1) <= 12 /\ 1 <= da (etParts usEastern t1) <= 31
  /\ 0 <= h (etParts usEastern t1) <= 23 /\ 0 <= mi (etParts usEastern t1) <= 59
  /\ 0 <= minutesOfDayET usEastern t1 < 1440.
Proof.
  intros t1 t2. apply (etDateKey_same_day usEastern t1 t2); by_compute.
Defined.

Lemma cache_mirrors_state_witness :
  let e := envAt true (utc 2025 9 1 23 50 0) noFailure in
  let a := session "s1" (utc 2025 9 1 23 35 0) None in
  let w := signedInWorld oneOpenSession a in
  cacheCoherent (handleSignIn usEastern ilikePlain rpcDown rpcDown e w)
  /\ cacheCoherent (handleSignOut ilikePlain rpcDown rpcDown e w)
  /\ cacheCoherent (autoSignOut ilikePlain rpcDown rpcDown e a w)
  /\ cacheCoherent (saveEdits utcZone ilikePlain rpcDown rpcDown parseInt e w)
  /\ cacheCoherent (mount ilikePlain rpcDown rpcDown e w)
  /\ cadet (ui (mount ilikePlain rpcDown rpcDown e w)) = cadet (ui w)
  /\ activeSession (ui (mount ilikePlain rpcDown rpcDown e w)) = activeSession (ui w).
Proof.
  intros e a w.
  apply (cache_mirrors_state usEastern utcZone ilikePlain rpcDown rpcDown parseInt e e a w).
  split; reflexivity.
Defined.

Lemma handleSignOut_closes_active_witness :
  let e := envAt true (utc 2025 9 2 0 20 0) noFailure in
  let a := session "s1" (utc 2025 9 1 23 35 0) None in
  let w := signedInWorld oneOpenSession a in
  let w' := handleSignOut ilikePlain rpcDown rpcDown e w in
  statusMsg (ui w') = Some MsgSignedOut
  /\ activeSession (ui w') = None
  /\ asp_active_session (ls w') = None
  /\ with_sign_out (Some (now e)) a ∈ storedSessions e w'
  /\ (forall s', s' ∈ storedSessions e w -> Session.id s' <> Session.id a ->
                 s' ∈ storedSessions e w')
  /\ Session.id <$> storedSessions e w' = Session.id <$> storedSessions e w.
Proof.
  intros e a w.
  apply (handleSignOut_closes_active ilikePlain rpcDown rpcDown e w a a).
  - reflexivity.
  - apply list_elem_of_here.
  - apply NoDup_singleton.
  - reflexivity.
  - intros _. reflexivity.
Defined.

Lemma local_session_reaches_leaderboard_witness :
  let e0 := envAt false (utc 2025 9 1 23 35 0) noFailure in
  let e1 := envAt false (utc 2025 9 2 0 5 30) noFailure in
  let w := localWorld [mondayEvening] in
  let w1 := handleSignIn usEastern ilikePlain rpcDown rpcDown e0 w in
  let w2 := handleSignOut ilikePlain rpcDown rpcDown e1 w1 in
  (exists r, r ∈ leaderboard (ui w2)
             /\ LeaderboardRow.name r = normalizeName (name (form w))
             /\ LeaderboardRow.klass r = K1C
             /\ LeaderboardRow.company r = company (form w)
             /\ LeaderboardRow.totalMin r = Z.max 0 ((now e1 - now e0) / 60000))
  /\ statusMsg (ui w1) = Some MsgSignedInLocal
  /\ statusMsg (ui w2) = Some MsgSignedOut
  /\ activeSession (ui w2) = None.
Proof.
  intros e0 e1 w.
  apply (local_session_reaches_leaderboard usEastern ilikePlain rpcDown rpcDown e0 e1 w K1C).
  - reflexivity.
  - reflexivity.
  - reflexivity.
  - by_compute.
  - by_compute.
  - intros s Hs. apply list_elem_of_singleton in Hs as ->. split; by_compute.
Defined.

Lemma handleSignIn_blank_name_witness :
  let e := envAt true (utc 2025 9 1 23 35 0) noFailure in
  let w := remoteWorld "   " [] in
  let w' := handleSignIn usEastern ilikePlain rpcDown rpcDown e w in
  (hasSupabase e = false ->
   exists c, cadet (ui w') = Some c /\ Cadet.name c = ""%string
             /\ statusMsg (ui w') = Some MsgSignedInLocal)
  /\ (hasSupabase e = true ->
      exists c, c ∈ cadets (db w') /\ Cadet.name c = ""%string /\ Cadet.klass c = K1C).
Proof.
  intros e w.
  apply (handleSignIn_blank_name usEastern ilikePlain rpcDown rpcDown e w K1C).
  - reflexivity.
  - by_compute.
  - reflexivity.
  - by_compute.
  - intros _. reflexivity.
Defined.

Lemma duration_formats_injective_witness :
  (formatHM 95 = formatHM 90 -> 95 = 90)
  /\ parseInt (formatHM 95) = Some (95 / 60)
  /\ (95 < 360000 -> String.length (formatHMS 95) = 8%nat)
  /\ (95 < 360000 -> 90 < 360000 -> formatHMS 95 = formatHMS 90 -> 95 = 90).
Proof. apply (duration_formats_injective 95 90); by_compute. Defined.

Lemma saveEdits_stores_override_witness :
  let e := envAt true (utc 2025 9 3 12 0 0) noFailure in
  let w := untouchedPanel withSeconds in
  let w' := saveEdits (fixedZone utcMinus4) ilikePlain rpcDown rpcDown parseInt e w in
  let w'' := loadOverridesMap e w' in
  statusMsg (ui w') = Some MsgSavedEdits
  /\ sessions (db w')
     = applyEdits [("s1"%string, utc 2025 9 1 23 35 0, Some (utc 2025 9 2 0 5 0))]
         (sessions (db w))
  /\ (trim (editOverride (editor w)) = ""%string ->
      leaderboard_overrides (db w') = delete (Cadet.id ada) (leaderboard_overrides (db w)))
  /\ (forall n, trim (editOverride (editor w)) <> ""%string ->
        parseInt (trim (editOverride (editor w))) = Some n ->
        leaderboard_overrides (db w')
        = <[Cadet.id ada := Z.max 0 n]> (leaderboard_overrides (db w))
        /\ forall tab r, r ∈ leaderboard (ui w'') ->
             LeaderboardRow.cadetId r = Some (Cadet.id ada) -> Cadet.id ada <> ""%string ->
             (tab = None \/ tab = Some (LeaderboardRow.klass r)) ->
             {| Shown.row := r; Shown.total := Z.max 0 n |}
               ∈ shownRows tab (leaderboard (ui w'')) (overridesMap (ui w'')))
  /\ overridesMap (ui w') = overridesMap (ui w)
  /\ overridesMap (ui w'') = leaderboard_overrides (db w')
  /\ editCadet (editor w') = None /\ editDraft (editor w') = []
  /\ savingEdits (editor w') = false.
Proof.
  intros e w.
  apply (saveEdits_stores_override (fixedZone utcMinus4) ilikePlain rpcDown rpcDown
           parseInt e w ada
           [("s1"%string, utc 2025 9 1 23 35 0, Some (utc 2025 9 2 0 5 0))]).
  - reflexivity.
  - reflexivity.
  - intros c. reflexivity.
  - by_compute.
  - right. exists 1000. by_compute.
Defined.

Lemma draft_round_trip_witness :
  let s := withSeconds in
  draftUpdate (fixedZone utcMinus4) (draftOf (fixedZone utcMinus4) s)
  = Some (truncated utcMinus4 s)
  /\ draftOf (fixedZone utcMinus4)
       (with_times (truncated utcMinus4 s).1.2 (truncated utcMinus4 s).2 s)
     = draftOf (fixedZone utcMinus4) s
  /\ startOfMinute utcMinus4 (Session.sign_in s) <= Session.sign_in s
       < startOfMinute utcMinus4 (Session.sign_in s) + msPerMinute
  /\ (utcMinus4 mod msPerMinute = 0 ->
      startOfMinute utcMinus4 (Session.sign_in s)
      = Session.sign_in s - Session.sign_in s mod msPerMinute)
  /\ localInputToIso (fixedZone utcMinus4) "" = None.
Proof.
  intros s. apply (draft_round_trip utcMinus4 s).
  - unfold fourDigitYear. split; by_compute.
  - intros out [= <-]. unfold fourDigitYear. split; by_compute.
Defined.

Lemma saveEdits_untouched_panel_witness :
  let e := envAt true (utc 2025 9 3 12 0 0) noFailure in
  let w := untouchedPanel withSeconds in
  let w' := saveEdits (fixedZone utcMinus4) ilikePlain rpcDown rpcDown parseInt e w in
  statusMsg (ui w') = Some MsgSavedEdits
  /\ sessions (db w') = applyEdits (truncated utcMinus4 <$> [withSeconds]) (sessions (db w))
  /\ (forall s, s ∈ [withSeconds] -> s ∈ sessions (db w) ->
        with_times (startOfMinute utcMinus4 (Session.sign_in s))
                   (startOfMinute utcMinus4 <$> Session.sign_out s) s ∈ sessions (db w'))
  /\ (forall s, s ∈ sessions (db w) -> Session.id s ∉ Session.id <$> [withSeconds] ->
        s ∈ sessions (db w')).
Proof.
  intros e w.
  apply (saveEdits_untouched_panel utcMinus4 ilikePlain rpcDown rpcDown parseInt e w ada
           [withSeconds]).
  - reflexivity.
  - reflexivity.
  - intros c. reflexivity.
  - reflexivity.
  - apply NoDup_singleton.
  - constructor; [|constructor]. split.
    + unfold fourDigitYear. split; by_compute.
    + intros out [= <-]. unfold fourDigitYear. split; by_compute.
  - right. exists 1000. by_compute.
Defined.

Lemma removeFromLeaderboard_voids_witness :
  let e := envAt true (utc 2025 9 2 0 40 0) noFailure in
  let af := fun _ : AdminCall => false in
  let r := {| LeaderboardRow.cadetId := Some "cadet-ada"%string;
              LeaderboardRow.name := "Ada Lovelace"; LeaderboardRow.klass := K1C;
              LeaderboardRow.company := "G1"; LeaderboardRow.totalMin := 120 |} in
  let w := remoteWorld "Ada Lovelace" twoLongSessions in
  let w' := (removeFromLeaderboard ilikePlain rpcDown rpcDown e af true r w).1 in
  (removeFromLeaderboard ilikePlain rpcDown rpcDown e af true r w).2
  = Some MsgRemovedCadetSessions
  /\ cadets (db w') = cadets (db w)
  /\ leaderboard_overrides (db w') = leaderboard_overrides (db w)
  /\ select4 <$> sessions (db w') = select4 <$> sessions (db w)
  /\ (forall e' c, selectOpenSession e' (db w') c = selectOpenSession e' (db w) c)
  /\ (af SessionsVoid = false ->
      nonVoidOf "cadet-ada" (sessions (db w')) = []
      /\ filter (fun s => Session.cadet_id s <> "cadet-ada"%string) (sessions (db w'))
         = filter (fun s => Session.cadet_id s <> "cadet-ada"%string) (sessions (db w))
      /\ (forall e', fails e' SessionsSelectRecent = false ->
                     selectRecentSessions e' (db w') "cadet-ada" = Some []))
  /\ (af SessionsVoid = true -> db w' = db w).
Proof.
  intros e af r w.
  apply (removeFromLeaderboard_voids ilikePlain rpcDown rpcDown e af r w "cadet-ada").
  - reflexivity.
  - reflexivity.
  - discriminate.
Defined.

Lemma local_void_keeps_leaderboard_witness :
  let e := envAt false (utc 2025 9 2 3 0 0) noFailure in
  let af := fun _ : AdminCall => false in
  let w := localWorld [mondayEvening] in
  let w1 := (voidCadetSessions rpcDown e af "cadet-ada" w).1 in
  let w2 := (resetLeaderboardAll rpcDown e af true w).1 in
  (voidCadetSessions rpcDown e af "cadet-ada" w).2 = MsgRemovedEntry
  /\ (resetLeaderboardAll rpcDown e af true w).2 = Some MsgResetComplete
  /\ leaderboard (ui w1) = localLeaderboard (now e) (ls w)
  /\ leaderboard (ui w2) = localLeaderboard (now e) (ls w)
  /\ Forall (fun s => Session.cadet_id s = "cadet-ada"%string -> Session.voided s = true)
       (asp_sessions (ls w1))
  /\ Forall (fun s => Session.voided s = true) (asp_sessions (ls w2))
  /\ db w1 = db w /\ db w2 = db w.
Proof.
  intros e af w.
  apply (local_void_keeps_leaderboard rpcDown e af "cadet-ada" w). reflexivity.
Defined.

(** The leaderboard of the specification's scenario on a device in local
    mode: voiding leaves the 180 minutes on the board. *)
Example local_void_scenario :
  LeaderboardRow.totalMin
    <$> leaderboard (ui (voidCadetSessions rpcDown
                           (envAt false (utc 2025 9 2 3 0 0) noFailure)
                           (fun _ => false) "cadet-ada" (localWorld [mondayEvening])).1)
  = [180].
Proof. by_compute. Qed.

Lemma handleSignIn_reuses_identity_witness :
  let e := envAt true (utc 2025 9 1 23 35 0) noFailure in
  let w := remoteWorld "  Ada   Lovelace " [] in
  let w' := handleSignIn usEastern ilikePlain rpcDown rpcDown e w in
  signInCadet ilikePlain e (db w) (form w) K1C = ada
  /\ Cadet.id <$> cadets (db w') = Cadet.id <$> cadets (db w)
  /\ ada ∈ cadets (db w')
  /\ (forall e' d f, hasSupabase e' = false ->
        Cadet.id (signInCadet ilikePlain e' d f K1C) = uuidCadet e').
Proof.
  intros e w.
  apply (handleSignIn_reuses_identity usEastern ilikePlain rpcDown rpcDown e w K1C ada).
  - reflexivity.
  - reflexivity.
  - by_compute.
  - by_compute.
  - reflexivity.
  - reflexivity.
  - by_compute.
  - by_compute.
Defined.

Lemma handleSignIn_signs_in_witness :
  let e := envAt true (utc 2025 9 2 0 40 0) noFailure in
  let w := remoteWorld "Ada Lovelace" oneAfterAnother in
  let s := session "session-new" (utc 2025 9 2 0 40 0) None in
  let w' := handleSignIn usEastern ilikePlain rpcDown rpcDown e w in
  statusMsg (ui w') = Some MsgSignedIn
  /\ sessions (db w') = sessions (db w) ++ [s]
  /\ activeSession (ui w') = Some s
  /\ asp_active_session (ls w') = Some s
  /\ cadet (ui w') = Some ada
  /\ asp_current_cadet (ls w') = Some ada
  /\ ada ∈ cadets (db w').
Proof.
  intros e w s.
  apply (handleSignIn_signs_in usEastern ilikePlain rpcDown rpcDown e w K1C).
  - reflexivity.
  - reflexivity.
  - by_compute.
  - by_compute.
  - reflexivity.
  - reflexivity.
  - by_compute.
  - by_compute.
  - intros x Hx. repeat (apply elem_of_cons in Hx as [->|Hx]; [by_compute|]).
    inversion Hx.
Defined.
